(* ===== verification/_CoqProject ===== *)
-Q . S2P
Prelude.v
Dom.v
Icons.v
Base64.v
Json.v
Types.v
Reducer.v
Toast.v
Repository.v
Storage.v
Service.v
Preview.v
App.v
Async.v
Ui.v
MainContent.v
Layout.v
Settings.v
Sidebar.v
