(* ===== verification/Prelude.v ===== *)
(** * A verification development for DAssigner-AI

    The program (TypeScript/React, under [src/]) is a single-page design
    studio.  Its core is the reducer-driven session state of [src/App.tsx]
    together with the handlers of [AppContextProvider], which sequence calls
    to an external generative model ([src/services/geminiService.ts]) and
    keep the projects in the browser's [localStorage].

    ** Parts of the program and how they interact

    - Data model ([src/types.ts]): [DesignOutput], [HistoryItem], [Toast],
      [ExampleItem], [Project].  File [Types.v], one [Module] per interface,
      each a [Record t] with decidable equality.
    - Session state machine ([appReducer], [initialState], [AppState],
      [AppAction], [src/App.tsx] lines 13-177).  File [Reducer.v]: the state
      is the [Record AppState.t], the actions the [Inductive AppAction] with
      the source's tags as constructors, and [appReducer] a total function
      with one branch per [case].  [Date.now()], read inside the reducer for
      history ids, is an explicit argument [now]; [runActions] folds a
      dispatch sequence.
    - Project repository (the persistence effect, lines 304-332; deletion,
      lines 373-391; start-up restore and legacy migration, lines 233-301).
      File [Repository.v]: the [projects] array as a [list Project.t], the
      [setProjects] updaters as list functions, [sort] followed by [[0]] as
      a stable insertion sort and its head.
    - Model-service client ([geminiService.ts]).  File [Service.v]: the
      error values, the module-level client [ai], [initializeAiClient],
      [getAiClient], [isValidHtml], [sanitizeHtml] (each pattern as a
      left-to-right scan deleting non-overlapping matches), [extractCode]
      with its three strategies, and the operations [createChatSession],
      [sendMessageToChat], [enhancePrompt], [convertHtmlToFramework] and
      [getInspirationPrompts], each taking the outcome of its SDK call as
      an argument ([Sdk]).
    - Handlers and effects (lines 226-480).  File [App.v]: the world
      ([World.t]: reducer state, [projects], [localStorage], client) and a
      state monad [Eff] over it; each handler is the segment it runs up to
      its first [await], returning the [Job] it awaits; [resume] is the
      segment that runs when the awaited call settles with an [Outcome];
      React's commit runs the persistence effect when its dependency array
      changed ([commit]).  User events and settling calls interleave in any
      order: the configuration [Config] (world and pending jobs) moves by
      the [Inductive step], computed by [fire] and [settle].  [initApp] and
      [boot] model the start-up effect on a given storage.  File
      [Async.v]: what the runs of [step] do to the project list and its
      stored text, and the measure under which the awaited calls settle.
    - Stored formats: [JSON.stringify]/[JSON.parse] (file [Json.v]) and the
      object shapes of the project list and the legacy session (file
      [Storage.v]); [btoa]/[atob] of the stored key (file [Base64.v]).
      These are browser functions the program calls; [App.v] is written
      against the interfaces [Codec] and [Base64] below, and the three
      files give the instances ([projects_codec], [legacy_codec],
      [base64]) with their round-trip laws proved.

    - Components.  File [Ui.v]: the guards the components put in front of
      the handlers (the [disabled] attributes and the click handlers'
      tests), as the restriction [ui_step] of the step relation.  File
      [Sidebar.v]: the local state of [Sidebar.tsx] ([SidebarState.t]),
      every control as a [SidebarEvent] with its guard and handler
      ([sidebarHandler]), the effects that follow the application state
      ([sidebarEffects]), and the composed configuration [SConfig] moving
      by [sidebar_step] (sidebar events, other components' events, settling
      application calls, settling enhancement and inspiration calls).
      File [Toast.v]: one [ToastMessage] ([ToastView.t]) driven by its
      50 ms interval, hover pause, dismiss button and delayed [onDismiss]
      ([toastStep], [ticks]); [ToastContainer]'s [onDismiss] dispatches
      [REMOVE_TOAST], and the elements both return ([renderToast],
      [ToastContainer]).  File [Icons.v]: [IconWrapper] and the icons of
      [Icons.tsx] as functions from props to an [svg] element.  File
      [Preview.v]: the documents [VisualPreview.tsx]
      builds around a design (the sandboxed iframe's [iframeSrcDoc] and the
      exported [exportDocument]) and the component's state with its
      listeners and buttons ([previewStep]), and the off-screen container
      [generateCanvas] puts into the application's document
      ([generateCanvasContainer]), and the fragment it renders
      ([renderPreview]) with the step's events as handlers.  File [MainContent.v]: the main
      panel of [MainContent.tsx], with the example designs, the choice of screen
      ([renderInnerContent]), the tab and width state ([MainView.t]) and
      the controls ([mainHandler]), and the panel it renders
      ([renderMain]).  File [Layout.v]: the root [App] and [AppLayout]
      of [App.tsx] ([renderApp]), which place the notifications' and the
      panel's trees ([node_map]) beside the sidebar and the dialog.  File [Settings.v]: the API key dialog
      of [SettingsModal.tsx] ([SettingsView.t], [settingsHandler]).

    ** Files, in dependency order

    - [Prelude.v] (this file): JavaScript string helpers ([js_trim],
      [js_substring], [js_indexOf], decimal printing of [Date.now()]), the
      effect monad, the interfaces [Codec] and [Base64], the [dassigner]
      hint databases, shared lemmas on lists and strings.
    - [Dom.v]: the virtual DOM the components return: elements with
      props as a [gmap] built in JSX order ([obj], [spread]), class tokens,
      handlers as events of the component's step; [Icons.v]: the icons.
    - [Base64.v], [Json.v]: the browser's encoders, executable, with the
      round trips [js_atob_btoa] and [parse_stringify].
    - [Types.v], [Reducer.v], [Toast.v], [Repository.v], [Storage.v],
      [Service.v], [Preview.v], [App.v], [Async.v], [Ui.v],
      [MainContent.v], [Layout.v], [Settings.v], [Sidebar.v], as above.

    ** What the theorems show

    (Theorem names; PROJECT.json gives each claim its id.)

    - [Reducer.v]: history is append-only and ordered between resets
      ([history_commits_in_order]), every reachable state shows a design
      of its history ([wf_reachable]), a design change clears the
      conversion cache except on project load
      ([cache_cleared_on_design_change]), version restore
      ([restore_version_unique], lemma [restore_version_absent]),
      uniqueness of history ids under a strictly increasing clock and
      their collision within one millisecond ([history_ids_unique],
      [same_tick_versions_collide]), the project title
      ([title_of_first_prompt]), and how [LOAD_EXAMPLE] departs from
      [NEW_PROJECT] followed by a generation ([load_example_vs_new_project]).
    - [Repository.v]: the save updater replaces or prepends, the
      most-recent choice is the first project of maximal [lastModified],
      load-then-save round trip, the start-up choice.
    - [App.v]: the handlers' guards and results and the interleavings the
      code leaves open: a late reply lands in a project loaded meanwhile,
      a deleted project comes back, a late conversion is cached for a
      newer design, two concurrent sends open two conversations, a legacy
      plain key that is valid base64 is misread; a reply always leaves
      valid markup on display.
    - [Ui.v]: the guards keep at most one generation in flight while the
      user stays on one project ([ui_one_generation]); a project switch
      lowers the loading flag and lets a second generation start.
    - [Async.v]: the awaited calls terminate, each settling call lowering
      the number still to come ([settle_terminates]); the stored project
      text always decodes to the list in memory ([stored_list_typed]).
    - [Service.v]: [sanitizeHtml] only deletes, each of its patterns
      deletes what it is written for, and one pass can reassemble a
      script element or a handler ([sanitize_deletes_patterns]); a reply in the format the system
      instruction asks for keeps its marker tags, because [extractCode]
      searches for a different end tag; lemma: [sendMessageToChat]
      returns valid markup.
    - [Icons.v]: every icon is an [svg] on which the caller's props win,
      sized by [size] unless given a [width] or [height]
      ([icon_props_render]).
    - [Toast.v]: a notification hides itself after exactly 100 ticks
      ([toast_auto_dismiss]); lemmas: the progress bar follows the ticks, the interval keeps
      scheduling removals, which [REMOVE_TOAST] absorbs, and two
      notifications of the same millisecond are removed together.
    - [Preview.v]: every iframe of the preview is sandboxed with
      [allow-scripts] only, and fullscreen mounts a second one
      ([preview_iframes_sandboxed]); lemmas: each rendered control is
      disabled exactly when the step refuses its click, the copy button is
      enabled again before the clipboard write, the exported file holds the
      design verbatim, the loading indicator never comes back.
    - [MainContent.v]: a design with an unquoted event handler passes the
      sanitizer and reaches the application's own document through the
      image export ([unquoted_handler_reaches_document]); the controls of
      the rendered panel the mouse can reach carry exactly the clicks
      [mainHandler] accepts, and the keyboard reaches the example buttons
      a missing key only greys out ([main_controls_match_handler]); lemmas: the
      panel's mouse events pass the guards of [Ui.v], a loaded example is
      what the panel shows, and the keyboard loads an example without a
      key.
    - [Layout.v]: in the tree [App] renders, the controls the mouse can
      reach (the overlay, the notifications' and the main panel's) fire
      only events the guards of [Ui.v] allow ([app_clicks_allowed]); two
      notifications [addToast] adds in the same millisecond are rendered
      under one React key ([same_tick_toasts_share_key]).
    - [Sidebar.v]: the sidebar's invariant ([sidebar_wf_reachable]); the
      sidebar refines the guarded interface of [Ui.v], so
      [ui_one_generation] holds of every sidebar-driven run
      ([sidebar_refines_ui]); dictation during an enhancement is lost
      ([enhance_discards_dictation]).
    - [Settings.v] (lemmas): the dialog fires only events the guards of
      [Ui.v] allow ([settings_events_allowed]) and saves only trimmed,
      non-empty keys, so a stored key cannot be cleared from the
      interface ([settings_saves_nonempty]).

    ** Abstractions and bounds

    Strings are Rocq [string]s (8-bit characters); JavaScript strings are
    UTF-16, so [length], [substring], [trim], [btoa] and [atob] agree with
    the code on text whose characters are all below U+0100.  Timestamps
    ([Date.now()]) are [N] (non-negative milliseconds, exact below 2^53).
    The opaque SDK [Chat] object is a handle number.  React's dependency
    comparison ([Object.is]) is comparison of values: an effect React
    reruns on a fresh but equal array only refreshes [lastModified].
    Functional [setProjects] updaters run when they are queued.  The JSON
    parser runs on [length + 1] units of fuel, which the round trip shows
    is enough for every text [stringify] writes.  The results of the
    network calls ([createChatSession], [sendMessageToChat],
    [convertHtmlToFramework]) are inputs ([Outcome]) of the model; the
    sidebar's enhancement and inspiration calls settle with an arbitrary
    [generateContent] outcome, applied to the client read when the call
    was made.  The toast timer counts ticks of its 50 ms interval; its
    decrement [(50 / 5000) * 100] is exactly [1] in binary64, so the
    progress is an integer between 0 and 100.

    ** Not modelled

    What the model does with the system instruction of
    [geminiService.ts] (lines 85-288): the text itself is the string
    [Service.systemInstruction], and [instructed_reply_keeps_markers]
    reads the marker tags from it, but a reply is an arbitrary argument;
    the elements the Sidebar and the SettingsModal return (their
    controls, guards and handlers are modelled in [Sidebar.v] and
    [Settings.v], and they appear in [Layout.v] as elements); the context
    object of [App.tsx] ([defaultContextValue], [useAppContext]), whose
    only behaviour is to throw outside the provider, where no component
    is rendered; CSS itself beyond [pointer-events] (class tokens are
    data); [html2canvas], the clipboard and the download link that
    [VisualPreview.tsx] calls, whose outcome is an event.  Two imported
    files are missing from the repository: the code tab [CodePreview.tsx]
    (its conversion button is taken to be enabled whenever a design is
    shown) and the voice hook [useVoiceRecognition.ts] (a transcript may
    arrive at any time while a key is set).
*)

From stdpp Require Export base list gmap strings options.
From Stdlib Require Import DecimalString DecimalN NArith Ascii.

Declare Scope dassigner_scope.
Delimit Scope dassigner_scope with ds.
Open Scope dassigner_scope.

Create HintDb dassigner discriminated.
Create Rewrite HintDb dassigner_rw.

(** ** JavaScript string helpers *)

(** [Date.now().toString()]: decimal digits of a non-negative integer. *)
Definition N_to_string (n : N) : string :=
  NilEmpty.string_of_uint (N.to_uint n).

(** The newline character ["\n"] of template literals. *)
Definition nl : string := String.String (ascii_of_nat 10) EmptyString.

(** [String.prototype.length] and [substring(start, end)] on non-negative
    arguments: both are clamped to the length, and swapped when
    [start > end]. *)
Definition js_length (s : string) : nat := String.length s.
Definition js_substring (s : string) (start stop : nat) : string :=
  let a := Nat.min start (String.length s) in
  let b := Nat.min stop (String.length s) in
  String.substring (Nat.min a b) (Nat.max a b - Nat.min a b) s.

(** White space removed by [String.prototype.trim] in the 8-bit range:
    TAB, LF, VT, FF, CR, SPACE and NO-BREAK SPACE. *)
Definition is_js_space (c : ascii) : bool :=
  match N_of_ascii c with
  | 9%N | 10%N | 11%N | 12%N | 13%N | 32%N | 160%N => true
  | _ => false
  end.

Fixpoint trim_start (s : string) : string :=
  match s with
  | EmptyString => EmptyString
  | String.String c s' => if is_js_space c then trim_start s' else s
  end.

Definition string_rev (s : string) : string :=
  String.string_of_list_ascii (rev (String.list_ascii_of_string s)).

Definition js_trim (s : string) : string :=
  string_rev (trim_start (string_rev (trim_start s))).

(** Truthiness of a string in a condition: only [""] is falsy. *)
Definition js_truthy (s : string) : bool :=
  match s with EmptyString => false | _ => true end.

(** [a || b] on strings. *)
Definition js_or (a b : string) : string := if js_truthy a then a else b.

(** ** The effect monad of the handlers

    A handler runs against a world [W] and records the dispatched actions;
    [Eff W A] threads the world. *)
Definition Eff (W A : Type) : Type := W -> A * W.

Definition eff_ret {W A} (a : A) : Eff W A := fun w => (a, w).
Definition eff_bind {W A B} (m : Eff W A) (k : A -> Eff W B) : Eff W B :=
  fun w => let '(a, w') := m w in k a w'.

Notation "x <- m ;; k" := (eff_bind m (fun x => k))
  (at level 100, m at next level, right associativity) : dassigner_scope.
Notation "m ;; k" := (eff_bind m (fun _ => k))
  (at level 100, right associativity) : dassigner_scope.

(** ** Shared lemmas *)

Lemma N_to_string_inj n m : N_to_string n = N_to_string m -> n = m.
Proof.
  unfold N_to_string. intros H.
  apply (f_equal NilEmpty.uint_of_string) in H.
  rewrite !NilEmpty.usu in H. injection H as H.
  apply (f_equal N.of_uint) in H. by rewrite !DecimalN.Unsigned.of_to in H.
Qed.

Lemma substring_0_full s n : String.length s <= n -> String.substring 0 n s = s.
Proof.
  revert n. induction s as [|c s IH]; intros [|n] Hn; simpl in *; try lia; auto.
  f_equal. apply IH. lia.
Qed.

Lemma substring_0_min s n :
  String.substring 0 (Nat.min n (String.length s)) s = String.substring 0 n s.
Proof.
  revert n. induction s as [|c s IH]; intros [|n]; simpl; auto. by rewrite IH.
Qed.

Lemma js_substring_0 s n : js_substring s 0 n = String.substring 0 n s.
Proof. unfold js_substring. simpl. rewrite Nat.sub_0_r. apply substring_0_min. Qed.

Lemma length_substring_0 s n : String.length (String.substring 0 n s) = Nat.min n (String.length s).
Proof.
  revert n. induction s as [|c s IH]; intros [|n]; simpl; auto.
Qed.

(** [find] returns an element of the list that satisfies the test. *)
Lemma find_some_in {A} (f : A -> bool) l x : find f l = Some x -> In x l /\ f x = true.
Proof. apply find_some. Qed.

Lemma find_app_l {A} (f : A -> bool) l1 l2 x :
  find f l1 = Some x -> find f (l1 ++ l2) = Some x.
Proof.
  induction l1 as [|y l1 IH]; simpl; [discriminate|].
  destruct (f y); auto.
Qed.

Lemma find_app_none {A} (f : A -> bool) l1 l2 :
  find f l1 = None -> find f (l1 ++ l2) = find f l2.
Proof.
  induction l1 as [|y l1 IH]; simpl; auto.
  destruct (f y); [discriminate | auto].
Qed.

#[export] Hint Resolve find_app_l : dassigner.
#[export] Hint Rewrite @find_app_none using assumption : dassigner_rw.

(** Case analysis on the boolean string equality of the code ([===]). *)
Ltac destruct_streq :=
  repeat match goal with
  | |- context [String.eqb ?a ?b] => destruct (String.eqb_spec a b); subst
  | H : context [String.eqb ?a ?b] |- _ => destruct (String.eqb_spec a b); subst
  end.

(** [items.find(it => it.id === k)] on a list whose keys are distinct
    returns the element with that key. *)
Lemma find_key_nodup {A} (key : A -> string) (l : list A) x :
  NoDup (map key l) -> In x l ->
  find (fun y => String.eqb (key y) (key x)) l = Some x.
Proof.
  induction l as [|y l IH]; simpl; [done|].
  intros [Hy Hnd]%NoDup_cons [->|Hin].
  - by rewrite String.eqb_refl.
  - destruct (String.eqb_spec (key y) (key x)) as [Heq|]; [|by apply IH].
    exfalso. apply Hy. rewrite Heq. apply list_elem_of_In, in_map, Hin.
Qed.

(** [find] on a list none of whose elements passes the test. *)
Lemma find_none_forall {A} (f : A -> bool) l :
  Forall (fun y => f y = false) l -> find f l = None.
Proof. induction 1 as [|y l Hy _ IH]; simpl; [done|]. by rewrite Hy. Qed.

#[export] Hint Resolve find_key_nodup find_none_forall : dassigner.

Lemma string_app_empty_r (s : string) : s +:+ "" = s.
Proof. induction s as [|c s IH]; [done|]. exact (f_equal (String.String c) IH). Qed.

Lemma string_length_app (s1 s2 : string) :
  String.length (s1 +:+ s2) = String.length s1 + String.length s2.
Proof. induction s1 as [|c s1 IH]; [done|]. exact (f_equal S IH). Qed.

Lemma string_length_cons c s : String.length (String.String c s) = S (String.length s).
Proof. done. Qed.

Lemma string_length_empty : String.length "" = 0.
Proof. done. Qed.

#[export] Hint Rewrite string_app_empty_r string_length_app length_substring_0
  string_length_cons string_length_empty : dassigner_rw.

(** ** Interfaces of the platform functions the program calls *)

(** [JSON.stringify] and [JSON.parse] at one type: [decode] fails ([None])
    where [JSON.parse] throws or the value has another shape; what the
    program writes, it reads back. *)
Class Codec (A : Type) := {
  encode : A -> string;
  decode : string -> option A;
  decode_encode : forall a, decode (encode a) = Some a
}.

(** [btoa] and [atob] on strings of 8-bit characters: [atob] fails
    ([None]) where it throws. *)
Class Base64 := {
  btoa : string -> string;
  atob : string -> option string;
  atob_btoa : forall s, atob (btoa s) = Some s;
  btoa_truthy : forall s, js_truthy s = true -> js_truthy (btoa s) = true
}.

(** Outcome of an awaited call: a value or the thrown error's message. *)
Inductive Result (A : Type) := Ok (a : A) | Err (message : string).
Arguments Ok {A} a.
Arguments Err {A} message.

(** [s.indexOf(t)] ([None] for [-1]) and [s.includes(t)]. *)
Definition js_indexOf (s t : string) : option nat := String.index 0 t s.
Definition js_includes (s t : string) : bool :=
  match js_indexOf s t with Some _ => true | None => false end.

(** [s.startsWith(t)]. *)
Definition js_startsWith (s t : string) : bool := String.prefix t s.


(** [String.append] does not unfold under [simpl]; its two equations. *)
Lemma string_app_cons c s t : String.String c s +:+ t = String.String c (s +:+ t).
Proof. done. Qed.

Lemma string_app_nil t : "" +:+ t = t.
Proof. done. Qed.

Lemma string_app_assoc (s t u : string) : (s +:+ t) +:+ u = s +:+ (t +:+ u).
Proof. induction s as [|c s IH]; [done|]. rewrite !string_app_cons, IH. done. Qed.

Lemma prefix_app (b c : string) : String.prefix b (b +:+ c) = true.
Proof.
  induction b as [|x b IH]; [by destruct c|]. rewrite string_app_cons. simpl.
  by destruct (Ascii.ascii_dec x x).
Qed.

(** [(a + b + c).includes(b)]. *)
Lemma js_includes_app (a b c : string) : js_includes (a +:+ b +:+ c) b = true.
Proof.
  unfold js_includes, js_indexOf.
  enough (exists n, String.index 0 b (a +:+ b +:+ c) = Some n) as [n ->] by done.
  induction a as [|x a [n IH]].
  - rewrite string_app_nil. destruct b as [|y b].
    + rewrite string_app_nil. destruct c; by exists 0.
    + exists 0. rewrite string_app_cons.
      assert (Hp : String.prefix (String.String y b) (String.String y (b +:+ c)) = true)
        by (rewrite <- string_app_cons; apply prefix_app).
      cbn [String.index]. by rewrite Hp.
  - rewrite string_app_cons. cbn [String.index].
    destruct (String.prefix b _); [by exists 0|]. rewrite IH. by exists (S n).
Qed.

(** A text that includes [b] still includes it behind a prefix. *)
Lemma js_includes_prefix (a s b : string) :
  js_includes s b = true -> js_includes (a +:+ s) b = true.
Proof.
  unfold js_includes, js_indexOf. intros H.
  destruct (String.index 0 b s) as [n|] eqn:Hs; [|discriminate]. clear H.
  enough (exists m, String.index 0 b (a +:+ s) = Some m) as [m ->] by done.
  induction a as [|x a [m IH]]; [by exists n|].
  rewrite string_app_cons. cbn [String.index].
  destruct (String.prefix b _); [by exists 0|]. rewrite IH. by exists (S m).
Qed.
