(* ===== verification/Dom.v ===== *)
(** The React elements the components return, as a virtual DOM tree.

    An element is its tag, its props and its children.  Props are a finite
    map from the JSX attribute name to its value ([gmap]); a JSX element
    [<X a={1} {...p}>] builds its props object left to right, so a later
    attribute or spread wins over an earlier one: [obj] and [spread] below.
    Components are expanded: a tree holds only host elements ([div],
    [button], [svg], ...) and text.  A [className] is kept as its
    white-space separated tokens, which is all the browser reads of it; an
    event handler is the event of the component's step function it runs,
    so the tree is parameterised by the event type [E]. *)

From S2P Require Import Prelude.

Inductive AttrVal (E : Type) :=
| AStr (s : string)
| ANum (n : Z)
| ABool (b : bool)
| AClass (tokens : list string)
| AStyle (decls : list (string * string))
| AHandler (e : E).
Arguments AStr {E} s.
Arguments ANum {E} n.
Arguments ABool {E} b.
Arguments AClass {E} tokens.
Arguments AStyle {E} decls.
Arguments AHandler {E} e.

Notation Attrs E := (gmap string (AttrVal E)).

Inductive Node (E : Type) :=
| El (tag : string) (attrs : Attrs E) (children : list (Node E))
| Text (s : string).
Arguments El {E} tag attrs children.
Arguments Text {E} s.

(** The induction principle with a hypothesis on every child, as for
    other trees with lists of subtrees. *)
Definition Node_ind' {E} (P : Node E -> Prop)
    (fel : forall tag a cs, Forall P cs -> P (El tag a cs))
    (ftext : forall s, P (Text s)) : forall n, P n :=
  fix F n := match n with
  | El tag a cs => fel tag a cs
      ((fix G cs : Forall P cs := match cs with
        | [] => Forall_nil_2 _
        | c :: cs' => Forall_cons_2 _ _ _ (F c) (G cs') end) cs)
  | Text s => ftext s
  end.

(** An object literal [{k1: v1, ..., kn: vn}]: a repeated key keeps its
    last value. *)
Definition obj {E} (l : list (string * AttrVal E)) : Attrs E :=
  foldl (fun m '(k, v) => <[k := v]> m) ∅ l.

(** [{...a, ...b}]: the keys of [b] win. *)
Definition spread {E} (a b : Attrs E) : Attrs E := b ∪ a.

(** A component given the props [p] minus the key [k] it destructures. *)
Definition without {E} (k : string) (p : Attrs E) : Attrs E := delete k p.

Definition attr {E} (k : string) (n : Node E) : option (AttrVal E) :=
  match n with El _ a _ => a !! k | Text _ => None end.

Definition tagOf {E} (n : Node E) : string :=
  match n with El t _ _ => t | Text _ => EmptyString end.

Definition childrenOf {E} (n : Node E) : list (Node E) :=
  match n with El _ _ cs => cs | Text _ => [] end.

(** The elements of a tree in document order, the root first. *)
Fixpoint descendants {E} (n : Node E) : list (Node E) :=
  match n with
  | El _ _ cs => n :: (fix go cs := match cs with
                       | [] => []
                       | c :: cs' => descendants c ++ go cs' end) cs
  | Text _ => [n]
  end.

Definition forest {E} (ns : list (Node E)) : list (Node E) :=
  concat (map descendants ns).

(** [querySelectorAll(tag)] on a rendered fragment. *)
Definition elementsByTag {E} (t : string) (ns : list (Node E)) : list (Node E) :=
  filter (fun n => bool_decide (tagOf n = t)) (forest ns).

(** The concatenated text of a tree ([textContent]). *)
Fixpoint textContent {E} (n : Node E) : string :=
  match n with
  | El _ _ cs => (fix go cs := match cs with
                  | [] => EmptyString
                  | c :: cs' => textContent c +:+ go cs' end) cs
  | Text s => s
  end.

(** The tokens of a [className] string: the browser splits it at white
    space and ignores empty tokens.  [acc] holds the current token
    reversed. *)
Fixpoint tokens_go (acc : list Ascii.ascii) (s : string) : list string :=
  let flush rest := match acc with
                    | [] => rest
                    | _ => String.string_of_list_ascii (rev acc) :: rest end in
  match s with
  | EmptyString => flush []
  | String.String c s' => if is_js_space c then flush (tokens_go [] s') else tokens_go (c :: acc) s'
  end.

Definition classTokens (s : string) : list string := tokens_go [] s.

(** [className="..."] *)
Definition cls {E} (s : string) : AttrVal E := AClass (classTokens s).

(** [<tag className="c">children</tag>] *)
Definition elc {E} (tag c : string) (children : list (Node E)) : Node E :=
  El tag (obj [("className", cls c)]) children.

(** The [pointer-events] an element gets: its own [pointer-events-auto]
    or [pointer-events-none] class, else its parent's (the property is
    inherited). *)
Definition pointerEvents {E} (inherited : bool) (a : Attrs E) : bool :=
  match a !! "className" with
  | Some (AClass l) =>
      if bool_decide ("pointer-events-auto" ∈ l) then true
      else if bool_decide ("pointer-events-none" ∈ l) then false
      else inherited
  | _ => inherited
  end.

(** The elements a mouse can hit, in document order. *)
Fixpoint reachable_go {E} (inherited : bool) (n : Node E) : list (Node E) :=
  match n with
  | El _ a cs =>
      let pe := pointerEvents inherited a in
      (if pe then [n] else []) ++ concat (map (reachable_go pe) cs)
  | Text _ => []
  end.

Definition mouseReachable {E} (n : Node E) : list (Node E) := reachable_go true n.

Definition clickHandler {E} (n : Node E) : option E :=
  match attr "onClick" n with Some (AHandler e) => Some e | _ => None end.

Definition attr_map {E F} (f : E -> F) (v : AttrVal E) : AttrVal F :=
  match v with
  | AStr s => AStr s | ANum n => ANum n | ABool b => ABool b
  | AClass l => AClass l | AStyle d => AStyle d | AHandler e => AHandler (f e)
  end.

(** A component's tree placed in a parent whose handlers wrap its
    events. *)
Fixpoint node_map {E F} (f : E -> F) (n : Node E) : Node F :=
  match n with
  | El t a cs => El t (attr_map f <$> a) (map (node_map f) cs)
  | Text s => Text s
  end.

(** ** Lemmas *)

Lemma lookup_obj_snoc {E} l k v (j : string) :
  obj (l ++ [(k, v)]) !! j = if bool_decide (k = j) then Some v else obj (E:=E) l !! j.
Proof.
  unfold obj. rewrite foldl_app. cbn. case_bool_decide; subst.
  - by rewrite lookup_insert_eq.
  - by rewrite lookup_insert_ne.
Qed.

Lemma lookup_spread {E} (a b : Attrs E) k :
  spread a b !! k = match b !! k with Some v => Some v | None => a !! k end.
Proof. unfold spread. rewrite lookup_union. by destruct (b !! k), (a !! k). Qed.

Lemma lookup_spread_r {E} (a b : Attrs E) k v : b !! k = Some v -> spread a b !! k = Some v.
Proof. intros H. by rewrite lookup_spread, H. Qed.

Lemma lookup_spread_l {E} (a b : Attrs E) k : b !! k = None -> spread a b !! k = a !! k.
Proof. intros H. by rewrite lookup_spread, H. Qed.

Lemma spread_assoc {E} (a b c : Attrs E) : spread (spread a b) c = spread a (spread b c).
Proof. unfold spread. by rewrite map_union_assoc. Qed.

Lemma forest_app {E} (xs ys : list (Node E)) : forest (xs ++ ys) = forest xs ++ forest ys.
Proof. unfold forest. by rewrite map_app, concat_app. Qed.

#[export] Hint Rewrite @lookup_spread @forest_app : dassigner_rw.

Lemma pointerEvents_map {E F} (f : E -> F) b a :
  pointerEvents b (attr_map f <$> a) = pointerEvents b a.
Proof. unfold pointerEvents. rewrite lookup_fmap. by destruct (a !! "className") as [[]|]. Qed.

Lemma clickHandler_map {E F} (f : E -> F) n :
  clickHandler (node_map f n) = f <$> clickHandler n.
Proof.
  destruct n as [t a cs|]; [|done]. unfold clickHandler; cbn. rewrite lookup_fmap.
  by destruct (a !! "onClick") as [[]|].
Qed.

(** The handlers of a wrapped tree are the wrapped handlers. *)
Lemma reachable_handlers_map {E F} (f : E -> F) b n :
  omap clickHandler (reachable_go b (node_map f n)) = f <$> omap clickHandler (reachable_go b n).
Proof.
  revert b. induction n as [t a cs IH|s] using Node_ind'; intros b; [|done].
  cbn [node_map reachable_go]. rewrite pointerEvents_map.
  rewrite !omap_app, fmap_app. f_equal.
  - destruct (pointerEvents b a); [|done]. unfold clickHandler; cbn. rewrite lookup_fmap.
    by destruct (a !! "onClick") as [[]|].
  - induction IH as [|c cs Hc _ IHcs]; [done|]. cbn. by rewrite !omap_app, fmap_app, Hc, IHcs.
Qed.

Lemma reachable_handlers_El {E} b t (a : Attrs E) cs :
  omap clickHandler (reachable_go b (El t a cs)) =
    (if pointerEvents b a then from_option (fun e => [e]) [] (clickHandler (El t a cs)) else []) ++
    concat (map (fun c => omap clickHandler (reachable_go (pointerEvents b a) c)) cs).
Proof.
  cbn [reachable_go]. rewrite omap_app. f_equal.
  - destruct (pointerEvents b a); [|done]. cbn. by destruct (clickHandler _).
  - induction cs as [|c cs IH]; [done|]. cbn. by rewrite omap_app, IH.
Qed.

Lemma reachable_handlers_elc {E} b t c (cs : list (Node E)) :
  omap clickHandler (reachable_go b (elc t c cs)) =
    concat (map (fun ch => omap clickHandler (reachable_go (pointerEvents b (obj (E:=E) [("className", cls c)])) ch)) cs).
Proof. unfold elc. rewrite reachable_handlers_El. by destruct (pointerEvents _ _). Qed.
