(* ===== verification/Icons.v ===== *)
(** The icon components of [src/components/icons/Icons.tsx].

    [IconWrapper] (lines 15-23) takes the icon props, reads [size] with
    the default ['md'] and renders an [svg] whose [width] and [height] are
    [sizeMap[size]], with [strokeWidth={2}] and [fill="none"], followed by
    the rest of the props ([{...props}], which carries [children]).  Each
    exported icon (lines 25-199) renders [IconWrapper] with its own
    [viewBox] and [stroke] or [fill], then the caller's props, and its
    paths as JSX children, which replace any [children] the caller gave.

    The theorem: every icon is an [svg] whose size comes from [size]
    unless the caller sets [width] or [height], on which every attribute
    the caller gives wins, which never carries [size], and whose paths do
    not depend on the props. *)

From S2P Require Import Prelude Dom.

(** [type IconProps] (lines 3-5): SVG props with an optional [size]. *)
Notation IconProps E := (Attrs E).

(** [const defaultSize] (line 7). *)
Definition defaultSize : string := "md".

(** [sizeMap[size]] (lines 8-13): [undefined] for any other key. *)
Definition sizeMap (size : string) : option string :=
  if String.eqb size "sm" then Some "1rem"
  else if String.eqb size "md" then Some "1.25rem"
  else if String.eqb size "lg" then Some "1.5rem"
  else if String.eqb size "xl" then Some "2rem"
  else None.

(** The destructuring [{ size = defaultSize, ...props }]: the default
    applies when [size] is [undefined]. *)
Definition sizeOf {E} (p : IconProps E) : option string :=
  match p !! "size" with
  | None => Some defaultSize
  | Some (AStr s) => Some s
  | Some _ => None
  end.

(** [IconWrapper] (lines 15-23).  A prop whose value is [undefined] is
    absent from the element. *)
Definition IconWrapper {E} (p : IconProps E) (children : list (Node E)) : Node E :=
  let dims := match sizeOf p ≫= sizeMap with
              | Some w => [("width", AStr w); ("height", AStr w)]
              | None => []
              end in
  El "svg" (spread (obj (dims ++ [("strokeWidth", ANum 2); ("fill", AStr "none")])) (without "size" p))
    children.

(** [DAssignerLogoIcon] (lines 25-29). *)
Definition DAssignerLogoIcon {E} (props : Attrs E) : Node E :=
  IconWrapper (spread (obj [("viewBox", AStr "0 0 24 24"); ("fill", AStr "currentColor")]) props) [
    El "path" (obj [("fillRule", AStr "evenodd"); ("d", AStr "M12 2.25L3 7.875v8.25L12 21.75l9-5.625V7.875L12 2.25zM12 4.5l6.875 4.313L12 13.125l-6.875-4.313L12 4.5zM4.5 9.177l6.875 4.313V19.5L4.5 14.823V9.177zm15 0v5.646L12.625 19.5V13.49l6.875-4.313z"); ("clipRule", AStr "evenodd")]) []].

(** [BoltIcon] (lines 31-35). *)
Definition BoltIcon {E} (props : Attrs E) : Node E :=
  IconWrapper (spread (obj [("viewBox", AStr "0 0 24 24"); ("stroke", AStr "currentColor")]) props) [
    El "path" (obj [("strokeLinecap", AStr "round"); ("strokeLinejoin", AStr "round"); ("d", AStr "m3.75 13.5 10.5-11.25L12 10.5h8.25L9.75 21.75 12 13.5H3.75Z")]) []].

(** [SendIcon] (lines 37-41). *)
Definition SendIcon {E} (props : Attrs E) : Node E :=
  IconWrapper (spread (obj [("viewBox", AStr "0 0 24 24"); ("stroke", AStr "currentColor")]) props) [
    El "path" (obj [("strokeLinecap", AStr "round"); ("strokeLinejoin", AStr "round"); ("d", AStr "M6 12 3.269 3.125A59.769 59.769 0 0 1 21.485 12 59.768 59.768 0 0 1 3.27 20.875L5.999 12Zm0 0h7.5")]) []].

(** [MicrophoneIcon] (lines 43-49). *)
Definition MicrophoneIcon {E} (props : Attrs E) : Node E :=
  IconWrapper (spread (obj [("viewBox", AStr "0 0 24 24"); ("stroke", AStr "currentColor")]) props) [
    El "path" (obj [("strokeLinecap", AStr "round"); ("strokeLinejoin", AStr "round"); ("d", AStr "M12 18.75a6 6 0 0 0 6-6v-1.5a6 6 0 0 0-12 0v1.5a6 6 0 0 0 6 6Z")]) [];
    El "path" (obj [("strokeLinecap", AStr "round"); ("strokeLinejoin", AStr "round"); ("d", AStr "M19.5 14.25v.75a7.5 7.5 0 0 1-7.5 7.5s-7.5-3.358-7.5-7.5v-.75")]) [];
    El "path" (obj [("strokeLinecap", AStr "round"); ("strokeLinejoin", AStr "round"); ("d", AStr "M9 11.25v-1.5a3 3 0 0 1 6 0v1.5")]) []].

(** [DownloadIcon] (lines 51-55). *)
Definition DownloadIcon {E} (props : Attrs E) : Node E :=
  IconWrapper (spread (obj [("viewBox", AStr "0 0 24 24"); ("stroke", AStr "currentColor")]) props) [
    El "path" (obj [("strokeLinecap", AStr "round"); ("strokeLinejoin", AStr "round"); ("d", AStr "M3 16.5v2.25A2.25 2.25 0 0 0 5.25 21h13.5A2.25 2.25 0 0 0 21 18.75V16.5M16.5 12 12 16.5m0 0L7.5 12m4.5 4.5V3")]) []].

(** [CopyIcon] (lines 57-61). *)
Definition CopyIcon {E} (props : Attrs E) : Node E :=
  IconWrapper (spread (obj [("viewBox", AStr "0 0 24 24"); ("stroke", AStr "currentColor")]) props) [
    El "path" (obj [("strokeLinecap", AStr "round"); ("strokeLinejoin", AStr "round"); ("d", AStr "M15.75 17.25v3.375c0 .621-.504 1.125-1.125 1.125h-9.75a1.125 1.125 0 0 1-1.125-1.125V7.875c0-.621.504-1.125 1.125-1.125H6.75a9.06 9.06 0 0 1 1.5.124m7.5 10.376h3.375c.621 0 1.125-.504 1.125-1.125V11.25c0-4.46-3.243-8.161-7.5-8.876a9.06 9.06 0 0 0-1.5-.124H9.375c-.621 0-1.125.504-1.125 1.125v3.5m7.5 10.375H9.375a1.125 1.125 0 0 1-1.125-1.125v-9.25m12 6.625v-1.875a3.375 3.375 0 0 0-3.375-3.375h-1.5a1.125 1.125 0 0 1-1.125-1.125v-1.5a3.375 3.375 0 0 0-3.375-3.375H9.75")]) []].

(** [CheckIcon] (lines 63-67). *)
Definition CheckIcon {E} (props : Attrs E) : Node E :=
  IconWrapper (spread (obj [("viewBox", AStr "0 0 24 24"); ("stroke", AStr "currentColor")]) props) [
    El "path" (obj [("strokeLinecap", AStr "round"); ("strokeLinejoin", AStr "round"); ("d", AStr "m4.5 12.75 6 6 9-13.5")]) []].

(** [EyeIcon] (lines 69-74). *)
Definition EyeIcon {E} (props : Attrs E) : Node E :=
  IconWrapper (spread (obj [("viewBox", AStr "0 0 24 24"); ("stroke", AStr "currentColor")]) props) [
    El "path" (obj [("strokeLinecap", AStr "round"); ("strokeLinejoin", AStr "round"); ("d", AStr "M2.036 12.322a1.012 1.012 0 0 1 0-.639C3.423 7.51 7.36 4.5 12 4.5c4.638 0 8.573 3.007 9.963 7.178.07.207.07.431 0 .639C20.577 16.49 16.64 19.5 12 19.5c-4.638 0-8.573-3.007-9.963-7.178Z")]) [];
    El "path" (obj [("strokeLinecap", AStr "round"); ("strokeLinejoin", AStr "round"); ("d", AStr "M15 12a3 3 0 1 1-6 0 3 3 0 0 1 6 0Z")]) []].

(** [CodeBracketIcon] (lines 76-80). *)
Definition CodeBracketIcon {E} (props : Attrs E) : Node E :=
  IconWrapper (spread (obj [("viewBox", AStr "0 0 24 24"); ("stroke", AStr "currentColor")]) props) [
    El "path" (obj [("strokeLinecap", AStr "round"); ("strokeLinejoin", AStr "round"); ("d", AStr "M17.25 6.75 22.5 12l-5.25 5.25m-10.5 0L1.5 12l5.25-5.25m7.5-3-4.5 16.5")]) []].

(** [SparklesIcon] (lines 82-86). *)
Definition SparklesIcon {E} (props : Attrs E) : Node E :=
  IconWrapper (spread (obj [("viewBox", AStr "0 0 24 24"); ("stroke", AStr "currentColor")]) props) [
    El "path" (obj [("strokeLinecap", AStr "round"); ("strokeLinejoin", AStr "round"); ("d", AStr "M9.813 15.904 9 18.75l-.813-2.846a4.5 4.5 0 0 0-3.09-3.09L2.25 12l2.846-.813a4.5 4.5 0 0 0 3.09-3.09L9 5.25l.813 2.846a4.5 4.5 0 0 0 3.09 3.09L15.75 12l-2.846.813a4.5 4.5 0 0 0-3.09 3.09ZM18.259 8.715 18 9.75l-.259-1.035a3.375 3.375 0 0 0-2.455-2.456L14.25 6l1.036-.259a3.375 3.375 0 0 0 2.455-2.456L18 2.25l.259 1.035a3.375 3.375 0 0 0 2.456 2.456L21.75 6l-1.035.259a3.375 3.375 0 0 0-2.456 2.456Z")]) []].

(** [ImageIcon] (lines 88-92). *)
Definition ImageIcon {E} (props : Attrs E) : Node E :=
  IconWrapper (spread (obj [("viewBox", AStr "0 0 24 24"); ("stroke", AStr "currentColor")]) props) [
    El "path" (obj [("strokeLinecap", AStr "round"); ("strokeLinejoin", AStr "round"); ("d", AStr "M2.25 15.75l5.159-5.159a2.25 2.25 0 0 1 3.182 0l5.159 5.159m-1.5-1.5 1.409-1.409a2.25 2.25 0 0 1 3.182 0l2.909 2.909m-18 3.75h16.5a1.5 1.5 0 0 0 1.5-1.5V6a1.5 1.5 0 0 0-1.5-1.5H3.75A1.5 1.5 0 0 0 2.25 6v12a1.5 1.5 0 0 0 1.5 1.5Zm10.5-11.25h.008v.008h-.008V8.25Zm.375 0a.375.375 0 1 1-.75 0 .375.375 0 0 1 .75 0Z")]) []].

(** [MagicWandIcon] (lines 94-101). *)
Definition MagicWandIcon {E} (props : Attrs E) : Node E :=
  IconWrapper (spread (obj [("viewBox", AStr "0 0 24 24"); ("stroke", AStr "currentColor")]) props) [
    El "path" (obj [("strokeLinecap", AStr "round"); ("strokeLinejoin", AStr "round"); ("d", AStr "M9.53 16.122a3 3 0 0 0-3.483 0l-1.263 1.263a3 3 0 0 0 0 4.242a3 3 0 0 0 4.242 0l1.263-1.263a3 3 0 0 0 0-4.242Z")]) [];
    El "path" (obj [("strokeLinecap", AStr "round"); ("strokeLinejoin", AStr "round"); ("d", AStr "M15.53 8.122a3 3 0 0 0-3.483 0l-1.263 1.263a3 3 0 0 0 0 4.242a3 3 0 0 0 4.242 0l1.263-1.263a3 3 0 0 0 0-4.242Z")]) [];
    El "path" (obj [("strokeLinecap", AStr "round"); ("strokeLinejoin", AStr "round"); ("d", AStr "M9.53 16.122a3 3 0 0 0 3.483 0l1.263-1.263a3 3 0 0 0 0-4.242a3 3 0 0 0-4.242 0L9.53 16.122Z")]) [];
    El "path" (obj [("strokeLinecap", AStr "round"); ("strokeLinejoin", AStr "round"); ("d", AStr "m11 2.25-1.75 3.5-3.5 1.75 3.5 1.75L11 13.5l1.75-3.5 3.5-1.75-3.5-1.75L11 2.25Z")]) []].

(** [HistoryIcon] (lines 103-107). *)
Definition HistoryIcon {E} (props : Attrs E) : Node E :=
  IconWrapper (spread (obj [("viewBox", AStr "0 0 24 24"); ("stroke", AStr "currentColor")]) props) [
    El "path" (obj [("strokeLinecap", AStr "round"); ("strokeLinejoin", AStr "round"); ("d", AStr "M12 6v6h4.5m4.5 0a9 9 0 1 1-18 0 9 9 0 0 1 18 0Z")]) []].

(** [NewChatIcon] (lines 109-113). *)
Definition NewChatIcon {E} (props : Attrs E) : Node E :=
  IconWrapper (spread (obj [("viewBox", AStr "0 0 24 24"); ("stroke", AStr "currentColor")]) props) [
    El "path" (obj [("strokeLinecap", AStr "round"); ("strokeLinejoin", AStr "round"); ("d", AStr "M19.5 14.25v-2.625a3.375 3.375 0 0 0-3.375-3.375h-1.5A1.125 1.125 0 0 1 13.5 7.125v-1.5a3.375 3.375 0 0 0-3.375-3.375H8.25m3.75 9v6m3-3H9m1.5-12H5.625c-.621 0-1.125.504-1.125 1.125v17.25c0 .621.504 1.125 1.125 1.125h12.75c.621 0 1.125-.504 1.125-1.125V11.25a9 9 0 0 0-9-9Z")]) []].

(** [XMarkIcon] (lines 115-119). *)
Definition XMarkIcon {E} (props : Attrs E) : Node E :=
  IconWrapper (spread (obj [("viewBox", AStr "0 0 24 24"); ("stroke", AStr "currentColor")]) props) [
    El "path" (obj [("strokeLinecap", AStr "round"); ("strokeLinejoin", AStr "round"); ("d", AStr "M6 18 18 6M6 6l12 12")]) []].

(** [Bars3Icon] (lines 121-125). *)
Definition Bars3Icon {E} (props : Attrs E) : Node E :=
  IconWrapper (spread (obj [("viewBox", AStr "0 0 24 24"); ("stroke", AStr "currentColor")]) props) [
    El "path" (obj [("strokeLinecap", AStr "round"); ("strokeLinejoin", AStr "round"); ("d", AStr "M3.75 6.75h16.5M3.75 12h16.5m-16.5 5.25h16.5")]) []].

(** [UserIcon] (lines 127-131). *)
Definition UserIcon {E} (props : Attrs E) : Node E :=
  IconWrapper (spread (obj [("viewBox", AStr "0 0 24 24"); ("stroke", AStr "currentColor")]) props) [
    El "path" (obj [("strokeLinecap", AStr "round"); ("strokeLinejoin", AStr "round"); ("d", AStr "M15.75 6a3.75 3.75 0 1 1-7.5 0 3.75 3.75 0 0 1 7.5 0ZM4.501 20.118a7.5 7.5 0 0 1 14.998 0A17.933 17.933 0 0 1 12 21.75c-2.676 0-5.216-.584-7.499-1.632Z")]) []].

(** [Cog6ToothIcon] (lines 133-138). *)
Definition Cog6ToothIcon {E} (props : Attrs E) : Node E :=
  IconWrapper (spread (obj [("viewBox", AStr "0 0 24 24"); ("stroke", AStr "currentColor")]) props) [
    El "path" (obj [("strokeLinecap", AStr "round"); ("strokeLinejoin", AStr "round"); ("d", AStr "M9.594 3.94c.09-.542.56-.94 1.11-.94h2.593c.55 0 1.02.398 1.11.94l.213 1.281c.063.374.313.686.645.87.074.04.147.083.22.127.325.196.72.257 1.075.124l1.217-.456a1.125 1.125 0 0 1 1.37.49l1.296 2.247a1.125 1.125 0 0 1-.26 1.431l-1.003.827c-.293.24-.438.613-.43.992a6.759 6.759 0 0 1 0 1.985c-.008.379.137.752.43.992l1.004.827c.424.35.534.954.26 1.43l-1.298 2.247a1.125 1.125 0 0 1-1.369.491l-1.217-.456c-.355-.133-.75-.072-1.076.124a6.47 6.47 0 0 1-.22.128c-.333.183-.582.495-.644.869l-.213 1.28c-.09.543-.56.94-1.11.94h-2.594c-.55 0-1.02-.398-1.11-.94l-.213-1.281c-.063-.374-.313-.686-.645-.87a6.52 6.52 0 0 1-.22-.127c-.325-.196-.72-.257-1.075-.124l-1.217.456a1.125 1.125 0 0 1-1.37-.49l-1.296-2.247a1.125 1.125 0 0 1 .26-1.431l1.004-.827c.292-.24.437-.613.43-.992a6.759 6.759 0 0 1 0-1.985c.008-.379-.137-.752-.43-.992l-1.004-.827a1.125 1.125 0 0 1-.26-1.43l1.298-2.247a1.125 1.125 0 0 1 1.37-.491l1.216.456c.356.133.75.072 1.076-.124.072-.044.146-.087.22-.128.332-.183.582-.495.644-.869l.214-1.281Z")]) [];
    El "path" (obj [("strokeLinecap", AStr "round"); ("strokeLinejoin", AStr "round"); ("d", AStr "M15 12a3 3 0 1 1-6 0 3 3 0 0 1 6 0Z")]) []].

(** [PencilIcon] (lines 140-144). *)
Definition PencilIcon {E} (props : Attrs E) : Node E :=
  IconWrapper (spread (obj [("viewBox", AStr "0 0 24 24"); ("stroke", AStr "currentColor")]) props) [
    El "path" (obj [("strokeLinecap", AStr "round"); ("strokeLinejoin", AStr "round"); ("d", AStr "m16.862 4.487 1.687-1.688a1.875 1.875 0 1 1 2.652 2.652L10.582 16.07a4.5 4.5 0 0 1-1.897 1.13L6 18l.8-2.685a4.5 4.5 0 0 1 1.13-1.897l8.932-8.931Zm0 0L19.5 7.125M18 14v4.75A2.25 2.25 0 0 1 15.75 21H5.25A2.25 2.25 0 0 1 3 18.75V8.25A2.25 2.25 0 0 1 5.25 6H10")]) []].

(** [PuzzlePieceIcon] (lines 146-151). *)
Definition PuzzlePieceIcon {E} (props : Attrs E) : Node E :=
  IconWrapper (spread (obj [("viewBox", AStr "0 0 24 24"); ("stroke", AStr "currentColor")]) props) [
    El "path" (obj [("strokeLinecap", AStr "round"); ("strokeLinejoin", AStr "round"); ("d", AStr "M14.25 6.087c0-.595.484-1.08 1.08-1.08h.36c.62 0 1.125.504 1.125 1.125v.375c0 .621-.504 1.125-1.125 1.125h-.375a1.08 1.08 0 0 1-1.08-1.08V6.087Zm-3.375 0c0-.595.484-1.08 1.08-1.08h.36c.62 0 1.125.504 1.125 1.125v.375c0 .621-.504 1.125-1.125 1.125h-.375a1.08 1.08 0 0 1-1.08-1.08V6.087Zm-3.375 0c0-.595.484-1.08 1.08-1.08h.36c.62 0 1.125.504 1.125 1.125v.375c0 .621-.504 1.125-1.125 1.125h-.375a1.08 1.08 0 0 1-1.08-1.08V6.087Z")]) [];
    El "path" (obj [("strokeLinecap", AStr "round"); ("strokeLinejoin", AStr "round"); ("d", AStr "M4.5 19.523c0-1.23.636-2.345 1.623-2.933.987-.588 2.232-.933 3.527-.933h.18c1.295 0 2.54.345 3.527.933.987.588 1.623 1.703 1.623 2.933s-.636 2.345-1.623 2.933c-.987.588-2.232.933-3.527.933h-.18c-1.295 0-2.54-.345-3.527-.933C5.136 21.868 4.5 20.753 4.5 19.523Z")]) []].

(** [DevicePhoneMobileIcon] (lines 153-157). *)
Definition DevicePhoneMobileIcon {E} (props : Attrs E) : Node E :=
  IconWrapper (spread (obj [("viewBox", AStr "0 0 24 24"); ("stroke", AStr "currentColor")]) props) [
    El "path" (obj [("strokeLinecap", AStr "round"); ("strokeLinejoin", AStr "round"); ("d", AStr "M10.5 1.5H8.25A2.25 2.25 0 0 0 6 3.75v16.5a2.25 2.25 0 0 0 2.25 2.25h7.5A2.25 2.25 0 0 0 18 20.25V3.75A2.25 2.25 0 0 0 15.75 1.5h-2.25m-3.75 0h3.75M12 18.75h.008v.008H12v-.008Z")]) []].

(** [DeviceTabletIcon] (lines 159-163). *)
Definition DeviceTabletIcon {E} (props : Attrs E) : Node E :=
  IconWrapper (spread (obj [("viewBox", AStr "0 0 24 24"); ("stroke", AStr "currentColor")]) props) [
    El "path" (obj [("strokeLinecap", AStr "round"); ("strokeLinejoin", AStr "round"); ("d", AStr "M10.5 19.5h3m-6.75 2.25h10.5a2.25 2.25 0 0 0 2.25-2.25v-15a2.25 2.25 0 0 0-2.25-2.25H6.75A2.25 2.25 0 0 0 4.5 4.5v15a2.25 2.25 0 0 0 2.25 2.25Z")]) []].

(** [ComputerDesktopIcon] (lines 165-169). *)
Definition ComputerDesktopIcon {E} (props : Attrs E) : Node E :=
  IconWrapper (spread (obj [("viewBox", AStr "0 0 24 24"); ("stroke", AStr "currentColor")]) props) [
    El "path" (obj [("strokeLinecap", AStr "round"); ("strokeLinejoin", AStr "round"); ("d", AStr "M9 17.25v1.007a3 3 0 0 1-.879 2.122L7.5 21h9l-.621-.621A3 3 0 0 1 15 18.257V17.25m6-12V15a2.25 2.25 0 0 1-2.25 2.25H5.25A2.25 2.25 0 0 1 3 15V5.25A2.25 2.25 0 0 1 5.25 3h13.5A2.25 2.25 0 0 1 21 5.25Z")]) []].

(** [InformationCircleIcon] (lines 171-175). *)
Definition InformationCircleIcon {E} (props : Attrs E) : Node E :=
  IconWrapper (spread (obj [("viewBox", AStr "0 0 24 24"); ("stroke", AStr "currentColor")]) props) [
    El "path" (obj [("strokeLinecap", AStr "round"); ("strokeLinejoin", AStr "round"); ("d", AStr "m11.25 11.25.041-.02a.75.75 0 0 1 1.063.852l-.708 2.836a.75.75 0 0 0 1.063.853l.041-.021M21 12a9 9 0 1 1-18 0 9 9 0 0 1 18 0Zm-9-3.75h.008v.008H12V8.25Z")]) []].

(** [ArrowTopRightOnSquareIcon] (lines 177-181). *)
Definition ArrowTopRightOnSquareIcon {E} (props : Attrs E) : Node E :=
  IconWrapper (spread (obj [("viewBox", AStr "0 0 24 24"); ("stroke", AStr "currentColor")]) props) [
    El "path" (obj [("strokeLinecap", AStr "round"); ("strokeLinejoin", AStr "round"); ("d", AStr "M13.5 6H5.25A2.25 2.25 0 0 0 3 8.25v10.5A2.25 2.25 0 0 0 5.25 21h10.5A2.25 2.25 0 0 0 18 18.75V10.5m-10.5 6L21 3m0 0h-5.25M21 3v5.25")]) []].

(** [TrashIcon] (lines 183-187). *)
Definition TrashIcon {E} (props : Attrs E) : Node E :=
  IconWrapper (spread (obj [("viewBox", AStr "0 0 24 24"); ("stroke", AStr "currentColor")]) props) [
    El "path" (obj [("strokeLinecap", AStr "round"); ("strokeLinejoin", AStr "round"); ("d", AStr "M14.74 9l-.346 9m-4.788 0L9.26 9m9.968-3.21c.342.052.682.107 1.022.166m-1.022-.165L18.16 19.673a2.25 2.25 0 0 1-2.244 2.077H8.084a2.25 2.25 0 0 1-2.244-2.077L4.772 5.79m14.456 0a48.108 48.108 0 0 0-3.478-.397m-12 .562c.34-.059.68-.114 1.022-.165m0 0a48.11 48.11 0 0 1 3.478-.397m7.5 0v-.916c0-1.18-.91-2.134-2.09-2.134H8.09c-1.18 0-2.09.954-2.09 2.134v.916m7.5 0a48.667 48.667 0 0 0-7.5 0")]) []].

(** [FolderOpenIcon] (lines 189-193). *)
Definition FolderOpenIcon {E} (props : Attrs E) : Node E :=
  IconWrapper (spread (obj [("viewBox", AStr "0 0 24 24"); ("stroke", AStr "currentColor")]) props) [
    El "path" (obj [("strokeLinecap", AStr "round"); ("strokeLinejoin", AStr "round"); ("d", AStr "M2.25 12.75V12A2.25 2.25 0 0 1 4.5 9.75h15A2.25 2.25 0 0 1 21.75 12v.75m-8.69-6.44-2.12-2.12a1.5 1.5 0 0 0-1.061-.44H4.5A2.25 2.25 0 0 0 2.25 6v12a2.25 2.25 0 0 0 2.25 2.25h15A2.25 2.25 0 0 0 21.75 18V9a2.25 2.25 0 0 0-2.25-2.25h-5.379a1.5 1.5 0 0 1-1.06-.44Z")]) []].

(** [ChevronDownIcon] (lines 195-199). *)
Definition ChevronDownIcon {E} (props : Attrs E) : Node E :=
  IconWrapper (spread (obj [("viewBox", AStr "0 0 24 24"); ("stroke", AStr "currentColor")]) props) [
    El "path" (obj [("strokeLinecap", AStr "round"); ("strokeLinejoin", AStr "round"); ("d", AStr "m19.5 8.25-7.5 7.5-7.5-7.5")]) []].

(** The exported icons, in the order of the file. *)
Definition allIcons {E} : list (Attrs E -> Node E) :=
  [DAssignerLogoIcon;
   BoltIcon;
   SendIcon;
   MicrophoneIcon;
   DownloadIcon;
   CopyIcon;
   CheckIcon;
   EyeIcon;
   CodeBracketIcon;
   SparklesIcon;
   ImageIcon;
   MagicWandIcon;
   HistoryIcon;
   NewChatIcon;
   XMarkIcon;
   Bars3Icon;
   UserIcon;
   Cog6ToothIcon;
   PencilIcon;
   PuzzlePieceIcon;
   DevicePhoneMobileIcon;
   DeviceTabletIcon;
   ComputerDesktopIcon;
   InformationCircleIcon;
   ArrowTopRightOnSquareIcon;
   TrashIcon;
   FolderOpenIcon;
   ChevronDownIcon].
(** ** Lemmas *)

(** The attributes every icon has before the caller's props. *)
Definition iconBase {E} (icon : IconProps E -> Node E) : Prop :=
  exists base paths,
    (forall p, icon p = IconWrapper (spread base p) paths) /\
    base !! "size" = None /\ base !! "viewBox" = Some (AStr "0 0 24 24") /\
    base !! "width" = None /\ base !! "height" = None.

Lemma allIcons_base {E} : Forall (@iconBase E) allIcons.
Proof.
  unfold allIcons.
  repeat (apply Forall_cons_2; [red; do 2 eexists; split_and!; [intros; reflexivity|reflexivity..]|]).
  constructor.
Qed.

Lemma IconWrapper_lookup {E} (q : IconProps E) cs k :
  k <> "size" -> attr k (IconWrapper q cs) =
    match q !! k with
    | Some v => Some v
    | None => obj (match sizeOf q ≫= sizeMap with
                   | Some w => [("width", AStr w); ("height", AStr w)]
                   | None => [] end ++ [("strokeWidth", ANum 2); ("fill", AStr "none")]) !! k
    end.
Proof. intros Hk. cbn. rewrite lookup_spread. unfold without. by rewrite lookup_delete_ne by congruence. Qed.

Lemma IconWrapper_size {E} (q : IconProps E) cs : attr "size" (IconWrapper q cs) = None.
Proof.
  cbn. rewrite lookup_spread. unfold without. rewrite lookup_delete_eq.
  by destruct (sizeOf q ≫= sizeMap).
Qed.

Lemma sizeOf_spread {E} (base p : IconProps E) :
  base !! "size" = None -> sizeOf (spread base p) = sizeOf p.
Proof. intros H. unfold sizeOf. rewrite lookup_spread. by destruct (p !! "size"); [|rewrite H]. Qed.

Lemma IconWrapper_dim {E} (base p : IconProps E) cs k s w :
  k = "width" \/ k = "height" -> base !! "size" = None ->
  sizeOf p = Some s -> sizeMap s = Some w -> p !! k = None -> base !! k = None ->
  attr k (IconWrapper (spread base p) cs) = Some (AStr w).
Proof.
  intros Hk Hb Hs Hw Hp Hbk. rewrite IconWrapper_lookup by (destruct Hk; subst; done).
  rewrite lookup_spread, Hp, Hbk, sizeOf_spread, Hs by done. cbn. rewrite Hw.
  by destruct Hk; subst.
Qed.

(** ** Claims *)

(** C39: Every icon of [Icons.tsx] renders an [svg] element on which
    every prop the caller gives wins (over the icon's [viewBox], [stroke]
    or [fill] and over the wrapper's defaults), the [size] prop is never
    an attribute, [width] and [height] are [sizeMap[size]] (size ['md']
    when absent) unless the caller sets them, the [viewBox] is
    [0 0 24 24] unless the caller sets it, and the paths are the icon's
    own whatever the props. *)
Theorem icon_props_render {E} (p : IconProps E) :
  Forall (fun icon =>
    tagOf (icon p) = "svg" /\
    attr "size" (icon p) = None /\
    (forall k v, k <> "size" -> p !! k = Some v -> attr k (icon p) = Some v) /\
    (p !! "viewBox" = None -> attr "viewBox" (icon p) = Some (AStr "0 0 24 24")) /\
    (forall s w, sizeOf p = Some s -> sizeMap s = Some w ->
       (p !! "width" = None -> attr "width" (icon p) = Some (AStr w)) /\
       (p !! "height" = None -> attr "height" (icon p) = Some (AStr w))) /\
    (p !! "size" = None -> p !! "width" = None -> p !! "height" = None ->
       attr "width" (icon p) = Some (AStr "1.25rem") /\ attr "height" (icon p) = Some (AStr "1.25rem")) /\
    childrenOf (icon p) = childrenOf (icon ∅)) allIcons.
Proof.
  eapply Forall_impl; [apply allIcons_base|].
  intros icon (base & paths & Hi & Hs & Hv & Hw & Hh). rewrite !Hi. split_and!.
  - reflexivity.
  - apply IconWrapper_size.
  - intros k v Hk Hp. by rewrite IconWrapper_lookup, lookup_spread, Hp.
  - intros Hp. by rewrite IconWrapper_lookup, lookup_spread, Hp, Hv.
  - intros s w Hsz Hm. split; intros Hp; eapply IconWrapper_dim; eauto.
  - intros Hsz Hpw Hph. assert (Hd : sizeOf p = Some "md") by (unfold sizeOf; by rewrite Hsz).
    split; eapply IconWrapper_dim; eauto.
  - reflexivity.
Qed.

(** ** Witnesses *)

Lemma icon_props_render_witness :
  attr "width" (XMarkIcon (E:=unit) (obj [("size", AStr "lg")])) = Some (AStr "1.5rem") /\
  attr "className" (XMarkIcon (E:=unit) (obj [("className", AClass ["h-4"; "w-4"])]))
    = Some (AClass ["h-4"; "w-4"]).
Proof.
  assert (Hin : XMarkIcon ∈ @allIcons unit).
  { unfold allIcons. repeat first [apply list_elem_of_here | apply list_elem_of_further]. }
  split.
  - destruct (proj1 (Forall_forall _ _) (icon_props_render (obj [("size", AStr "lg")])) _ Hin)
      as (_ & _ & _ & _ & Hd & _ & _).
    exact (proj1 (Hd "lg" "1.5rem" eq_refl eq_refl) eq_refl).
  - destruct (proj1 (Forall_forall _ _) (icon_props_render (obj [("className", AClass ["h-4"; "w-4"])])) _ Hin)
      as (_ & _ & Hk & _).
    exact (Hk "className" _ ltac:(discriminate) eq_refl).
Defined.
