(* ===== verification/Base64.v ===== *)
(** The browser's [btoa] and [atob] (HTML Standard, "forgiving-base64"),
    which [src/App.tsx] uses to store the API key (lines 242 and 354), on
    strings of 8-bit characters.  [btoa] cuts the bytes into groups of
    three, each read as a 24-bit number and written as four digits of the
    alphabet [A-Za-z0-9+/], padding the last group with [=].  [atob] drops
    ASCII white space, drops one or two final [=] when the length is a
    multiple of 4, fails on a length of the form [4k+1] or on a character
    outside the alphabet, and reads the digits back as bytes, ignoring the
    bits left over.  The instance [base64] discharges the [Base64]
    interface of the prelude. *)

From S2P Require Import Prelude.
From Stdlib Require Import Ascii.

(** The digit of value [n < 64]. *)
Definition b64digit (n : N) : ascii :=
  if (n <? 26)%N then ascii_of_N (n + 65)
  else if (n <? 52)%N then ascii_of_N (n + 71)
  else if (n <? 62)%N then ascii_of_N (n - 4)
  else if (n =? 62)%N then "+"%char else "/"%char.

(** The value of a digit. *)
Definition b64value (c : ascii) : option N :=
  let n := N_of_ascii c in
  if (65 <=? n)%N && (n <=? 90)%N then Some (n - 65)%N
  else if (97 <=? n)%N && (n <=? 122)%N then Some (n - 71)%N
  else if (48 <=? n)%N && (n <=? 57)%N then Some (n + 4)%N
  else if (n =? 43)%N then Some 62%N
  else if (n =? 47)%N then Some 63%N
  else None.

Definition byte (c : ascii) : N := N_of_ascii c.

(** Groups of three bytes become four digits. *)
Fixpoint btoa_list (l : list ascii) : list ascii :=
  match l with
  | a :: b :: c :: rest =>
      let n := (byte a * 65536 + byte b * 256 + byte c)%N in
      b64digit (n / 262144) :: b64digit ((n / 4096) mod 64) ::
      b64digit ((n / 64) mod 64) :: b64digit (n mod 64) :: btoa_list rest
  | [a; b] =>
      let n := (byte a * 65536 + byte b * 256)%N in
      [b64digit (n / 262144); b64digit ((n / 4096) mod 64); b64digit ((n / 64) mod 64); "="%char]
  | [a] =>
      let n := (byte a * 65536)%N in
      [b64digit (n / 262144); b64digit ((n / 4096) mod 64); "="%char; "="%char]
  | [] => []
  end.

(** Groups of four digit values become three bytes; a final group of three
    or two values gives two or one byte. *)
Fixpoint decode_values (vs : list N) : list ascii :=
  match vs with
  | a :: b :: c :: d :: rest =>
      let n := (a * 262144 + b * 4096 + c * 64 + d)%N in
      ascii_of_N (n / 65536) :: ascii_of_N ((n / 256) mod 256) :: ascii_of_N (n mod 256)
        :: decode_values rest
  | [a; b; c] =>
      let n := (a * 262144 + b * 4096 + c * 64)%N in
      [ascii_of_N (n / 65536); ascii_of_N ((n / 256) mod 256)]
  | [a; b] =>
      let n := (a * 262144 + b * 4096)%N in [ascii_of_N (n / 65536)]
  | _ => []
  end.

(** ASCII white space of the HTML Standard: TAB, LF, FF, CR, SPACE. *)
Definition is_ascii_whitespace (c : ascii) : bool :=
  match N_of_ascii c with 9%N | 10%N | 12%N | 13%N | 32%N => true | _ => false end.

(** Drop one or two final [=]. *)
Definition strip_padding (l : list ascii) : list ascii :=
  match rev l with
  | x :: y :: r =>
      if (x =? "=")%char then if (y =? "=")%char then rev r else rev (y :: r) else l
  | [x] => if (x =? "=")%char then [] else l
  | [] => l
  end.

Fixpoint values (l : list ascii) : option (list N) :=
  match l with
  | [] => Some []
  | c :: rest =>
      match b64value c, values rest with
      | Some v, Some vs => Some (v :: vs)
      | _, _ => None
      end
  end.

Definition atob_list (l : list ascii) : option (list ascii) :=
  let data := List.filter (fun c => negb (is_ascii_whitespace c)) l in
  let data := if Nat.eqb (length data mod 4) 0 then strip_padding data else data in
  if Nat.eqb (length data mod 4) 1 then None
  else match values data with
       | Some vs => Some (decode_values vs)
       | None => None
       end.

Definition js_btoa (s : string) : string :=
  String.string_of_list_ascii (btoa_list (String.list_ascii_of_string s)).

Definition js_atob (s : string) : option string :=
  String.string_of_list_ascii <$> atob_list (String.list_ascii_of_string s).

(** The digit values [btoa] writes, before the padding. *)
Fixpoint enc_values (l : list ascii) : list N :=
  match l with
  | a :: b :: c :: rest =>
      let n := (byte a * 65536 + byte b * 256 + byte c)%N in
      (n / 262144)%N :: ((n / 4096) mod 64)%N :: ((n / 64) mod 64)%N :: (n mod 64)%N :: enc_values rest
  | [a; b] =>
      let n := (byte a * 65536 + byte b * 256)%N in
      [(n / 262144)%N; ((n / 4096) mod 64)%N; ((n / 64) mod 64)%N]
  | [a] => let n := (byte a * 65536)%N in [(n / 262144)%N; ((n / 4096) mod 64)%N]
  | [] => []
  end.

Definition padding (l : list ascii) : list ascii :=
  match length l mod 3 with
  | 1 => ["="%char; "="%char]
  | 2 => ["="%char]
  | _ => []
  end.

(** ** Lemmas *)

Lemma list3_ind {A} (P : list A -> Prop) :
  P [] -> (forall a, P [a]) -> (forall a b, P [a; b]) ->
  (forall a b c r, P r -> P (a :: b :: c :: r)) -> forall l, P l.
Proof.
  intros H0 H1 H2 H3.
  exact (fix IH l := match l with
    | a :: b :: c :: r => H3 a b c r (IH r)
    | [a; b] => H2 a b | [a] => H1 a | [] => H0 end).
Qed.

Lemma byte_lt c : (byte c < 256)%N.
Proof. apply N_ascii_bounded. Qed.

Lemma b64digit_value n : (n < 64)%N -> b64value (b64digit n) = Some n.
Proof.
  intros Hn. unfold b64digit, b64value.
  destruct (N.ltb_spec n 26); [rewrite N_ascii_embedding by lia;
    repeat first [rewrite (proj2 (N.leb_le _ _)) by lia | rewrite (proj2 (N.leb_gt _ _)) by lia];
    simpl; f_equal; lia|].
  destruct (N.ltb_spec n 52); [rewrite N_ascii_embedding by lia;
    repeat first [rewrite (proj2 (N.leb_le _ _)) by lia | rewrite (proj2 (N.leb_gt _ _)) by lia];
    simpl; f_equal; lia|].
  destruct (N.ltb_spec n 62); [rewrite N_ascii_embedding by lia;
    repeat first [rewrite (proj2 (N.leb_le _ _)) by lia | rewrite (proj2 (N.leb_gt _ _)) by lia];
    simpl; f_equal; lia|].
  destruct (N.eqb_spec n 62); [by subst|]. assert (n = 63)%N as -> by lia. done.
Qed.

Lemma ascii_of_byte c n : n = byte c -> ascii_of_N n = c.
Proof. intros ->. apply ascii_N_embedding. Qed.

(** The arithmetic of one group: the four 6-bit digits of a number put
    back together give the number, and the bytes of a 24-bit number are the
    three it was made of. *)
Lemma digits_sum n :
  (n / 262144 * 262144 + (n / 4096) mod 64 * 4096 + (n / 64) mod 64 * 64 + n mod 64 = n)%N.
Proof.
  pose proof (N.Div0.div_mod n 64) as E1.
  pose proof (N.Div0.div_mod (n / 64) 64) as E2.
  pose proof (N.Div0.div_mod (n / 4096) 64) as E3.
  rewrite N.Div0.div_div in E2, E3.
  change (64 * 64)%N with 4096%N in E2. change (4096 * 64)%N with 262144%N in E3.
  remember (n / 64)%N as q1. remember (n / 4096)%N as q2. remember (n / 262144)%N as q3.
  lia.
Qed.

Lemma bytes_of (x y z : N) : (y < 256)%N -> (z < 256)%N ->
  let n := (x * 65536 + y * 256 + z)%N in
  (n / 65536 = x /\ (n / 256) mod 256 = y /\ n mod 256 = z)%N.
Proof.
  intros Hy Hz n.
  assert (n / 256 = x * 256 + y)%N as Hd by (symmetry; apply (N.div_unique _ _ _ z); lia).
  split_and!.
  - symmetry. apply (N.div_unique _ _ _ (y * 256 + z)); lia.
  - rewrite Hd. symmetry. apply (N.mod_unique _ _ x); lia.
  - symmetry. apply (N.mod_unique _ _ (x * 256 + y)); lia.
Qed.

Lemma mod_mult_0 (k b : N) : b <> 0%N -> ((k * b) mod b = 0)%N.
Proof. intros. symmetry. apply (N.mod_unique _ _ k); lia. Qed.

Lemma div_mult_exact (k b : N) : b <> 0%N -> ((k * b) / b = k)%N.
Proof. intros. symmetry. apply (N.div_unique _ _ _ 0); lia. Qed.

Lemma decode_enc_values l : decode_values (enc_values l) = l.
Proof.
  induction l as [|a|a b|a b c r IH] using list3_ind; cbn [enc_values decode_values].
  - done.
  - set (n := (byte a * 65536)%N).
    assert (Hm : ((n / 64) mod 64 = 0 /\ n mod 64 = 0)%N).
    { subst n. replace (byte a * 65536)%N with (byte a * 1024 * 64)%N by lia.
      rewrite div_mult_exact, mod_mult_0 by lia.
      replace (byte a * 1024)%N with (byte a * 16 * 64)%N by lia.
      rewrite mod_mult_0 by lia. done. }
    pose proof (digits_sum n) as Hs. pose proof (bytes_of (byte a) 0 0) as Hb.
    cbn zeta in Hb. rewrite !N.add_0_r in Hb. fold n in Hb.
    assert (Hn : (n / 262144 * 262144 + (n / 4096) mod 64 * 4096 = n)%N) by lia.
    rewrite Hn. destruct Hb as (H1 & _); [lia|lia|]. rewrite H1, ascii_N_embedding. done.
  - set (n := (byte a * 65536 + byte b * 256)%N).
    assert (Hm : (n mod 64 = 0)%N).
    { subst n. replace (byte a * 65536 + byte b * 256)%N with ((byte a * 1024 + byte b * 4) * 64)%N by lia.
      apply mod_mult_0; lia. }
    pose proof (digits_sum n) as Hs.
    pose proof (bytes_of (byte a) (byte b) 0 (byte_lt b) ltac:(lia)) as Hb.
    cbn zeta in Hb. rewrite N.add_0_r in Hb. fold n in Hb.
    assert (Hn : (n / 262144 * 262144 + (n / 4096) mod 64 * 4096 + (n / 64) mod 64 * 64 = n)%N) by lia.
    rewrite Hn. destruct Hb as (H1 & H2 & _).
    rewrite H1, H2, !ascii_N_embedding. done.
  - set (n := (byte a * 65536 + byte b * 256 + byte c)%N).
    pose proof (bytes_of (byte a) (byte b) (byte c) (byte_lt b) (byte_lt c)) as Hb.
    fold n in Hb. rewrite digits_sum. destruct Hb as (H1 & H2 & H3).
    rewrite H1, H2, H3, !ascii_N_embedding, IH. done.
Qed.

Lemma enc_values_lt l : Forall (fun v => (v < 64)%N) (enc_values l).
Proof.
  assert (Hd : forall n, (n < 16777216)%N -> (n / 262144 < 64)%N)
    by (intros n Hn; apply N.Div0.div_lt_upper_bound; lia).
  induction l as [|a|a b|a b c r IH] using list3_ind; cbn [enc_values];
    repeat constructor; try apply N.mod_lt; try apply Hd; try lia; auto.
  - pose proof (byte_lt a). lia.
  - pose proof (byte_lt a). pose proof (byte_lt b). lia.
  - pose proof (byte_lt a). pose proof (byte_lt b). pose proof (byte_lt c). lia.
Qed.

Lemma padding_cons3 {a b c : ascii} r : padding (a :: b :: c :: r) = padding r.
Proof.
  unfold padding. cbn [length].
  replace (S (S (S (length r)))) with (length r + 1 * 3) by lia.
  rewrite Nat.Div0.mod_add. done.
Qed.

Lemma btoa_split l : btoa_list l = map b64digit (enc_values l) ++ padding l.
Proof.
  induction l as [|a|a b|a b c r IH] using list3_ind; try done.
  cbn [btoa_list enc_values map]. rewrite IH, padding_cons3. done.
Qed.

Lemma values_digits vs :
  Forall (fun v => (v < 64)%N) vs -> values (map b64digit vs) = Some vs.
Proof.
  induction 1 as [|v vs Hv _ IH]; [done|].
  cbn. rewrite b64digit_value, IH by done. done.
Qed.

(** No digit is white space or [=]: every character of [btoa]'s output
    survives [atob]'s filter. *)
Lemma whitespace_no_value c : is_ascii_whitespace c = true -> b64value c = None.
Proof. destruct c as [[] [] [] [] [] [] [] []]; vm_compute; congruence. Qed.

Lemma b64digit_not_space n : (n < 64)%N -> is_ascii_whitespace (b64digit n) = false.
Proof.
  intros Hn. destruct (is_ascii_whitespace _) eqn:E; [|done].
  apply whitespace_no_value in E. rewrite b64digit_value in E by done. done.
Qed.

Lemma b64digit_not_pad n : (n < 64)%N -> (b64digit n =? "=")%char = false.
Proof.
  intros Hn. apply Ascii.eqb_neq. intros E.
  pose proof (b64digit_value n Hn) as V. rewrite E in V. done.
Qed.

Lemma length_btoa_mod l : length (btoa_list l) mod 4 = 0.
Proof.
  induction l as [|a|a b|a b c r IH] using list3_ind; try done.
  cbn [btoa_list length]. replace (S (S (S (S (length (btoa_list r))))))
    with (length (btoa_list r) + 1 * 4) by lia.
  rewrite Nat.Div0.mod_add. done.
Qed.

Lemma length_enc_values_mod l : length (enc_values l) mod 4 <> 1.
Proof.
  induction l as [|a|a b|a b c r IH] using list3_ind; try done.
  cbn [enc_values length]. replace (S (S (S (S (length (enc_values r))))))
    with (length (enc_values r) + 1 * 4) by lia.
  rewrite Nat.Div0.mod_add. done.
Qed.

Lemma strip_padding_digits d p :
  Forall (fun c => (c =? "=")%char = false) d ->
  p = [] \/ p = ["="%char] \/ p = ["="%char; "="%char] ->
  strip_padding (d ++ p) = d.
Proof.
  intros Hd Hp. apply Forall_rev in Hd. rewrite <- (rev_involutive d).
  revert Hd. generalize (rev d). intros e He.
  unfold strip_padding. rewrite rev_app_distr, rev_involutive.
  destruct Hp as [-> | [-> | ->]]; cbn [rev app]; destruct e as [|x [|y r]];
    repeat match goal with H : Forall _ (_ :: _) |- _ => inversion_clear H end;
    cbn; repeat match goal with H : (_ =? _)%char = false |- _ => rewrite H end;
    rewrite ?app_nil_r; done.
Qed.

Lemma padding_cases l :
  padding l = [] \/ padding l = ["="%char] \/ padding l = ["="%char; "="%char].
Proof.
  unfold padding. pose proof (Nat.mod_upper_bound (length l) 3).
  destruct (length l mod 3) as [|[|[|k]]]; auto; lia.
Qed.

Lemma filter_all {A} (f : A -> bool) l : Forall (fun x => f x = true) l -> List.filter f l = l.
Proof. induction 1 as [|x l Hx _ IH]; [done|]. cbn. rewrite Hx, IH. done. Qed.

(** [atob] reads back what [btoa] wrote. *)
Lemma atob_btoa_list l : atob_list (btoa_list l) = Some l.
Proof.
  pose proof (enc_values_lt l) as Hlt.
  unfold atob_list. rewrite filter_all.
  2:{ rewrite btoa_split. apply Forall_app. split.
      - apply Forall_map. eapply Forall_impl; [exact Hlt|].
        intros v Hv. rewrite b64digit_not_space by done. done.
      - destruct (padding_cases l) as [-> | [-> | ->]]; repeat constructor. }
  rewrite length_btoa_mod. cbn [Nat.eqb].
  rewrite btoa_split, strip_padding_digits.
  3: apply padding_cases.
  2:{ apply Forall_map. eapply Forall_impl; [exact Hlt|]. intros v Hv. by apply b64digit_not_pad. }
  rewrite length_map. destruct (Nat.eqb_spec (length (enc_values l) mod 4) 1) as [E|_].
  { by apply length_enc_values_mod in E. }
  rewrite values_digits, decode_enc_values by done. done.
Qed.

Lemma js_atob_btoa s : js_atob (js_btoa s) = Some s.
Proof.
  unfold js_atob, js_btoa. rewrite String.list_ascii_of_string_of_list_ascii, atob_btoa_list.
  cbn. rewrite String.string_of_list_ascii_of_string. done.
Qed.

Lemma length_btoa_list l : length (btoa_list l) = 4 * ((length l + 2) / 3).
Proof.
  induction l as [|a|a b|a b c r IH] using list3_ind; try done.
  cbn [btoa_list length]. rewrite IH.
  replace (S (S (S (length r))) + 2) with (length r + 2 + 1 * 3) by lia.
  rewrite Nat.div_add by lia. remember ((length r + 2) / 3). lia.
Qed.

(** [btoa] of a non-empty string is non-empty. *)
Lemma js_btoa_truthy s : js_truthy s = true -> js_truthy (js_btoa s) = true.
Proof.
  destruct s as [|c s]; [done|]. intros _. unfold js_btoa.
  cbn [String.list_ascii_of_string]. destruct (btoa_list (c :: _)) eqn:E; [|done].
  apply (f_equal length) in E. rewrite length_btoa_list in E. cbn [length] in E.
  replace (S (length (String.list_ascii_of_string s)) + 2)
    with (length (String.list_ascii_of_string s) + 1 * 3) in E by lia.
  rewrite Nat.div_add in E by lia. lia.
Qed.

#[global] Instance base64 : Base64 := {|
  btoa := js_btoa; atob := js_atob;
  atob_btoa := js_atob_btoa; btoa_truthy := js_btoa_truthy |}.
