(* ===== verification/Json.v ===== *)
(** [JSON.stringify] and [JSON.parse] (ECMA-262, sections 25.5.1-25.5.2)
    on the values the program stores: [src/App.tsx] writes the project list
    with [JSON.stringify] (lines 329 and 376) and reads it and the legacy
    session back with [JSON.parse] (lines 255 and 265).

    Values are the [Inductive json]; numbers are non-negative integers,
    the only numbers the program stores ([lastModified]).  [stringify]
    writes no white space, escapes strings as [QuoteJSONString] does (a
    backslash and one letter for backspace, tab, line feed, form feed,
    carriage return, quotation mark and backslash, [\u00XX] for the other
    control characters) and keeps object members in order.  [parse] skips white space, reads
    the literals, strings with every escape of the grammar, integers,
    arrays and objects, and fails ([None], the [SyntaxError]) on anything
    else.  It reads a subset of the JSON grammar: a negative number, a
    fraction, an exponent, or a [\u] escape above U+00FF fails here where
    the browser succeeds, which never happens on text [stringify] wrote.
    The theorem [parse_stringify] is the round trip. *)

From S2P Require Import Prelude.
From Stdlib Require Import Ascii DecimalString DecimalN.

Inductive json :=
| JNull
| JBool (b : bool)
| JNum (n : N)
| JStr (s : string)
| JArr (items : list json)
| JObj (members : list (string * json)).

(** Induction with hypotheses for the members of arrays and objects. *)
Section json_ind'.
Variable P : json -> Prop.
Hypothesis HNull : P JNull.
Hypothesis HBool : forall b, P (JBool b).
Hypothesis HNum : forall n, P (JNum n).
Hypothesis HStr : forall s, P (JStr s).
Hypothesis HArr : forall l, Forall P l -> P (JArr l).
Hypothesis HObj : forall l, Forall (fun kv => P kv.2) l -> P (JObj l).

Fixpoint json_ind' (v : json) : P v :=
  match v with
  | JNull => HNull
  | JBool b => HBool b
  | JNum n => HNum n
  | JStr s => HStr s
  | JArr l => HArr l ((fix go l := match l return Forall P l with
                        | [] => Forall_nil_2 _
                        | x :: r => Forall_cons_2 _ _ _ (json_ind' x) (go r) end) l)
  | JObj l => HObj l ((fix go l := match l return Forall (fun kv => P kv.2) l with
                        | [] => Forall_nil_2 _
                        | x :: r => Forall_cons_2 _ _ _ (json_ind' x.2) (go r) end) l)
  end.
End json_ind'.

(** ** Printing *)

Definition chr (n : N) : ascii := ascii_of_N n.
Definition lit (s : string) : list ascii := String.list_ascii_of_string s.

Definition hex_digit (n : N) : ascii :=
  if (n <? 10)%N then chr (48 + n) else chr (87 + n).

(** One character of a string literal (QuoteJSONString, step 2). *)
Definition escape_char (c : ascii) : list ascii :=
  match N_of_ascii c with
  | 8%N => lit "\b"
  | 9%N => lit "\t"
  | 10%N => lit "\n"
  | 12%N => lit "\f"
  | 13%N => lit "\r"
  | 34%N => [chr 92; chr 34]
  | 92%N => [chr 92; chr 92]
  | n => if (n <? 32)%N then lit "\u00" ++ [hex_digit (n / 16); hex_digit (n mod 16)]
         else [c]
  end.

Definition quote (s : list ascii) : list ascii :=
  chr 34 :: List.flat_map escape_char s ++ [chr 34].

Definition number (n : N) : list ascii := lit (N_to_string n).

Fixpoint commas (l : list (list ascii)) : list ascii :=
  match l with
  | [] => []
  | [x] => x
  | x :: r => x ++ chr 44 :: commas r
  end.

Fixpoint ser (v : json) : list ascii :=
  match v with
  | JNull => lit "null"
  | JBool true => lit "true"
  | JBool false => lit "false"
  | JNum n => number n
  | JStr s => quote (lit s)
  | JArr l => chr 91 :: commas (map ser l) ++ [chr 93]
  | JObj l => chr 123 :: commas (map (fun kv => quote (lit kv.1) ++ chr 58 :: ser kv.2) l)
                ++ [chr 125]
  end.

Definition stringify (v : json) : string := String.string_of_list_ascii (ser v).

(** ** Parsing *)

(** JSON white space: tab, line feed, carriage return, space. *)
Definition is_ws (c : ascii) : bool :=
  match N_of_ascii c with 9%N | 10%N | 13%N | 32%N => true | _ => false end.

Fixpoint skip_ws (l : list ascii) : list ascii :=
  match l with
  | c :: r => if is_ws c then skip_ws r else l
  | [] => []
  end.

Definition is_digit (c : ascii) : bool := (48 <=? N_of_ascii c)%N && (N_of_ascii c <=? 57)%N.

Fixpoint span_digits (l : list ascii) : list ascii * list ascii :=
  match l with
  | c :: r => if is_digit c then let '(d, r') := span_digits r in (c :: d, r') else ([], l)
  | [] => ([], [])
  end.

Definition parse_number (l : list ascii) : option (N * list ascii) :=
  let '(d, r) := span_digits l in
  match NilEmpty.uint_of_string (String.string_of_list_ascii d) with
  | Some u => Some (N.of_uint u, r)
  | None => None
  end.

Definition hex_value (c : ascii) : option N :=
  let n := N_of_ascii c in
  if (48 <=? n)%N && (n <=? 57)%N then Some (n - 48)%N
  else if (97 <=? n)%N && (n <=? 102)%N then Some (n - 87)%N
  else if (65 <=? n)%N && (n <=? 70)%N then Some (n - 55)%N
  else None.

Definition hex4 (a b c d : ascii) : option N :=
  match hex_value a, hex_value b, hex_value c, hex_value d with
  | Some w, Some x, Some y, Some z => Some (((w * 16 + x) * 16 + y) * 16 + z)%N
  | _, _, _, _ => None
  end.

(** The one-letter escapes of the grammar. *)
Definition unescape (e : ascii) : option ascii :=
  match N_of_ascii e with
  | 34%N => Some "034"%char
  | 92%N => Some "092"%char
  | 47%N => Some "/"%char
  | 98%N => Some (chr 8)
  | 102%N => Some (chr 12)
  | 110%N => Some (chr 10)
  | 114%N => Some (chr 13)
  | 116%N => Some (chr 9)
  | _ => None
  end.

Definition cons_fst (c : ascii) (o : option (list ascii * list ascii)) :=
  match o with Some (s, r) => Some (c :: s, r) | None => None end.

(** The characters of a string literal after its opening quotation mark,
    up to and without the closing one. *)
Fixpoint parse_chars (l : list ascii) : option (list ascii * list ascii) :=
  match l with
  | [] => None
  | c :: r =>
      if (c =? "034")%char then Some ([], r)
      else if (c =? "092")%char then
        match r with
        | e :: r' =>
            match unescape e with
            | Some c' => cons_fst c' (parse_chars r')
            | None =>
                if (e =? "u")%char then
                  match r' with
                  | h1 :: h2 :: h3 :: h4 :: r'' =>
                      match hex4 h1 h2 h3 h4 with
                      | Some n => if (n <? 256)%N then cons_fst (chr n) (parse_chars r'') else None
                      | None => None
                      end
                  | _ => None
                  end
                else None
            end
        | [] => None
        end
      else if (N_of_ascii c <? 32)%N then None
      else cons_fst c (parse_chars r)
  end.

Fixpoint strip_prefix (p l : list ascii) : option (list ascii) :=
  match p, l with
  | [], _ => Some l
  | c :: p', d :: l' => if (c =? d)%char then strip_prefix p' l' else None
  | _ :: _, [] => None
  end.

Definition parse_key (l : list ascii) : option (string * list ascii) :=
  match skip_ws l with
  | c :: r =>
      if (c =? "034")%char then
        match parse_chars r with
        | Some (k, r') => Some (String.string_of_list_ascii k, r')
        | None => None
        end
      else None
  | [] => None
  end.

(** Values, array items after the opening bracket and object members
    after the opening brace.  Every call spends one unit of [fuel]. *)
Fixpoint parse_value (fuel : nat) (l : list ascii) {struct fuel} : option (json * list ascii) :=
  match fuel with
  | O => None
  | S f =>
      match skip_ws l with
      | [] => None
      | c :: r =>
          if (c =? "n")%char then option_map (fun r' => (JNull, r')) (strip_prefix (lit "ull") r)
          else if (c =? "t")%char then option_map (fun r' => (JBool true, r')) (strip_prefix (lit "rue") r)
          else if (c =? "f")%char then option_map (fun r' => (JBool false, r')) (strip_prefix (lit "alse") r)
          else if (c =? "034")%char then
            match parse_chars r with
            | Some (s, r') => Some (JStr (String.string_of_list_ascii s), r')
            | None => None
            end
          else if (c =? "[")%char then
            match skip_ws r with
            | d :: r' => if (d =? "]")%char then Some (JArr [], r')
                         else option_map (fun p => (JArr p.1, p.2)) (parse_items f r)
            | [] => None
            end
          else if (c =? "{")%char then
            match skip_ws r with
            | d :: r' => if (d =? "}")%char then Some (JObj [], r')
                         else option_map (fun p => (JObj p.1, p.2)) (parse_members f r)
            | [] => None
            end
          else if is_digit c then
            option_map (fun p => (JNum p.1, p.2)) (parse_number (c :: r))
          else None
      end
  end
with parse_items (fuel : nat) (l : list ascii) {struct fuel} : option (list json * list ascii) :=
  match fuel with
  | O => None
  | S f =>
      match parse_value f l with
      | Some (v, r) =>
          match skip_ws r with
          | c :: r' =>
              if (c =? ",")%char then
                option_map (fun p => (v :: p.1, p.2)) (parse_items f r')
              else if (c =? "]")%char then Some ([v], r')
              else None
          | [] => None
          end
      | None => None
      end
  end
with parse_members (fuel : nat) (l : list ascii) {struct fuel} : option (list (string * json) * list ascii) :=
  match fuel with
  | O => None
  | S f =>
      match parse_key l with
      | Some (k, r) =>
          match skip_ws r with
          | c :: r1 =>
              if (c =? ":")%char then
                match parse_value f r1 with
                | Some (v, r2) =>
                    match skip_ws r2 with
                    | d :: r3 =>
                        if (d =? ",")%char then
                          option_map (fun p => ((k, v) :: p.1, p.2)) (parse_members f r3)
                        else if (d =? "}")%char then Some ([(k, v)], r3)
                        else None
                    | [] => None
                    end
                | None => None
                end
              else None
          | [] => None
          end
      | None => None
      end
  end.

(** [JSON.parse]: one value, surrounded by white space only, with
    [length + 1] units of fuel ([size_le_ser] and [parse_stringify] show
    they are enough for the text [stringify] writes). *)
Definition parse (s : string) : option json :=
  let l := lit s in
  match parse_value (S (length l)) l with
  | Some (v, r) => match skip_ws r with [] => Some v | _ => None end
  | None => None
  end.

(** The fuel a value needs. *)
Fixpoint size (v : json) : nat :=
  match v with
  | JArr l => S (sum_list_with (fun x => S (size x)) l)
  | JObj l => S (sum_list_with (fun kv => S (size kv.2)) l)
  | _ => 0
  end.

(** What may follow a number: anything but a digit. *)
Definition stops (r : list ascii) : bool :=
  match r with c :: _ => negb (is_digit c) | [] => true end.

(** A value printed by [ser] starts with a character that is neither white
    space nor a closing bracket or brace. *)
Definition start_ok (c : ascii) : bool :=
  negb (is_ws c) && negb (c =? "]")%char && negb (c =? "}")%char.

(** The round trip of one value, with any text after it that does not
    continue a number. *)
Definition reads_back (v : json) : Prop :=
  forall f r, size v < f -> stops r = true -> parse_value f (ser v ++ r) = Some (v, r).

(** ** Lexical lemmas *)

Lemma parse_escape_char c r : parse_chars (escape_char c ++ r) = cons_fst c (parse_chars r).
Proof. destruct c as [[] [] [] [] [] [] [] []]; reflexivity. Qed.

Lemma parse_chars_quote s r : parse_chars (List.flat_map escape_char s ++ "034"%char :: r) = Some (s, r).
Proof.
  induction s as [|c s IH]; [reflexivity|].
  cbn [List.flat_map]. rewrite <- app_assoc, parse_escape_char, IH. done.
Qed.

Lemma uint_digits u : Forall (fun c => is_digit c = true) (lit (NilEmpty.string_of_uint u)).
Proof. induction u; cbn; repeat constructor; done. Qed.

Lemma span_digits_app d r :
  Forall (fun c => is_digit c = true) d -> stops r = true -> span_digits (d ++ r) = (d, r).
Proof.
  intros Hd Hr. induction Hd as [|c d Hc _ IH]; cbn [app span_digits].
  - destruct r as [|c r]; [done|]. cbn [stops] in Hr. apply negb_true_iff in Hr.
    cbn [span_digits]. rewrite Hr. done.
  - rewrite Hc, IH. done.
Qed.

Lemma parse_number_app n r : stops r = true -> parse_number (number n ++ r) = Some (n, r).
Proof.
  intros Hr. unfold parse_number, number, N_to_string.
  rewrite span_digits_app by auto using uint_digits.
  unfold lit. rewrite String.string_of_list_ascii_of_string, NilEmpty.usu, DecimalN.Unsigned.of_to.
  done.
Qed.

Lemma strip_prefix_app p r : strip_prefix p (p ++ r) = Some r.
Proof. induction p as [|c p IH]; cbn; [done|]. rewrite Ascii.eqb_refl. done. Qed.

Lemma to_uint_not_nil n : N.to_uint n <> Decimal.Nil.
Proof.
  intros E. pose proof (DecimalN.Unsigned.of_to n) as H. rewrite E in H. cbn in H.
  subst n. discriminate E.
Qed.

Lemma number_cons n : exists c t, number n = c :: t /\ is_digit c = true.
Proof.
  pose proof (uint_digits (N.to_uint n)) as H. pose proof (to_uint_not_nil n) as Hn.
  unfold number, N_to_string. destruct (lit _) as [|c t] eqn:E.
  - exfalso. apply Hn. destruct (N.to_uint n); cbn in E; done.
  - inversion H; subst. eauto.
Qed.

Lemma ser_start v : exists c t, ser v = c :: t /\ start_ok c = true.
Proof.
  destruct v as [| [] | n | s | l | l]; cbn [ser]; eauto.
  destruct (number_cons n) as (c & t & -> & Hc). exists c, t. split; [done|].
  revert Hc. destruct c as [[] [] [] [] [] [] [] []]; done.
Qed.

Lemma skip_ws_start c t : start_ok c = true -> skip_ws (c :: t) = c :: t.
Proof. unfold start_ok. cbn. destruct (is_ws c); done. Qed.

Lemma parse_value_digit f c t :
  is_digit c = true ->
  parse_value (S f) (c :: t) = option_map (fun p => (JNum p.1, p.2)) (parse_number (c :: t)).
Proof. destruct c as [[] [] [] [] [] [] [] []]; intros H; (discriminate || reflexivity). Qed.

Lemma parse_items_ser l f r :
  l <> [] -> Forall reads_back l -> sum_list_with (fun x => S (size x)) l < f ->
  parse_items f (commas (map ser l) ++ "]"%char :: r) = Some (l, r).
Proof.
  intros Hne Hl. revert f. induction Hl as [|v l Hv Hl IH]; [done|]. intros [|f] Hf; [lia|].
  cbn [sum_list_with] in Hf. destruct l as [|v' l].
  - cbn [map commas]. cbn [parse_items]. rewrite Hv by (done || lia). reflexivity.
  - change (commas (map ser (v :: v' :: l)))
      with (ser v ++ chr 44 :: commas (map ser (v' :: l))).
    rewrite <- app_assoc, <- app_comm_cons. cbn [parse_items].
    rewrite Hv by (done || lia). rewrite skip_ws_start by reflexivity.
    cbn -[parse_items commas ser map].
    rewrite IH by (done || cbn [sum_list_with] in *; lia). reflexivity.
Qed.

Lemma parse_key_quote k r : parse_key (quote (lit k) ++ r) = Some (k, r).
Proof.
  unfold quote. cbn [app]. unfold parse_key. rewrite skip_ws_start by reflexivity.
  cbn [Ascii.eqb Bool.eqb ascii_of_N chr]. rewrite <- app_assoc. cbn [app].
  rewrite parse_chars_quote. unfold lit. rewrite String.string_of_list_ascii_of_string. done.
Qed.

Lemma parse_members_ser l f r :
  l <> [] -> Forall (fun kv => reads_back kv.2) l ->
  sum_list_with (fun kv => S (size kv.2)) l < f ->
  parse_members f (commas (map (fun kv => quote (lit kv.1) ++ chr 58 :: ser kv.2) l)
                   ++ "}"%char :: r) = Some (l, r).
Proof.
  intros Hne Hl. revert f. induction Hl as [|[k v] l Hv Hl IH]; [done|]. intros [|f] Hf; [lia|].
  cbn [sum_list_with fst snd] in Hf, Hv. destruct l as [|kv' l].
  - cbn [map commas fst snd]. cbn [parse_members].
    rewrite <- app_assoc, parse_key_quote, <- app_comm_cons, skip_ws_start by reflexivity.
    cbn -[parse_value ser]. rewrite Hv by (done || lia). reflexivity.
  - match goal with |- context [commas (map ?g _)] =>
      change (commas (map g ((k, v) :: kv' :: l)))
        with ((quote (lit k) ++ chr 58 :: ser v) ++ chr 44 :: commas (map g (kv' :: l))) end.
    rewrite <- !app_assoc. cbn [parse_members].
    rewrite parse_key_quote, <- app_comm_cons, skip_ws_start by reflexivity.
    cbn -[parse_value parse_members ser commas map].
    rewrite Hv by (done || lia). rewrite skip_ws_start by reflexivity.
    cbn -[parse_members commas ser map].
    rewrite IH by (done || cbn [sum_list_with] in *; lia). reflexivity.
Qed.

Lemma parse_ser v : reads_back v.
Proof.
  induction v as [| b | n | s | l IH | l IH] using json_ind'; intros [|f] r Hf Hr; try lia.
  - reflexivity.
  - destruct b; reflexivity.
  - destruct (number_cons n) as (c & t & E & Hc). cbn [ser]. rewrite E, <- app_comm_cons.
    rewrite parse_value_digit, app_comm_cons, <- E, parse_number_app by done. reflexivity.
  - cbn [ser]. unfold quote. rewrite <- app_comm_cons, <- app_assoc. cbn [app].
    change (parse_value (S f) (chr 34 :: ?x))
      with (match parse_chars x with
            | Some (s, r') => Some (JStr (String.string_of_list_ascii s), r')
            | None => None end).
    rewrite parse_chars_quote. unfold lit. rewrite String.string_of_list_ascii_of_string. done.
  - cbn [ser size] in *. rewrite <- app_comm_cons, <- app_assoc. cbn [app].
    destruct l as [|v l]; [reflexivity|].
    destruct (ser_start v) as (c & t & E & Hc).
    change (commas (map ser (v :: l))) with (commas (ser v :: map ser l)).
    assert (Hcl : exists t', commas (ser v :: map ser l) = c :: t').
    { destruct l; cbn [map commas]; rewrite E; eauto. }
    destruct Hcl as (t' & Et'). rewrite Et'. cbn [app].
    change (parse_value (S f) (chr 91 :: ?x))
      with (match skip_ws x with
            | d :: r' => if (d =? "]")%char then Some (JArr [], r')
                         else option_map (fun p => (JArr p.1, p.2)) (parse_items f x)
            | [] => None end).
    rewrite skip_ws_start by done. unfold start_ok in Hc.
    destruct (c =? "]")%char; [by rewrite andb_false_r in Hc|].
    rewrite app_comm_cons, <- Et'.
    change (commas (ser v :: map ser l)) with (commas (map ser (v :: l))).
    rewrite parse_items_ser by (done || lia). reflexivity.
  - cbn [ser size] in *. rewrite <- app_comm_cons, <- app_assoc. cbn [app].
    destruct l as [|[k v] l]; [reflexivity|].
    set (g := fun kv : string * json => quote (lit kv.1) ++ chr 58 :: ser kv.2).
    change (commas (map g ((k, v) :: l))) with (commas (g (k, v) :: map g l)).
    assert (Hcl : exists t', commas (g (k, v) :: map g l) = chr 34 :: t').
    { destruct l; cbn [map commas]; eauto. }
    destruct Hcl as (t' & Et'). rewrite Et'. cbn [app].
    change (parse_value (S f) (chr 123 :: ?x))
      with (match skip_ws x with
            | d :: r' => if (d =? "}")%char then Some (JObj [], r')
                         else option_map (fun p => (JObj p.1, p.2)) (parse_members f x)
            | [] => None end).
    rewrite skip_ws_start by reflexivity.
    replace (chr 34 =? "}")%char with false by reflexivity. cbv iota beta.
    rewrite app_comm_cons, <- Et'.
    change (commas (g (k, v) :: map g l)) with (commas (map g ((k, v) :: l))).
    rewrite parse_members_ser by (done || lia). reflexivity.
Qed.

Lemma sum_list_with_le {A} (f g : A -> nat) l :
  Forall (fun x => f x <= g x) l -> sum_list_with f l <= sum_list_with g l.
Proof. induction 1; cbn; lia. Qed.

Lemma sum_list_with_map {A B} (f : B -> nat) (g : A -> B) l :
  sum_list_with f (map g l) = sum_list_with (fun x => f (g x)) l.
Proof. induction l; cbn; lia. Qed.

Lemma length_commas (ls : list (list ascii)) :
  sum_list_with (fun x => S (length x)) ls <= length (commas ls) + 1.
Proof.
  induction ls as [|x [|y ls] IH]; [cbn; lia|cbn [sum_list_with commas]; lia|].
  change (commas (x :: y :: ls)) with (x ++ chr 44 :: commas (y :: ls)).
  change (sum_list_with ?f (x :: ?r)) with (f x + sum_list_with f r).
  rewrite length_app. cbn [length]. lia.
Qed.

Lemma size_le_ser v : size v <= length (ser v).
Proof.
  induction v as [| [] | n | s | l IH | l IH] using json_ind'; cbn [size]; try lia.
  - cbn [ser length]. rewrite length_app. cbn [length].
    pose proof (length_commas (map ser l)) as H. rewrite sum_list_with_map in H.
    enough (sum_list_with (fun x => S (size x)) l <= sum_list_with (fun x => S (length (ser x))) l)
      by lia.
    apply sum_list_with_le. eapply Forall_impl; [exact IH|]. cbn. lia.
  - cbn [ser length]. rewrite length_app. cbn [length].
    pose proof (length_commas (map (fun kv => quote (lit kv.1) ++ chr 58 :: ser kv.2) l)) as H.
    rewrite sum_list_with_map in H.
    enough (sum_list_with (fun kv => S (size kv.2)) l <=
            sum_list_with (fun kv => S (length (quote (lit kv.1) ++ chr 58 :: ser kv.2))) l)
      by lia.
    apply sum_list_with_le. eapply Forall_impl; [exact IH|]. intros [k v] Hv. cbn in Hv.
    rewrite length_app. cbn [length fst snd]. lia.
Qed.

(** [JSON.parse(JSON.stringify(v))] gives [v] back. *)
Lemma parse_stringify v : parse (stringify v) = Some v.
Proof.
  unfold parse, stringify, lit. rewrite String.list_ascii_of_string_of_list_ascii.
  pose proof (size_le_ser v) as Hs. pose proof (parse_ser v (S (length (ser v))) [] ltac:(lia) eq_refl) as H.
  rewrite app_nil_r in H. rewrite H. done.
Qed.
