(* ===== verification/Types.v ===== *)
(** The data model of [src/types.ts]: one [Module] per exported interface,
    each a [Record t] whose fields keep the interface's names, with decidable
    equality so that the reducer's and the repository's tests compute.
    [Chat] is the opaque conversation object of the [@google/genai] SDK,
    represented by a handle. *)

From S2P Require Import Prelude.

Module DesignOutput.
Record t := mk { htmlCode : string }.
#[global] Instance eq_dec : EqDecision t.
Proof. solve_decision. Defined.
End DesignOutput.

Module HistoryItem.
Record t := mk { id : string; prompt : string; designOutput : DesignOutput.t }.
#[global] Instance eq_dec : EqDecision t.
Proof. solve_decision. Defined.
End HistoryItem.

(** [type: 'success' | 'error' | 'warning' | 'info'] *)
Inductive ToastType := success | error | warning | info.

#[export] Instance ToastType_eq_dec : EqDecision ToastType.
Proof. solve_decision. Defined.

Module Toast.
Record t := mk { id : string; message : string; type : ToastType }.
#[global] Instance eq_dec : EqDecision t.
Proof. solve_decision. Defined.
End Toast.

Module ExampleItem.
Record t := mk { prompt : string; htmlCode : string }.
End ExampleItem.

(** [convertedCodeCache: Record<string, string>] is a finite map from
    framework name to code. [lastModified] is a [Date.now()] value. *)
Module Project.
Record t := mk {
  id : string;
  title : string;
  history : list HistoryItem.t;
  activeDesign : option DesignOutput.t;
  isComponentMode : bool;
  lastModified : N;
  convertedCodeCache : gmap string string
}.
#[global] Instance eq_dec : EqDecision t.
Proof. solve_decision. Defined.
End Project.

Module Chat.
Record t := mk { handle : nat }.
#[global] Instance eq_dec : EqDecision t.
Proof. solve_decision. Defined.
End Chat.
