(* ===== verification/Reducer.v ===== *)
(** The session state machine of [src/App.tsx]: [AppState] (lines 13-31),
    [AppAction] (lines 33-52), [initialState] (lines 54-68) and
    [appReducer] (lines 70-177).  The reducer reads the clock
    ([Date.now()]) for the ids of new history items; the clock value is the
    argument [now].  The theorems describe every branch: the append-only
    history, the well-formedness invariant linking [activeDesign] to the
    history, the invalidation of the conversion cache, restore by id, and
    how [LOAD_EXAMPLE] relates to a new project followed by a generation. *)

From S2P Require Import Prelude Types.

Module AppState.
Record t := mk {
  apiKey : option string;
  isSettingsOpen : bool;
  isLoading : bool;
  isSidebarOpen : bool;
  toasts : list Toast.t;
  chatSession : option Chat.t;
  history : list HistoryItem.t;
  activeDesign : option DesignOutput.t;
  chatTitle : string;
  isComponentMode : bool;
  currentProjectId : option string;
  isConvertingCode : bool;
  convertedCodeCache : gmap string string
}.

(** [{ ...state, field: v }], one function per field. *)
Definition set_apiKey v (s : t) : t :=
  let '(mk _ b c d e f g h i j k l m) := s in mk v b c d e f g h i j k l m.
Definition set_isSettingsOpen v (s : t) : t :=
  let '(mk a _ c d e f g h i j k l m) := s in mk a v c d e f g h i j k l m.
Definition set_isLoading v (s : t) : t :=
  let '(mk a b _ d e f g h i j k l m) := s in mk a b v d e f g h i j k l m.
Definition set_isSidebarOpen v (s : t) : t :=
  let '(mk a b c _ e f g h i j k l m) := s in mk a b c v e f g h i j k l m.
Definition set_toasts v (s : t) : t :=
  let '(mk a b c d _ f g h i j k l m) := s in mk a b c d v f g h i j k l m.
Definition set_chatSession v (s : t) : t :=
  let '(mk a b c d e _ g h i j k l m) := s in mk a b c d e v g h i j k l m.
Definition set_history v (s : t) : t :=
  let '(mk a b c d e f _ h i j k l m) := s in mk a b c d e f v h i j k l m.
Definition set_activeDesign v (s : t) : t :=
  let '(mk a b c d e f g _ i j k l m) := s in mk a b c d e f g v i j k l m.
Definition set_chatTitle v (s : t) : t :=
  let '(mk a b c d e f g h _ j k l m) := s in mk a b c d e f g h v j k l m.
Definition set_isComponentMode v (s : t) : t :=
  let '(mk a b c d e f g h i _ k l m) := s in mk a b c d e f g h i v k l m.
Definition set_currentProjectId v (s : t) : t :=
  let '(mk a b c d e f g h i j _ l m) := s in mk a b c d e f g h i j v l m.
Definition set_isConvertingCode v (s : t) : t :=
  let '(mk a b c d e f g h i j k _ m) := s in mk a b c d e f g h i j k v m.
Definition set_convertedCodeCache v (s : t) : t :=
  let '(mk a b c d e f g h i j k l _) := s in mk a b c d e f g h i j k l v.
End AppState.

Import AppState.

Inductive AppAction :=
| SET_API_KEY (payload : option string)
| SET_IS_SETTINGS_OPEN (payload : bool)
| SET_IS_SIDEBAR_OPEN (payload : bool)
| ADD_TOAST (payload : Toast.t)
| REMOVE_TOAST (payload : string)
| START_GENERATION
| GENERATION_SUCCESS (design : DesignOutput.t) (prompt : string)
| GENERATION_FAILURE
| SET_CHAT_SESSION (payload : option Chat.t)
| RESTORE_VERSION (payload : string)
| NEW_PROJECT (newProjectId : string)
| SET_CHAT_TITLE (payload : string)
| SET_IS_COMPONENT_MODE (payload : bool)
| LOAD_EXAMPLE (example : ExampleItem.t) (newProjectId : string)
| START_CODE_CONVERSION
| CODE_CONVERSION_SUCCESS (framework code : string)
| CODE_CONVERSION_FAILURE (framework error : string)
| LOAD_PROJECT (payload : Project.t)
| START_NEW_DESIGN_FROM_PROMPT (newProjectId : string).

Definition initialChatTitle : string := "New AI Design Session".

Definition initialState : AppState.t := {|
  apiKey := None;
  isSettingsOpen := false;
  isLoading := false;
  isSidebarOpen := false;
  toasts := [];
  chatSession := None;
  history := [];
  activeDesign := None;
  chatTitle := initialChatTitle;
  isComponentMode := false;
  isConvertingCode := false;
  convertedCodeCache := ∅;
  currentProjectId := None
|}.

(** The title derived from the first prompt (line 105). *)
Definition titleOfPrompt (prompt : string) : string :=
  js_substring prompt 0 40 +:+ (if 40 <? js_length prompt then "..." else "").

(** The placeholder stored on a failed conversion (line 158). *)
Definition conversionErrorComment (framework error : string) : string :=
  "/*" +:+ nl +:+ "  Code conversion to " +:+ framework +:+ " failed." +:+ nl
  +:+ "  Error: " +:+ error +:+ nl +:+ "  Please try again." +:+ nl +:+ "*/".

Definition appReducer (now : N) (state : AppState.t) (action : AppAction) : AppState.t :=
  match action with
  | LOAD_PROJECT p =>
      set_isSidebarOpen false $ set_isLoading false $ set_chatSession None $
      set_currentProjectId (Some (Project.id p)) $
      set_convertedCodeCache (Project.convertedCodeCache p) $
      set_isComponentMode (Project.isComponentMode p) $
      set_chatTitle (Project.title p) $
      set_activeDesign (Project.activeDesign p) $
      set_history (Project.history p) state
  | SET_API_KEY k => set_apiKey k state
  | SET_IS_SETTINGS_OPEN b => set_isSettingsOpen b state
  | SET_IS_SIDEBAR_OPEN b => set_isSidebarOpen b state
  | ADD_TOAST t => set_toasts (toasts state ++ [t]) state
  | REMOVE_TOAST tid =>
      set_toasts (List.filter (fun t => negb (String.eqb (Toast.id t) tid)) (toasts state)) state
  | START_GENERATION => set_isSidebarOpen false $ set_isLoading true state
  | GENERATION_SUCCESS design prompt =>
      let newHistoryItem := HistoryItem.mk (N_to_string now) prompt design in
      let newHistory := history state ++ [newHistoryItem] in
      let newChatTitle :=
        if Nat.eqb (length (history state)) 0 then titleOfPrompt prompt
        else chatTitle state in
      set_convertedCodeCache ∅ $ set_chatTitle newChatTitle $
      set_history newHistory $ set_activeDesign (Some design) $
      set_isLoading false state
  | GENERATION_FAILURE => set_isLoading false state
  | SET_CHAT_SESSION c => set_chatSession c state
  | RESTORE_VERSION hid =>
      match find (fun item => String.eqb (HistoryItem.id item) hid) (history state) with
      | Some historyItem =>
          set_isSidebarOpen false $ set_convertedCodeCache ∅ $
          set_activeDesign (Some (HistoryItem.designOutput historyItem)) state
      | None => state
      end
  | NEW_PROJECT newId =>
      set_currentProjectId (Some newId) $
      set_isSettingsOpen (isSettingsOpen state) $
      set_apiKey (apiKey state) initialState
  | SET_CHAT_TITLE t => set_chatTitle t state
  | SET_IS_COMPONENT_MODE b => set_isComponentMode b state
  | LOAD_EXAMPLE ex newId =>
      let newDesign := DesignOutput.mk (ExampleItem.htmlCode ex) in
      let newHistoryItem := HistoryItem.mk (N_to_string now) (ExampleItem.prompt ex) newDesign in
      set_currentProjectId (Some newId) $ set_chatSession None $
      set_chatTitle (js_substring (ExampleItem.prompt ex) 0 40 +:+ "...") $
      set_activeDesign (Some newDesign) $ set_history [newHistoryItem] $
      set_apiKey (apiKey state) initialState
  | START_CODE_CONVERSION => set_isConvertingCode true state
  | CODE_CONVERSION_SUCCESS framework code =>
      set_convertedCodeCache (<[framework := code]> (convertedCodeCache state)) $
      set_isConvertingCode false state
  | CODE_CONVERSION_FAILURE framework err =>
      set_convertedCodeCache
        (<[framework := conversionErrorComment framework err]> (convertedCodeCache state)) $
      set_isConvertingCode false state
  | START_NEW_DESIGN_FROM_PROMPT newId =>
      set_isSidebarOpen false $ set_isLoading true $
      set_currentProjectId (Some newId) $
      set_isSettingsOpen (isSettingsOpen state) $
      set_apiKey (apiKey state) initialState
  end.

(** A sequence of dispatches, each with the clock value it reads. *)
Fixpoint runActions (state : AppState.t) (actions : list (N * AppAction)) : AppState.t :=
  match actions with
  | [] => state
  | (now, a) :: rest => runActions (appReducer now state a) rest
  end.

(** ** Predicates on states and dispatch sequences *)

(** Actions that replace the whole project held by the session. *)
Definition resetsProject (a : AppAction) : bool :=
  match a with
  | NEW_PROJECT _ | LOAD_PROJECT _ | LOAD_EXAMPLE _ _
  | START_NEW_DESIGN_FROM_PROMPT _ => true
  | _ => false
  end.

(** The history items that a sequence of dispatches commits, in order. *)
Fixpoint committed (actions : list (N * AppAction)) : list HistoryItem.t :=
  match actions with
  | [] => []
  | (now, GENERATION_SUCCESS d p) :: rest =>
      HistoryItem.mk (N_to_string now) p d :: committed rest
  | _ :: rest => committed rest
  end.

(** The displayed design is one of the history's designs, and there is no
    design exactly when the history is empty. *)
Definition designInHistory (h : list HistoryItem.t) (d : option DesignOutput.t) : bool :=
  match d with
  | None => bool_decide (h = [])
  | Some d => existsb (fun it => bool_decide (HistoryItem.designOutput it = d)) h
  end.

Definition state_wf (s : AppState.t) : Prop :=
  designInHistory (history s) (activeDesign s) = true.

Definition project_wf (p : Project.t) : Prop :=
  designInHistory (Project.history p) (Project.activeDesign p) = true.

(** A dispatched action whose payload respects the invariant. *)
Definition action_ok (a : AppAction) : Prop :=
  match a with LOAD_PROJECT p => project_wf p | _ => True end.

(** History ids are distinct and were all produced by clock values below
    [t]. *)
Definition ids_ok (t : N) (h : list HistoryItem.t) : Prop :=
  NoDup (map HistoryItem.id h) /\
  Forall (fun it => exists t', (t' < t)%N /\ HistoryItem.id it = N_to_string t') h.

(** A clock read at strictly increasing instants, none before [t0]. *)
Fixpoint ticksFrom (t0 : N) (actions : list (N * AppAction)) : Prop :=
  match actions with
  | [] => True
  | (t, _) :: rest => (t0 <= t)%N /\ ticksFrom (t + 1) rest
  end.

(** Loaded projects carry ids produced before the load. *)
Fixpoint loadsFresh (actions : list (N * AppAction)) : Prop :=
  match actions with
  | [] => True
  | (t, LOAD_PROJECT p) :: rest => ids_ok t (Project.history p) /\ loadsFresh rest
  | _ :: rest => loadsFresh rest
  end.

Ltac reduce_state :=
  repeat match goal with s : AppState.t |- _ => destruct s end; simpl in *.

(** ** Step lemmas *)

Lemma designInHistory_snoc h it d :
  designInHistory (h ++ [it]) (Some d) = true <->
  designInHistory h (Some d) = true \/ HistoryItem.designOutput it = d.
Proof.
  simpl. rewrite existsb_app, orb_true_iff. simpl.
  by rewrite orb_false_r, bool_decide_eq_true.
Qed.

Lemma designInHistory_in h it :
  In it h -> designInHistory h (Some (HistoryItem.designOutput it)) = true.
Proof. intros Hin. apply existsb_exists. exists it. by rewrite bool_decide_eq_true. Qed.

#[export] Hint Resolve designInHistory_in : dassigner.

Lemma wf_step now s a : action_ok a -> state_wf s -> state_wf (appReducer now s a).
Proof.
  unfold state_wf. intros Ha Hs. destruct a; reduce_state; auto.
  - apply designInHistory_snoc. by right.
  - destruct (find _ _) as [it|] eqn:Hf; simpl; [|done].
    apply find_some in Hf as [Hin _]. eauto with dassigner.
  - by rewrite bool_decide_eq_true_2.
Qed.

(** One dispatch that does not replace the project appends what it
    commits, and only that. *)
Lemma history_step_no_reset now s a :
  resetsProject a = false ->
  history (appReducer now s a) = history s ++ committed [(now, a)].
Proof.
  intros Hr. destruct a; try discriminate; reduce_state; rewrite ?app_nil_r; try done.
  by destruct (find _ _).
Qed.

Lemma committed_cons now a rest :
  committed ((now, a) :: rest) = committed [(now, a)] ++ committed rest.
Proof. by destruct a. Qed.

Lemma ids_ok_mono t t' h : (t <= t')%N -> ids_ok t h -> ids_ok t' h.
Proof.
  intros Hle [Hnd Hb]. split; [done|].
  eapply Forall_impl; [exact Hb|]. intros it (t'' & Hlt & Heq). exists t''. split; [lia|done].
Qed.

Lemma ids_ok_snoc t h it :
  ids_ok t h -> HistoryItem.id it = N_to_string t -> ids_ok (t + 1) (h ++ [it]).
Proof.
  intros [Hnd Hb] Hid. split.
  - rewrite map_app. apply NoDup_app. split; [done|]. split; [|apply NoDup_singleton].
    intros x Hx ->%list_elem_of_singleton. rewrite Hid in Hx.
    apply list_elem_of_In, in_map_iff in Hx as (it' & Hit' & Hin).
    apply list_elem_of_In in Hin. rewrite Forall_forall in Hb.
    destruct (Hb it' Hin) as (t' & Hlt & Heq).
    rewrite Heq in Hit'. apply N_to_string_inj in Hit'. lia.
  - apply Forall_app. split.
    + eapply Forall_impl; [exact Hb|]. intros x (t' & ? & ?). exists t'. split; [lia|done].
    + constructor; [|constructor]. exists t. split; [lia|done].
Qed.

Lemma ids_ok_step t0 t s a :
  (t0 <= t)%N -> ids_ok t0 (history s) ->
  loadsFresh [(t, a)] ->
  ids_ok (t + 1) (history (appReducer t s a)).
Proof.
  intros Hle Hok Hl.
  assert (Hok' : ids_ok (t + 1) (history s)) by (eapply ids_ok_mono; [|exact Hok]; lia).
  destruct (resetsProject a) eqn:Hr.
  - destruct a; try discriminate; reduce_state.
    + split; constructor.
    + apply (ids_ok_snoc t []); [split; constructor|done].
    + destruct Hl as [Hl _]. eapply ids_ok_mono; [|exact Hl]. lia.
    + split; constructor.
  - rewrite (history_step_no_reset _ _ _ Hr).
    destruct a; try discriminate; simpl; rewrite ?app_nil_r; try done.
    apply ids_ok_snoc; [|done]. eapply ids_ok_mono; [|exact Hok]. done.
Qed.

Lemma loadsFresh_cons t a rest :
  loadsFresh ((t, a) :: rest) <-> loadsFresh [(t, a)] /\ loadsFresh rest.
Proof. destruct a; simpl; tauto. Qed.

Lemma ids_ok_run t0 s actions :
  ids_ok t0 (history s) -> ticksFrom t0 actions -> loadsFresh actions ->
  exists t, ids_ok t (history (runActions s actions)).
Proof.
  revert t0 s. induction actions as [|[t a] rest IH]; intros t0 s Hok Ht Hl; simpl in *.
  - by exists t0.
  - destruct Ht as [Hle Ht]. apply loadsFresh_cons in Hl as [Hl1 Hl].
    eapply IH; [eapply ids_ok_step; eauto | exact Ht | exact Hl].
Qed.

Lemma wf_run s actions :
  state_wf s -> Forall (fun na => action_ok (snd na)) actions ->
  state_wf (runActions s actions).
Proof.
  intros Hs Ha. revert s Hs. induction Ha as [|[t a] rest Ha _ IH]; intros s Hs; simpl; [done|].
  apply IH, wf_step; done.
Qed.

(** ** Claims *)

(** C1: Without a project reset, the history after a sequence of dispatches
    is the history before followed by one item per successful generation,
    in dispatch order; each item keeps its prompt verbatim and takes the
    clock value of its dispatch as id.  Failures, restores and every other
    action leave the history as it is. *)
Theorem history_commits_in_order s actions :
  Forall (fun na => resetsProject (snd na) = false) actions ->
  history (runActions s actions) = history s ++ committed actions.
Proof.
  intros Hr. revert s. induction Hr as [|[t a] rest Ha _ IH]; intros s; cbn [runActions].
  - by rewrite app_nil_r.
  - rewrite IH, history_step_no_reset by done.
    rewrite (committed_cons t a rest). by rewrite app_assoc.
Qed.

(** C2: The displayed design is always one of the history's designs, and
    there is no displayed design exactly when the history is empty: every
    sequence of dispatches whose loaded projects satisfy this preserves it
    from any state that satisfies it, the initial state among them. *)
Theorem wf_reachable actions :
  Forall (fun na => action_ok (snd na)) actions ->
  state_wf (runActions initialState actions).
Proof. apply wf_run. reflexivity. Qed.

(** C3: Every dispatch other than [LOAD_PROJECT] that changes the displayed
    design leaves the conversion cache empty. *)
Theorem cache_cleared_on_design_change now s a :
  (forall p, a <> LOAD_PROJECT p) ->
  activeDesign (appReducer now s a) <> activeDesign s ->
  convertedCodeCache (appReducer now s a) = ∅.
Proof.
  intros Hnl Hch. destruct a; reduce_state; try done; try congruence.
  - by destruct (find _ _).
  - exfalso. by eapply Hnl.
Qed.

(** C4: When the history's ids are distinct, restoring the id of one of its
    items displays that item's design, clears the conversion cache and
    keeps the history. *)
Theorem restore_version_unique now s item :
  NoDup (map HistoryItem.id (history s)) -> In item (history s) ->
  activeDesign (appReducer now s (RESTORE_VERSION (HistoryItem.id item)))
    = Some (HistoryItem.designOutput item) /\
  convertedCodeCache (appReducer now s (RESTORE_VERSION (HistoryItem.id item))) = ∅ /\
  history (appReducer now s (RESTORE_VERSION (HistoryItem.id item))) = history s.
Proof.
  intros Hnd Hin. reduce_state. by rewrite (find_key_nodup HistoryItem.id).
Qed.

(** Restoring an id that no history item carries leaves the whole
    state unchanged. *)
Lemma restore_version_absent now s hid :
  Forall (fun it => HistoryItem.id it <> hid) (history s) ->
  appReducer now s (RESTORE_VERSION hid) = s.
Proof.
  intros Hn. simpl. rewrite find_none_forall; [done|].
  eapply Forall_impl; [exact Hn|]. intros it Hne. by apply String.eqb_neq.
Qed.

(** C5: When the clock strictly increases between dispatches, the history
    ids stay distinct: every id is the decimal text of a distinct instant. *)
Theorem history_ids_unique t0 s actions :
  ids_ok t0 (history s) -> ticksFrom t0 actions -> loadsFresh actions ->
  NoDup (map HistoryItem.id (history (runActions s actions))).
Proof.
  intros Hok Ht Hl. by destruct (ids_ok_run _ _ _ Hok Ht Hl) as [t [Hnd _]].
Qed.

(** C6: Two generations committed within the same millisecond receive the
    same id; restoring that id then displays the first of the two designs,
    so the second version cannot be restored by its id. *)
Theorem same_tick_versions_collide now s d1 d2 p1 p2 :
  Forall (fun it => HistoryItem.id it <> N_to_string now) (history s) ->
  ~ NoDup (map HistoryItem.id
      (history (runActions s [(now, GENERATION_SUCCESS d1 p1); (now, GENERATION_SUCCESS d2 p2)]))) /\
  activeDesign (appReducer now
      (runActions s [(now, GENERATION_SUCCESS d1 p1); (now, GENERATION_SUCCESS d2 p2)])
      (RESTORE_VERSION (N_to_string now))) = Some d1.
Proof.
  intros Hn. destruct s as [? ? ? ? ? ? h ? ? ? ? ? ?]. simpl in *. split.
  - rewrite <- app_assoc, map_app. intros [_ [_ Hd]]%NoDup_app.
    simpl in Hd. apply NoDup_cons in Hd as [Hd _]. apply Hd. by left.
  - rewrite <- app_assoc, find_app_none.
    + simpl. by rewrite String.eqb_refl.
    + apply find_none_forall. eapply Forall_impl; [exact Hn|].
      intros it Hne. by apply String.eqb_neq.
Qed.

(** C7: The first generation of a project names it after its prompt: the
    prompt itself when it has at most 40 characters, otherwise its first 40
    characters followed by ["..."]; the title never exceeds 43 characters. *)
Theorem title_of_first_prompt now s d p :
  history s = [] ->
  chatTitle (appReducer now s (GENERATION_SUCCESS d p)) =
    (if js_length p <=? 40 then p else js_substring p 0 40 +:+ "...") /\
  js_length (chatTitle (appReducer now s (GENERATION_SUCCESS d p))) <= 43.
Proof.
  intros Hh. destruct s; simpl in Hh; subst. simpl.
  unfold titleOfPrompt, js_length. rewrite js_substring_0.
  destruct (Nat.ltb_spec 40 (String.length p)), (Nat.leb_spec (String.length p) 40); try lia.
  - autorewrite with dassigner_rw. split; [done|]. lia.
  - rewrite substring_0_full by done. autorewrite with dassigner_rw.
    split; [done|]. lia.
Qed.

(** C8: Loading an example gives the same history, design, conversion
    cache, project id, key and conversation as starting a new project and
    committing the example's prompt and markup as a generation, but the
    title agrees only for prompts longer than 40 characters (a shorter
    prompt still gets ["..."] appended), and the settings panel is closed
    where a new project keeps it as it was. *)
Theorem load_example_vs_new_project now s ex newId :
  let s1 := appReducer now s (LOAD_EXAMPLE ex newId) in
  let s2 := runActions s [(now, NEW_PROJECT newId);
              (now, GENERATION_SUCCESS (DesignOutput.mk (ExampleItem.htmlCode ex)) (ExampleItem.prompt ex))] in
  history s1 = history s2 /\ activeDesign s1 = activeDesign s2 /\
  convertedCodeCache s1 = convertedCodeCache s2 /\
  currentProjectId s1 = currentProjectId s2 /\ apiKey s1 = apiKey s2 /\
  chatSession s1 = chatSession s2 /\
  (chatTitle s1 = chatTitle s2 <-> 40 < js_length (ExampleItem.prompt ex)) /\
  isSettingsOpen s1 = false /\ isSettingsOpen s2 = isSettingsOpen s.
Proof.
  destruct s. simpl. unfold titleOfPrompt. split_and!; try done.
  destruct (Nat.ltb_spec 40 (js_length (ExampleItem.prompt ex))) as [Hlt|Hge]; split; intros H; try done.
  - exfalso. apply (f_equal String.length) in H.
    unfold js_length in *. rewrite js_substring_0 in H. autorewrite with dassigner_rw in H. lia.
  - lia.
Qed.

(** [LOAD_PROJECT] can change the displayed design and install a non-empty
    conversion cache: it restores the loaded project's cache instead of
    clearing it. *)
Lemma load_project_keeps_cache :
  exists s p,
    activeDesign (appReducer 0 s (LOAD_PROJECT p)) <> activeDesign s /\
    convertedCodeCache (appReducer 0 s (LOAD_PROJECT p)) <> ∅.
Proof.
  exists initialState, (Project.mk "p" "P" [HistoryItem.mk "1" "x" (DesignOutput.mk "<p/>")]
    (Some (DesignOutput.mk "<p/>")) false 1 {[ "React" := "export default 1" ]}).
  split; simpl; [discriminate|]. apply insert_non_empty.
Qed.

(** ** Witnesses: the claims at concrete sessions *)

Lemma history_commits_in_order_witness :
  Forall (fun na => resetsProject (snd na) = false)
    [(1%N, START_GENERATION); (2%N, GENERATION_SUCCESS (DesignOutput.mk "<p>a</p>") "a");
     (3%N, GENERATION_FAILURE); (4%N, GENERATION_SUCCESS (DesignOutput.mk "<p>b</p>") "b")] /\
  history (runActions initialState
    [(1%N, START_GENERATION); (2%N, GENERATION_SUCCESS (DesignOutput.mk "<p>a</p>") "a");
     (3%N, GENERATION_FAILURE); (4%N, GENERATION_SUCCESS (DesignOutput.mk "<p>b</p>") "b")])
  = history initialState ++ committed
    [(1%N, START_GENERATION); (2%N, GENERATION_SUCCESS (DesignOutput.mk "<p>a</p>") "a");
     (3%N, GENERATION_FAILURE); (4%N, GENERATION_SUCCESS (DesignOutput.mk "<p>b</p>") "b")].
Proof. split; [repeat constructor | apply history_commits_in_order; repeat constructor]. Defined.

Lemma wf_reachable_witness :
  Forall (fun na => action_ok (snd na))
    [(1%N, NEW_PROJECT "proj-1"); (2%N, GENERATION_SUCCESS (DesignOutput.mk "<p>a</p>") "a");
     (3%N, RESTORE_VERSION "2")] /\
  state_wf (runActions initialState
    [(1%N, NEW_PROJECT "proj-1"); (2%N, GENERATION_SUCCESS (DesignOutput.mk "<p>a</p>") "a");
     (3%N, RESTORE_VERSION "2")]).
Proof. split; [repeat constructor | apply wf_reachable; repeat constructor]. Defined.

Lemma cache_cleared_on_design_change_witness :
  (forall p, GENERATION_SUCCESS (DesignOutput.mk "<p>a</p>") "a" <> LOAD_PROJECT p) /\
  activeDesign (appReducer 1 initialState (GENERATION_SUCCESS (DesignOutput.mk "<p>a</p>") "a"))
    <> activeDesign initialState /\
  convertedCodeCache (appReducer 1 initialState (GENERATION_SUCCESS (DesignOutput.mk "<p>a</p>") "a")) = ∅.
Proof.
  assert (H1 : forall p, GENERATION_SUCCESS (DesignOutput.mk "<p>a</p>") "a" <> LOAD_PROJECT p)
    by (intros p; discriminate).
  assert (H2 : activeDesign (appReducer 1 initialState (GENERATION_SUCCESS (DesignOutput.mk "<p>a</p>") "a"))
    <> activeDesign initialState) by (simpl; discriminate).
  exact (conj H1 (conj H2 (cache_cleared_on_design_change _ _ _ H1 H2))).
Defined.

Lemma restore_version_unique_witness :
  let s := runActions initialState
    [(1%N, GENERATION_SUCCESS (DesignOutput.mk "<p>a</p>") "a");
     (2%N, GENERATION_SUCCESS (DesignOutput.mk "<p>b</p>") "b")] in
  let item := HistoryItem.mk "1" "a" (DesignOutput.mk "<p>a</p>") in
  NoDup (map HistoryItem.id (history s)) /\ In item (history s) /\
  activeDesign (appReducer 3 s (RESTORE_VERSION (HistoryItem.id item)))
    = Some (HistoryItem.designOutput item).
Proof.
  intros s item.
  assert (Hnd : NoDup (map HistoryItem.id (history s))) by (apply (bool_decide_unpack _); by vm_compute).
  assert (Hin : In item (history s)) by (vm_compute; left; reflexivity).
  exact (conj Hnd (conj Hin (proj1 (restore_version_unique 3 s item Hnd Hin)))).
Defined.

Lemma restore_version_absent_witness :
  let s := runActions initialState [(1%N, GENERATION_SUCCESS (DesignOutput.mk "<p>a</p>") "a")] in
  Forall (fun it => HistoryItem.id it <> "42") (history s) /\
  appReducer 2 s (RESTORE_VERSION "42") = s.
Proof.
  intros s.
  assert (H : Forall (fun it => HistoryItem.id it <> "42") (history s))
    by (vm_compute; repeat constructor; discriminate).
  exact (conj H (restore_version_absent 2 s "42" H)).
Defined.

Lemma history_ids_unique_witness :
  ids_ok 0 (history initialState) /\
  ticksFrom 0 [(1%N, GENERATION_SUCCESS (DesignOutput.mk "<p>a</p>") "a");
               (2%N, GENERATION_SUCCESS (DesignOutput.mk "<p>b</p>") "b")] /\
  loadsFresh [(1%N, GENERATION_SUCCESS (DesignOutput.mk "<p>a</p>") "a");
              (2%N, GENERATION_SUCCESS (DesignOutput.mk "<p>b</p>") "b")] /\
  NoDup (map HistoryItem.id (history (runActions initialState
    [(1%N, GENERATION_SUCCESS (DesignOutput.mk "<p>a</p>") "a");
     (2%N, GENERATION_SUCCESS (DesignOutput.mk "<p>b</p>") "b")]))).
Proof.
  assert (H1 : ids_ok 0 (history initialState)) by (split; constructor).
  assert (H2 : ticksFrom 0 [(1%N, GENERATION_SUCCESS (DesignOutput.mk "<p>a</p>") "a");
               (2%N, GENERATION_SUCCESS (DesignOutput.mk "<p>b</p>") "b")]) by (simpl; lia).
  assert (H3 : loadsFresh [(1%N, GENERATION_SUCCESS (DesignOutput.mk "<p>a</p>") "a");
              (2%N, GENERATION_SUCCESS (DesignOutput.mk "<p>b</p>") "b")]) by exact I.
  exact (conj H1 (conj H2 (conj H3 (history_ids_unique _ _ _ H1 H2 H3)))).
Defined.

Lemma same_tick_versions_collide_witness :
  Forall (fun it => HistoryItem.id it <> N_to_string 7) (history initialState) /\
  activeDesign (appReducer 7
      (runActions initialState [(7%N, GENERATION_SUCCESS (DesignOutput.mk "<p>a</p>") "a");
                                (7%N, GENERATION_SUCCESS (DesignOutput.mk "<p>b</p>") "b")])
      (RESTORE_VERSION (N_to_string 7))) = Some (DesignOutput.mk "<p>a</p>").
Proof.
  assert (H : Forall (fun it => HistoryItem.id it <> N_to_string 7) (history initialState))
    by constructor.
  exact (conj H (proj2 (same_tick_versions_collide 7 initialState _ _ "a" "b" H))).
Defined.

Lemma title_of_first_prompt_witness :
  history initialState = [] /\
  chatTitle (appReducer 1 initialState
    (GENERATION_SUCCESS (DesignOutput.mk "<p>a</p>") "01234567890123456789012345678901234567890123456789"))
  = "0123456789012345678901234567890123456789...".
Proof.
  assert (H : history initialState = []) by reflexivity.
  split; [exact H|].
  rewrite (proj1 (title_of_first_prompt 1 initialState (DesignOutput.mk "<p>a</p>")
    "01234567890123456789012345678901234567890123456789" H)).
  reflexivity.
Defined.
