(* ===== verification/Toast.v ===== *)
(** The notification timer of [src/components/Toast.tsx]: one
    [ToastMessage] (lines 11-125) with its state [isVisible], [progress]
    and [isPaused], the interval its effect runs while not paused (lines
    16-35), the dismiss button (lines 37-40) and the [setTimeout]s that call
    [onDismiss]; [ToastContainer] (lines 131-154) turns [onDismiss] into a
    [REMOVE_TOAST] dispatch.  The elements both return are virtual DOM
    trees ([renderToast], [ToastContainer]) whose handlers are the events
    of [toastStep].

    Time advances in ticks of the 50 ms interval.  The decrement
    [(interval / duration) * 100] is [(50 / 5000) * 100], which rounds to
    exactly [1] in binary64, and every value [progress] takes is then an
    integer between 0 and 100, exact in binary64: [progress] is a [Z].

    The theorems: an unpaused notification hides itself after exactly 100
    ticks (5 s) and schedules its removal; pausing keeps the progress; the
    interval is never stopped at 0 and keeps scheduling removals until the
    notification is unmounted, which is harmless because [REMOVE_TOAST] is
    idempotent; two notifications created in the same millisecond share an
    id and are removed together (that they share a React key is shown in
    [Layout.v], from [addToast]); the progress bar is drawn at the width
    the ticks give. *)

From S2P Require Import Prelude Types Dom Icons Reducer.
Import AppState.

Module ToastView.
Record t := mk {
  isVisible : bool;
  progress : Z;
  isPaused : bool;
  (** [setTimeout(() => onDismiss(toast.id), 300)] calls not yet fired. *)
  scheduled : nat
}.
End ToastView.

(** [useState(true)], [useState(100)], [useState(false)]. *)
Definition mount : ToastView.t := ToastView.mk true 100 false 0.

(** [(interval / duration) * 100] *)
Definition decrement : Z := 1.

(** The updater given to [setProgress] (lines 24-31): the new progress,
    and whether it hid the notification and scheduled its removal. *)
Definition progressUpdater (prev : Z) : Z * bool :=
  let newProgress := (prev - decrement)%Z in
  if (newProgress <=? 0)%Z then (0%Z, true) else (newProgress, false).

Inductive ToastEvent :=
| Tick            (** the interval fires (only while it runs) *)
| MouseEnter      (** [setIsPaused(true)]: the effect's cleanup clears the interval *)
| MouseLeave      (** [setIsPaused(false)]: the effect starts a new interval *)
| DismissClick    (** [handleDismiss] *)
| TimeoutFires.   (** one scheduled [onDismiss(toast.id)] runs *)

(** One event on the view; [Some true] when an [onDismiss] ran. *)
Definition toastStep (v : ToastView.t) (e : ToastEvent) : option (ToastView.t * bool) :=
  match e with
  | Tick =>
      if ToastView.isPaused v then None
      else
        let '(p, hide) := progressUpdater (ToastView.progress v) in
        Some (ToastView.mk (if hide then false else ToastView.isVisible v) p (ToastView.isPaused v)
                (if hide then S (ToastView.scheduled v) else ToastView.scheduled v), false)
  | MouseEnter => Some (ToastView.mk (ToastView.isVisible v) (ToastView.progress v) true (ToastView.scheduled v), false)
  | MouseLeave => Some (ToastView.mk (ToastView.isVisible v) (ToastView.progress v) false (ToastView.scheduled v), false)
  | DismissClick => Some (ToastView.mk false (ToastView.progress v) (ToastView.isPaused v) (S (ToastView.scheduled v)), false)
  | TimeoutFires =>
      match ToastView.scheduled v with
      | S k => Some (ToastView.mk (ToastView.isVisible v) (ToastView.progress v) (ToastView.isPaused v) k, true)
      | O => None
      end
  end.

(** [n] ticks of a running interval. *)
Fixpoint ticks (n : nat) (v : ToastView.t) : option ToastView.t :=
  match n with
  | O => Some v
  | S n' => match toastStep v Tick with Some (v', _) => ticks n' v' | None => None end
  end.

(** [onDismiss] of [ToastContainer] (lines 131-133). *)
Definition onDismiss (now : N) (s : AppState.t) (id : string) : AppState.t :=
  appReducer now s (REMOVE_TOAST id).

(** The notification with this id is shown by [ToastContainer]. *)
Definition shown (s : AppState.t) (id : string) : bool :=
  existsb (fun t => String.eqb (Toast.id t) id) (toasts s).

(** [getToastStyles()] (lines 43-80). *)
Record ToastStyles := mkStyles {
  bg : string; text : string; icon : string; progressClass : string;
  Icon : IconProps ToastEvent -> Node ToastEvent
}.

Definition getToastStyles (ty : ToastType) : ToastStyles :=
  match ty with
  | error => mkStyles "bg-red-50 dark:bg-red-900/20 border-red-200 dark:border-red-800/50"
               "text-red-800 dark:text-red-200" "text-red-500 dark:text-red-400"
               "bg-red-500 dark:bg-red-400" InformationCircleIcon
  | warning => mkStyles "bg-yellow-50 dark:bg-yellow-900/20 border-yellow-200 dark:border-yellow-800/50"
                 "text-yellow-800 dark:text-yellow-200" "text-yellow-500 dark:text-yellow-400"
                 "bg-yellow-500 dark:bg-yellow-400" InformationCircleIcon
  | info => mkStyles "bg-blue-50 dark:bg-blue-900/20 border-blue-200 dark:border-blue-800/50"
              "text-blue-800 dark:text-blue-200" "text-blue-500 dark:text-blue-400"
              "bg-blue-500 dark:bg-blue-400" InformationCircleIcon
  | success => mkStyles "bg-green-50 dark:bg-green-900/20 border-green-200 dark:border-green-800/50"
                 "text-green-800 dark:text-green-200" "text-green-500 dark:text-green-400"
                 "bg-green-500 dark:bg-green-400" CheckIcon
  end.

(** [`${progress}`] for an integer. *)
Definition Z_to_js_string (z : Z) : string :=
  if (z <? 0)%Z then "-" +:+ N_to_string (Z.to_N (- z)) else N_to_string (Z.to_N z).

(** The element [ToastMessage] returns (lines 82-128). *)
Definition renderToast (toast : Toast.t) (v : ToastView.t) : Node ToastEvent :=
  let styles := getToastStyles (Toast.type toast) in
  El "div" (obj [("className", AClass (classTokens "relative w-full max-w-sm rounded-lg shadow-lg border backdrop-blur-sm" ++
                   classTokens (bg styles) ++ classTokens (text styles) ++
                   classTokens "transform transition-all duration-300 ease-out" ++
                   classTokens (if ToastView.isVisible v then "translate-x-0 opacity-100" else "translate-x-full opacity-0")));
                 ("role", AStr "alert"); ("aria-live", AStr "polite");
                 ("onMouseEnter", AHandler MouseEnter); ("onMouseLeave", AHandler MouseLeave)])
    [El "div" (obj [("className", cls "absolute bottom-0 left-0 h-1 bg-black/10 dark:bg-white/10 w-full rounded-b-lg overflow-hidden")])
       [El "div" (obj [("className", AClass (["h-full"] ++ classTokens (progressClass styles) ++ classTokens "transition-all duration-75 ease-linear"));
                       ("style", AStyle [("width", Z_to_js_string (ToastView.progress v) +:+ "%")])]) []];
     El "div" (obj [("className", cls "flex items-start p-4 pr-12")])
       [El "div" (obj [("className", cls "flex-shrink-0")])
          [Icon styles (obj [("className", AClass (["w-5"; "h-5"] ++ classTokens (icon styles)))])];
        El "div" (obj [("className", cls "ml-3 flex-1 min-w-0")])
          [El "p" (obj [("className", cls "text-sm font-medium leading-5 break-words")]) [Text (Toast.message toast)]]];
     El "button" (obj [("onClick", AHandler DismissClick);
                       ("className", AClass (classTokens "absolute top-3 right-3 rounded-md p-1.5" ++ classTokens (text styles) ++
                          classTokens "opacity-70 hover:opacity-100 hover:bg-black/5 dark:hover:bg-white/10 focus:outline-none focus:ring-2 focus:ring-current focus:ring-offset-2 focus:ring-offset-transparent transition-all duration-200"));
                       ("aria-label", AStr "Close notification")])
       [XMarkIcon (obj [("className", cls "h-4 w-4")])]].

(** [ToastContainer] (lines 131-154): [null] without notifications, else
    one wrapper keyed by the notification's id per notification, in
    order; [viewOf] is the state of the [ToastMessage] React keeps for it. *)
Definition ToastContainer (s : AppState.t) (viewOf : Toast.t -> ToastView.t) : option (Node ToastEvent) :=
  match toasts s with
  | [] => None
  | ts => Some (El "div" (obj [("aria-live", AStr "polite"); ("aria-label", AStr "Notifications");
                               ("className", cls "fixed top-4 right-4 flex flex-col space-y-3 z-[100] pointer-events-none max-w-sm w-full")])
                  (map (fun t => El "div" (obj [("key", AStr (Toast.id t)); ("className", cls "pointer-events-auto")])
                                   [renderToast t (viewOf t)]) ts))
  end.

(** The class tokens of an element. *)
Definition classesOf {E} (n : Node E) : list string :=
  match attr "className" n with Some (AClass l) => l | _ => [] end.

(** The React keys of the container's children. *)
Definition childKeys {E} (n : Node E) : list string :=
  omap (fun c => match attr "key" c with Some (AStr k) => Some k | _ => None end) (childrenOf n).

(** ** Lemmas *)

Lemma ticks_running n vis p k :
  (Z.of_nat n < p)%Z -> ticks n (ToastView.mk vis p false k) = Some (ToastView.mk vis (p - Z.of_nat n) false k).
Proof.
  revert p. induction n as [|n IH]; intros p Hp; cbn -[Z.of_nat].
  - by rewrite Z.sub_0_r.
  - unfold progressUpdater, decrement. destruct (Z.leb_spec (p - 1) 0); [lia|].
    rewrite IH by lia. do 2 f_equal. lia.
Qed.

Lemma ticks_hidden m k :
  ticks m (ToastView.mk false 0 false k) = Some (ToastView.mk false 0 false (m + k)).
Proof.
  revert k. induction m as [|m IH]; intros k; [done|]. cbn -[Z.of_nat].
  change (progressUpdater 0) with (0%Z, true). cbn. rewrite IH. do 2 f_equal. lia.
Qed.

Lemma ticks_add n m v :
  ticks (n + m) v = match ticks n v with Some v' => ticks m v' | None => None end.
Proof.
  revert v. induction n as [|n IH]; intros v; [done|]. cbn [Nat.add ticks].
  destruct (toastStep v Tick) as [[v' ?]|]; [apply IH|done].
Qed.

Lemma filter_idem {A} (f : A -> bool) l : List.filter f (List.filter f l) = List.filter f l.
Proof. induction l as [|x l IH]; cbn; [done|]. destruct (f x) eqn:E; cbn; [rewrite E|]; by rewrite IH. Qed.

Lemma existsb_filter_neg (id : string) l :
  existsb (fun t => String.eqb (Toast.id t) id)
    (List.filter (fun t => negb (String.eqb (Toast.id t) id)) l) = false.
Proof.
  induction l as [|t l IH]; cbn; [done|].
  destruct (String.eqb (Toast.id t) id) eqn:E; cbn; [done|]. by rewrite E, IH.
Qed.

Lemma ticks_mount_running n :
  n < 100 -> ticks n mount = Some (ToastView.mk true (100 - Z.of_nat n) false 0).
Proof. intros Hn. apply ticks_running. lia. Qed.

Lemma ticks_mount_done : ticks 100 mount = Some (ToastView.mk false 0 false 1).
Proof. rewrite (ticks_add 99 1). unfold mount. rewrite ticks_running by lia. reflexivity. Qed.

Lemma ToastContainer_none s viewOf : ToastContainer s viewOf = None <-> toasts s = [].
Proof. unfold ToastContainer. by destruct (toasts s). Qed.

Lemma keyed_wrappers_keys (l : list Toast.t) (viewOf : Toast.t -> ToastView.t) a :
  childKeys (El (E:=ToastEvent) "div" a
    (map (fun t => El "div" (obj [("key", AStr (Toast.id t)); ("className", cls "pointer-events-auto")])
                     [renderToast t (viewOf t)]) l)) = map Toast.id l.
Proof. induction l as [|u l IH]; [done|]. unfold childKeys in *. cbn in *. by rewrite IH. Qed.

Lemma ToastContainer_keys s viewOf n :
  ToastContainer s viewOf = Some n -> childKeys n = map Toast.id (toasts s).
Proof.
  unfold ToastContainer. destruct (toasts s) as [|t ts]; intros H; [done|]. injection H as <-.
  exact (keyed_wrappers_keys (t :: ts) viewOf _).
Qed.

Lemma renderToast_style t v :
  omap (attr "style") (descendants (renderToast t v)) =
    [AStyle [("width", Z_to_js_string (ToastView.progress v) +:+ "%")]].
Proof. destruct t as [? ? []], v as [[] ? [] ?]; vm_compute; reflexivity. Qed.

Lemma renderToast_class t v :
  attr "className" (renderToast t v) = Some (AClass (
    classTokens "relative w-full max-w-sm rounded-lg shadow-lg border backdrop-blur-sm" ++
    classTokens (bg (getToastStyles (Toast.type t))) ++ classTokens (text (getToastStyles (Toast.type t))) ++
    classTokens "transform transition-all duration-300 ease-out" ++
    (if ToastView.isVisible v then ["translate-x-0"; "opacity-100"] else ["translate-x-full"; "opacity-0"]))).
Proof. destruct v as [[] ? ? ?]; reflexivity. Qed.

(** ** Claims *)

(** C30: A notification that is not hovered hides itself after exactly
    100 ticks of 50 ms (5 s): it stays visible with progress [100 - n]
    after [n < 100] ticks, and the hundredth tick hides it and schedules
    its removal once. *)
Theorem toast_auto_dismiss n :
  n < 100 ->
  ticks n mount = Some (ToastView.mk true (100 - Z.of_nat n) false 0) /\
  ticks 100 mount = Some (ToastView.mk false 0 false 1).
Proof.
  intros Hn. split; [by apply ticks_mount_running|apply ticks_mount_done].
Qed.

(** The interval is not stopped at 0: every tick after the
    notification hid schedules one more [onDismiss], until the notification
    is unmounted.  The repeated removals are harmless: after one
    [REMOVE_TOAST] the notification is no longer shown, and another
    [REMOVE_TOAST] of the same id changes nothing. *)
Theorem toast_removal_repeats_harmlessly m now1 now2 s id :
  ticks m (ToastView.mk false 0 false 1) = Some (ToastView.mk false 0 false (S m)) /\
  shown (onDismiss now1 s id) id = false /\
  onDismiss now2 (onDismiss now1 s id) id = onDismiss now1 s id.
Proof.
  split_and!.
  - rewrite ticks_hidden. do 2 f_equal. lia.
  - destruct s. unfold shown, onDismiss. cbn. apply existsb_filter_neg.
  - destruct s. unfold onDismiss. cbn. by rewrite filter_idem.
Qed.

(** Notifications are keyed by [Date.now().toString()] (App.tsx line
    338): two created in the same millisecond share an id, and dismissing
    either removes both. *)
Theorem same_tick_toasts_removed_together now now' s m1 m2 ty1 ty2 :
  toasts (onDismiss now'
            (appReducer now (appReducer now s (ADD_TOAST (Toast.mk (N_to_string now) m1 ty1)))
               (ADD_TOAST (Toast.mk (N_to_string now) m2 ty2)))
            (N_to_string now))
  = List.filter (fun t => negb (String.eqb (Toast.id t) (N_to_string now))) (toasts s).
Proof.
  destruct s. unfold onDismiss. cbn. rewrite !List.filter_app. cbn.
  rewrite String.eqb_refl. cbn. by rewrite !app_nil_r.
Qed.

(** The progress bar of a notification is drawn at the width of its
    progress: one that is not hovered shows a bar of [(100 - n)%] and is
    opaque after [n < 100] ticks, and after 100 ticks shows a bar of [0%]
    and is faded out. *)
Lemma toast_bar_follows_ticks t n :
  n < 100 ->
  (exists v, ticks n mount = Some v /\
     omap (attr "style") (descendants (renderToast t v))
       = [AStyle [("width", Z_to_js_string (100 - Z.of_nat n) +:+ "%")]] /\
     "opacity-100" ∈ classesOf (renderToast t v)) /\
  (exists v, ticks 100 mount = Some v /\
     omap (attr "style") (descendants (renderToast t v)) = [AStyle [("width", "0%")]] /\
     "opacity-0" ∈ classesOf (renderToast t v)).
Proof.
  intros Hn. split; eexists; (split; [eauto using ticks_mount_running, ticks_mount_done|]);
    rewrite renderToast_style; unfold classesOf; rewrite renderToast_class; split; try done;
    cbn [ToastView.isVisible]; set_solver.
Qed.

(** ** Witnesses *)

Lemma toast_auto_dismiss_witness :
  ticks 40 mount = Some (ToastView.mk true 60 false 0).
Proof. apply (proj1 (toast_auto_dismiss 40 ltac:(lia))). Defined.

Lemma toast_bar_follows_ticks_witness :
  exists v, ticks 30 mount = Some v /\
    omap (attr "style") (descendants (renderToast (Toast.mk "1" "Saved" success) v))
      = [AStyle [("width", "70%")]] /\
    "opacity-100" ∈ classesOf (renderToast (Toast.mk "1" "Saved" success) v).
Proof. apply (proj1 (toast_bar_follows_ticks (Toast.mk "1" "Saved" success) 30 ltac:(lia))). Defined.
