(* ===== verification/Repository.v ===== *)
(** The project collection of [AppContextProvider] in [src/App.tsx]: the
    snapshot written by the persistence effect (lines 304-332), its guard,
    the [setProjects] updaters of saving (lines 319-331) and deleting
    (line 375), the choice of the most recent project by
    [[...projects].sort((a, b) => b.lastModified - a.lastModified)[0]]
    (lines 291 and 379), and the start-up restore with the migration of the
    legacy single-session record (lines 261-292).

    [Array.prototype.sort] is stable (ECMAScript 2019), so for this
    comparator its result is the stable sort by decreasing [lastModified];
    [sortByRecency] is that sort written as an insertion sort, and the
    theorems show that its head is the first project of maximal
    [lastModified]. *)

From S2P Require Import Prelude Types Reducer.
Import AppState.

(** [Array.prototype.findIndex], [None] for [-1]. *)
Fixpoint findIndex {A} (f : A -> bool) (l : list A) : option nat :=
  match l with
  | [] => None
  | x :: l' => if f x then Some 0 else S <$> findIndex f l'
  end.

(** The guard of line 305: nothing is saved without a project id, nor for
    an empty project that still has the initial title.  [!currentProjectId]
    also holds for the empty string. *)
Definition saveTarget (s : AppState.t) : option string :=
  match currentProjectId s with
  | Some pid =>
      if js_truthy pid then
        if Nat.eqb (length (history s)) 0 && String.eqb (chatTitle s) initialChatTitle
        then None else Some pid
      else None
  | None => None
  end.

(** [projectData] (lines 309-317), stamped with [Date.now()]. *)
Definition projectData (s : AppState.t) (pid : string) (now : N) : Project.t :=
  Project.mk pid (chatTitle s) (history s) (activeDesign s) (isComponentMode s) now
    (convertedCodeCache s).

(** The updater passed to [setProjects] by the persistence effect
    (lines 319-331): replace the project with the same id in place, or
    prepend it. *)
Definition upsertProject (projectData : Project.t) (prevProjects : list Project.t)
    : list Project.t :=
  match findIndex (fun p => String.eqb (Project.id p) (Project.id projectData)) prevProjects with
  | Some existingIndex => <[existingIndex := projectData]> prevProjects
  | None => projectData :: prevProjects
  end.

(** [prevProjects.filter(p => p.id !== projectId)] (line 375). *)
Definition removeProject (projectId : string) (prevProjects : list Project.t) : list Project.t :=
  List.filter (fun p => negb (String.eqb (Project.id p) projectId)) prevProjects.

(** Insertion into a list sorted by decreasing [lastModified]: the new
    element goes before the first element that is not more recent, so that
    among equal timestamps the earlier element of the input stays first. *)
Fixpoint insertByRecency (p : Project.t) (sorted : list Project.t) : list Project.t :=
  match sorted with
  | [] => [p]
  | q :: rest =>
      if (Project.lastModified q <=? Project.lastModified p)%N then p :: sorted
      else q :: insertByRecency p rest
  end.

(** [[...projects].sort((a, b) => b.lastModified - a.lastModified)]. *)
Fixpoint sortByRecency (projects : list Project.t) : list Project.t :=
  match projects with
  | [] => []
  | p :: rest => insertByRecency p (sortByRecency rest)
  end.

(** [... .sort(...)[0]], [undefined] being [None]. *)
Definition mostRecent (projects : list Project.t) : option Project.t :=
  head (sortByRecency projects).

(** Reference: one pass keeping the first project of maximal
    [lastModified]. *)
Fixpoint firstMax (projects : list Project.t) : option Project.t :=
  match projects with
  | [] => None
  | p :: rest =>
      match firstMax rest with
      | Some q => if (Project.lastModified q <=? Project.lastModified p)%N then Some p else Some q
      | None => Some p
      end
  end.

(** The legacy record [dassigner_session], as [JSON.parse] returns it:
    every field may be missing. *)
Module LegacySession.
Record t := mk {
  history : option (list HistoryItem.t);
  activeDesign : option DesignOutput.t;
  chatTitle : option string;
  isComponentMode : option bool;
  convertedCodeCache : option (gmap string string)
}.
End LegacySession.

(** Lines 266-277: a legacy session with a non-empty history becomes a new
    project at the front of the list; one with no history is dropped. *)
Definition migrateLegacy (now : N) (oldSession : LegacySession.t) (allProjects : list Project.t)
    : list Project.t :=
  match LegacySession.history oldSession with
  | Some h =>
      if 0 <? length h then
        Project.mk ("migrated-" +:+ N_to_string now)
          (js_or (default "" (LegacySession.chatTitle oldSession)) "Migrated Session")
          h (LegacySession.activeDesign oldSession)
          (default false (LegacySession.isComponentMode oldSession))
          now (default ∅ (LegacySession.convertedCodeCache oldSession))
        :: allProjects
      else allProjects
  | None => allProjects
  end.

(** Lines 286-292: the project named by the stored current id, otherwise
    the most recent one, otherwise none. *)
Definition resolveInitialProject (lastProjectId : option string) (allProjects : list Project.t)
    : option Project.t :=
  match find (fun p => match lastProjectId with
                       | Some lid => String.eqb (Project.id p) lid
                       | None => false
                       end) allProjects with
  | Some p => Some p
  | None => mostRecent allProjects
  end.

(** Replacing the first project with [pd]'s id, if there is one. *)
Fixpoint replaceById (pd : Project.t) (l : list Project.t) : option (list Project.t) :=
  match l with
  | [] => None
  | q :: rest =>
      if String.eqb (Project.id q) (Project.id pd) then Some (pd :: rest)
      else cons q <$> replaceById pd rest
  end.

(** ** Lemmas *)

Lemma upsertProject_replaceById pd l :
  upsertProject pd l = match replaceById pd l with Some l' => l' | None => pd :: l end.
Proof.
  unfold upsertProject.
  enough (H : match findIndex (fun p => String.eqb (Project.id p) (Project.id pd)) l with
              | Some i => Some (<[i := pd]> l) | None => None end = replaceById pd l).
  { destruct (findIndex _ l), (replaceById pd l); congruence. }
  induction l as [|q l IH]; simpl; [done|].
  destruct (String.eqb _ _); [done|].
  destruct (findIndex _ l), (replaceById pd l); simpl in *; congruence.
Qed.

Lemma replaceById_some pd l l' :
  NoDup (map Project.id l) -> replaceById pd l = Some l' ->
  NoDup (map Project.id l') /\
  (forall q, In q l' <-> q = pd \/ (In q l /\ Project.id q <> Project.id pd)).
Proof.
  revert l'. induction l as [|q l IH]; intros l' Hnd Hr; simpl in *; [done|].
  apply NoDup_cons in Hnd as [Hq Hnd].
  destruct (String.eqb_spec (Project.id q) (Project.id pd)) as [Heq|Hne].
  - injection Hr as <-. split.
    + simpl. apply NoDup_cons. by rewrite <- Heq.
    + intros r. simpl. split.
      * intros [->|Hin]; [by left|]. right. split; [by right|].
        intros Hid. apply Hq. rewrite Heq, <- Hid. apply list_elem_of_In, in_map, Hin.
      * intros [->|[[<-|Hin] Hne]]; [by left|done|by right].
  - destruct (replaceById pd l) as [l''|] eqn:Hr'; simpl in Hr; [|done].
    injection Hr as <-. destruct (IH l'' Hnd eq_refl) as [Hnd'' Hin''].
    split.
    + simpl. apply NoDup_cons. split; [|done].
      intros Hin%list_elem_of_In. apply in_map_iff in Hin as (r & Hr & Hin).
      apply Hin'' in Hin as [->|[Hin _]]; [done|].
      apply Hq, list_elem_of_In, in_map_iff. eauto.
    + intros r. simpl. rewrite Hin''. split.
      * intros [<-|[->|[Hin Hne']]]; [right; split; [by left|done]|by left|right; split; [by right|done]].
      * intros [->|[[<-|Hin] Hne']]; [by right; left|by left|by right; right].
Qed.

Lemma replaceById_none pd l :
  replaceById pd l = None -> Forall (fun q => Project.id q <> Project.id pd) l.
Proof.
  induction l as [|q l IH]; simpl; [constructor|].
  destruct (String.eqb_spec (Project.id q) (Project.id pd)); [discriminate|].
  destruct (replaceById pd l); simpl; [discriminate|]. intros _. constructor; auto.
Qed.

Lemma head_insertByRecency p sorted :
  head (insertByRecency p sorted) =
    match head sorted with
    | Some q => if (Project.lastModified q <=? Project.lastModified p)%N then Some p else Some q
    | None => Some p
    end.
Proof. destruct sorted as [|q rest]; simpl; [done|]. by destruct (_ <=? _)%N. Qed.

Lemma mostRecent_firstMax l : mostRecent l = firstMax l.
Proof.
  unfold mostRecent. induction l as [|p l IH]; simpl; [done|].
  by rewrite head_insertByRecency, IH.
Qed.

Lemma firstMax_spec l p :
  firstMax l = Some p ->
  exists pre post, l = pre ++ p :: post /\
    Forall (fun q => (Project.lastModified q < Project.lastModified p)%N) pre /\
    Forall (fun q => (Project.lastModified q <= Project.lastModified p)%N) post.
Proof.
  revert p. induction l as [|r l IH]; intros p Hf; simpl in Hf; [done|].
  destruct (firstMax l) as [q|] eqn:Hq.
  - destruct (IH q eq_refl) as (pre & post & -> & Hpre & Hpost).
    destruct (N.leb_spec (Project.lastModified q) (Project.lastModified r)); injection Hf as <-.
    + exists [], (pre ++ q :: post). split_and!; [done|constructor|].
      apply Forall_app. split; [eapply Forall_impl; [exact Hpre|]; simpl; lia|].
      constructor; [lia|]. eapply Forall_impl; [exact Hpost|]. simpl. lia.
    + exists (r :: pre), post. split_and!; [done| |done]. constructor; [lia|done].
  - injection Hf as <-. destruct l as [|r' l]; simpl in Hq.
    2:{ destruct (firstMax l); [destruct (_ <=? _)%N|]; discriminate. }
    exists [], []. split_and!; constructor.
Qed.

Lemma find_id_first (lid : string) l p :
  find (fun q => String.eqb (Project.id q) lid) l = Some p ->
  Project.id p = lid /\ In p l.
Proof.
  intros [Hin Hf]%find_some. by apply String.eqb_eq in Hf.
Qed.

(** The saved snapshot is in the list after saving, and everything else in
    the new list was in the old one. *)
Lemma upsert_contains pd l : In pd (upsertProject pd l).
Proof.
  rewrite upsertProject_replaceById. destruct (replaceById pd l) as [l'|] eqn:Hr; [|by left].
  revert l' Hr. induction l as [|q l IH]; intros l' Hr; simpl in Hr; [done|].
  destruct (String.eqb _ _); [injection Hr as <-; by left|].
  destruct (replaceById pd l) as [l''|]; simpl in Hr; [|done]. injection Hr as <-. right. by apply IH.
Qed.

Lemma upsert_in_inv pd l q : In q (upsertProject pd l) -> q = pd \/ In q l.
Proof.
  rewrite upsertProject_replaceById. destruct (replaceById pd l) as [l'|] eqn:Hr; [|by intros [->|Hin]; auto].
  revert l' Hr. induction l as [|r l IH]; intros l' Hr; simpl in Hr; [done|].
  destruct (String.eqb _ _); [injection Hr as <-; intros [->|Hin]; [by left|by right; right]|].
  destruct (replaceById pd l) as [l''|]; simpl in Hr; [|done]. injection Hr as <-.
  intros [->|Hin]; [by right; left|]. destruct (IH l'' eq_refl Hin) as [->|H]; [by left|by right; right].
Qed.

Lemma mostRecent_in l p : mostRecent l = Some p -> In p l.
Proof.
  rewrite mostRecent_firstMax. intros (pre & post & -> & _)%firstMax_spec.
  apply in_or_app. by right; left.
Qed.

Lemma removeProject_forall pid l : Forall (fun q => Project.id q <> pid) (removeProject pid l).
Proof.
  apply Forall_forall. intros q Hq%list_elem_of_In. unfold removeProject in Hq.
  apply filter_In in Hq as [_ Hq]. destruct (String.eqb_spec (Project.id q) pid); [done|].
  done.
Qed.

Lemma removeProject_in pid l q : In q l -> Project.id q <> pid -> In q (removeProject pid l).
Proof.
  intros Hin Hne. unfold removeProject. apply filter_In. split; [done|].
  by rewrite (proj2 (String.eqb_neq _ _) Hne).
Qed.

Lemma upsert_keeps_other pd l q :
  In q l -> Project.id q <> Project.id pd -> In q (upsertProject pd l).
Proof.
  rewrite upsertProject_replaceById. intros Hin Hne.
  destruct (replaceById pd l) as [l'|] eqn:Hr; [|by right].
  revert l' Hr. induction l as [|r l IH]; intros l' Hr; simpl in Hr; [done|].
  destruct Hin as [<-|Hin].
  - rewrite (proj2 (String.eqb_neq _ _) Hne) in Hr.
    destruct (replaceById pd l); simpl in Hr; [|done]. injection Hr as <-. by left.
  - destruct (String.eqb _ _); [injection Hr as <-; by right|].
    destruct (replaceById pd l) as [l''|]; simpl in Hr; [|done]. injection Hr as <-.
    right. by apply IH.
Qed.

(** ** Claims *)

(** C9: Saving a snapshot into a project list with distinct ids keeps the
    ids distinct; the new list holds the snapshot and exactly the projects
    of the old list with another id. *)
Theorem upsert_replaces_or_prepends pd l :
  NoDup (map Project.id l) ->
  NoDup (map Project.id (upsertProject pd l)) /\
  (forall q, In q (upsertProject pd l) <-> q = pd \/ (In q l /\ Project.id q <> Project.id pd)).
Proof.
  intros Hnd. rewrite upsertProject_replaceById.
  destruct (replaceById pd l) as [l'|] eqn:Hr; [by eapply replaceById_some|].
  apply replaceById_none in Hr. split.
  - simpl. apply NoDup_cons. split; [|done].
    intros Hin%list_elem_of_In. apply in_map_iff in Hin as (q & Hq & Hin).
    rewrite Forall_forall in Hr. by apply (Hr q); [apply list_elem_of_In|].
  - intros q. simpl. split.
    + intros [->|Hin]; [by left|]. right. split; [done|].
      rewrite Forall_forall in Hr. by apply Hr, list_elem_of_In.
    + intros [->|[Hin _]]; [by left|by right].
Qed.

(** C10: The project chosen by sorting on decreasing [lastModified] and
    taking element [0] exists exactly when the list is non-empty, and it is
    the first project of maximal [lastModified]: every project before it is
    strictly older and none after it is more recent. *)
Theorem mostRecent_is_first_max l :
  (mostRecent l = None <-> l = []) /\
  forall p, mostRecent l = Some p ->
    exists pre post, l = pre ++ p :: post /\
      Forall (fun q => (Project.lastModified q < Project.lastModified p)%N) pre /\
      Forall (fun q => (Project.lastModified q <= Project.lastModified p)%N) post.
Proof.
  rewrite mostRecent_firstMax. split; [|apply firstMax_spec].
  split; [|by intros ->]. destruct l as [|p l]; [done|]. simpl.
  destruct (firstMax l); [destruct (_ <=? _)%N|]; discriminate.
Qed.

(** C11: Loading a project and saving the session back writes the same
    project (the timestamp being the saved one), and the save does happen
    when the project has a non-empty id and either a history or a title of
    its own. *)
Theorem load_then_save_roundtrip now s p :
  js_truthy (Project.id p) = true ->
  (Project.history p <> [] \/ Project.title p <> initialChatTitle) ->
  saveTarget (appReducer now s (LOAD_PROJECT p)) = Some (Project.id p) /\
  projectData (appReducer now s (LOAD_PROJECT p)) (Project.id p) (Project.lastModified p) = p.
Proof.
  intros Hid Hne. destruct s, p as [pid title h ad cm lm cache]; simpl in *. split; [|done].
  unfold saveTarget; simpl. rewrite Hid.
  destruct h; simpl; [|done].
  destruct (String.eqb_spec title initialChatTitle); simpl; [|done].
  exfalso. destruct Hne; congruence.
Qed.

(** C12: Start-up restores a project exactly when there is at least one;
    when a project carries the stored current id, the first such project is
    the one restored. *)
Theorem resolve_initial_project_spec lid l :
  (resolveInitialProject lid l = None <-> l = []) /\
  forall p, find (fun q => match lid with Some i => String.eqb (Project.id q) i | None => false end) l
              = Some p ->
    resolveInitialProject lid l = Some p.
Proof.
  unfold resolveInitialProject. split.
  - destruct (find _ l) as [p|] eqn:Hf.
    + split; [done|]. intros ->. done.
    + apply mostRecent_is_first_max.
  - intros p ->. done.
Qed.

(** ** Witnesses *)

Lemma upsert_replaces_or_prepends_witness :
  NoDup (map Project.id [Project.mk "a" "A" [] None false 1 ∅; Project.mk "b" "B" [] None false 2 ∅]) /\
  upsertProject (Project.mk "b" "B2" [] None true 3 ∅)
    [Project.mk "a" "A" [] None false 1 ∅; Project.mk "b" "B" [] None false 2 ∅]
  = [Project.mk "a" "A" [] None false 1 ∅; Project.mk "b" "B2" [] None true 3 ∅] /\
  NoDup (map Project.id (upsertProject (Project.mk "b" "B2" [] None true 3 ∅)
    [Project.mk "a" "A" [] None false 1 ∅; Project.mk "b" "B" [] None false 2 ∅])).
Proof.
  assert (H : NoDup (map Project.id [Project.mk "a" "A" [] None false 1 ∅; Project.mk "b" "B" [] None false 2 ∅]))
    by (apply (bool_decide_unpack _); by vm_compute).
  split; [exact H|]. split; [reflexivity|].
  exact (proj1 (upsert_replaces_or_prepends (Project.mk "b" "B2" [] None true 3 ∅) _ H)).
Defined.

Lemma mostRecent_is_first_max_witness :
  mostRecent [Project.mk "a" "A" [] None false 1 ∅; Project.mk "b" "B" [] None false 7 ∅;
              Project.mk "c" "C" [] None false 7 ∅]
    = Some (Project.mk "b" "B" [] None false 7 ∅) /\
  exists pre post,
    [Project.mk "a" "A" [] None false 1 ∅; Project.mk "b" "B" [] None false 7 ∅;
     Project.mk "c" "C" [] None false 7 ∅] = pre ++ Project.mk "b" "B" [] None false 7 ∅ :: post /\
    Forall (fun q => (Project.lastModified q < 7)%N) pre /\
    Forall (fun q => (Project.lastModified q <= 7)%N) post.
Proof.
  assert (H : mostRecent [Project.mk "a" "A" [] None false 1 ∅; Project.mk "b" "B" [] None false 7 ∅;
              Project.mk "c" "C" [] None false 7 ∅] = Some (Project.mk "b" "B" [] None false 7 ∅))
    by reflexivity.
  exact (conj H (proj2 (mostRecent_is_first_max _) _ H)).
Defined.

Lemma load_then_save_roundtrip_witness :
  js_truthy (Project.id (Project.mk "proj-1" "Landing" [] None false 9 ∅)) = true /\
  (Project.history (Project.mk "proj-1" "Landing" [] None false 9 ∅) <> [] \/
   Project.title (Project.mk "proj-1" "Landing" [] None false 9 ∅) <> initialChatTitle) /\
  projectData (appReducer 10 initialState (LOAD_PROJECT (Project.mk "proj-1" "Landing" [] None false 9 ∅)))
    "proj-1" 9 = Project.mk "proj-1" "Landing" [] None false 9 ∅.
Proof.
  assert (H1 : js_truthy (Project.id (Project.mk "proj-1" "Landing" [] None false 9 ∅)) = true)
    by reflexivity.
  assert (H2 : Project.history (Project.mk "proj-1" "Landing" [] None false 9 ∅) <> [] \/
               Project.title (Project.mk "proj-1" "Landing" [] None false 9 ∅) <> initialChatTitle)
    by (right; simpl; discriminate).
  exact (conj H1 (conj H2 (proj2 (load_then_save_roundtrip 10 initialState _ H1 H2)))).
Defined.

Lemma resolve_initial_project_spec_witness :
  find (fun q => String.eqb (Project.id q) "b")
    [Project.mk "a" "A" [] None false 8 ∅; Project.mk "b" "B" [] None false 2 ∅]
    = Some (Project.mk "b" "B" [] None false 2 ∅) /\
  resolveInitialProject (Some "b")
    [Project.mk "a" "A" [] None false 8 ∅; Project.mk "b" "B" [] None false 2 ∅]
    = Some (Project.mk "b" "B" [] None false 2 ∅).
Proof.
  assert (H : find (fun q => String.eqb (Project.id q) "b")
    [Project.mk "a" "A" [] None false 8 ∅; Project.mk "b" "B" [] None false 2 ∅]
    = Some (Project.mk "b" "B" [] None false 2 ∅)) by reflexivity.
  exact (conj H (proj2 (resolve_initial_project_spec (Some "b") _) _ H)).
Defined.
