(* ===== verification/Storage.v ===== *)
(** The text the program keeps in [localStorage] under
    ["dassigner_projects"] and ["dassigner_session"]: [JSON.stringify] of
    the project array and of the legacy session object
    ([src/App.tsx] lines 255, 265, 329, 376).

    [project_to_json] builds the object the persistence effect builds
    (members in the order of its object literal, lines 309-317);
    [convertedCodeCache], a [Record<string, string>], becomes an object with
    one member per entry.  A legacy session object leaves out the members
    it does not have, as [JSON.stringify] leaves out [undefined].  The
    readers take the last member of a name, as [JSON.parse] does, and fail
    on a value of the wrong shape, where the code would go on with
    [undefined] fields: they agree with the code on every text the program
    writes.  The instances [projects_codec] and [legacy_codec] discharge the
    [Codec] interface of the prelude with [Json.parse_stringify]. *)

From S2P Require Import Prelude Json Types Repository.

(** ** Writing *)

Definition design_to_json (d : DesignOutput.t) : json :=
  JObj [("htmlCode", JStr (DesignOutput.htmlCode d))].

Definition item_to_json (h : HistoryItem.t) : json :=
  JObj [("id", JStr (HistoryItem.id h)); ("prompt", JStr (HistoryItem.prompt h));
        ("designOutput", design_to_json (HistoryItem.designOutput h))].

Definition cache_to_json (m : gmap string string) : json :=
  JObj ((fun kv => (kv.1, JStr kv.2)) <$> map_to_list m).

Definition project_to_json (p : Project.t) : json :=
  JObj [("id", JStr (Project.id p));
        ("title", JStr (Project.title p));
        ("history", JArr (item_to_json <$> Project.history p));
        ("activeDesign", match Project.activeDesign p with
                         | Some d => design_to_json d
                         | None => JNull
                         end);
        ("isComponentMode", JBool (Project.isComponentMode p));
        ("convertedCodeCache", cache_to_json (Project.convertedCodeCache p));
        ("lastModified", JNum (Project.lastModified p))].

Definition legacy_to_json (o : LegacySession.t) : json :=
  JObj (option_list ((fun h => ("history", JArr (item_to_json <$> h))) <$> LegacySession.history o)
        ++ option_list ((fun d => ("activeDesign", design_to_json d)) <$> LegacySession.activeDesign o)
        ++ option_list ((fun t => ("chatTitle", JStr t)) <$> LegacySession.chatTitle o)
        ++ option_list ((fun b => ("isComponentMode", JBool b)) <$> LegacySession.isComponentMode o)
        ++ option_list ((fun m => ("convertedCodeCache", cache_to_json m))
                          <$> LegacySession.convertedCodeCache o)).

(** ** Reading *)

(** The value of the last member named [k]. *)
Definition member (k : string) (ms : list (string * json)) : option json :=
  snd <$> head (List.filter (fun kv => String.eqb kv.1 k) (rev ms)).

Definition as_string (v : json) : option string :=
  match v with JStr s => Some s | _ => None end.

Definition as_bool (v : json) : option bool :=
  match v with JBool b => Some b | _ => None end.

Definition as_number (v : json) : option N :=
  match v with JNum n => Some n | _ => None end.

Definition as_object (v : json) : option (list (string * json)) :=
  match v with JObj ms => Some ms | _ => None end.

Definition as_array (v : json) : option (list json) :=
  match v with JArr l => Some l | _ => None end.

Definition design_of_json (v : json) : option DesignOutput.t :=
  ms ← as_object v; s ← member "htmlCode" ms ≫= as_string; Some (DesignOutput.mk s).

Definition item_of_json (v : json) : option HistoryItem.t :=
  ms ← as_object v;
  i ← member "id" ms ≫= as_string;
  p ← member "prompt" ms ≫= as_string;
  d ← member "designOutput" ms ≫= design_of_json;
  Some (HistoryItem.mk i p d).

Definition cache_of_json (v : json) : option (gmap string string) :=
  ms ← as_object v;
  kvs ← mapM (fun kv => (fun s => (kv.1, s)) <$> as_string kv.2) ms;
  Some (list_to_map (rev kvs)).

(** A missing [activeDesign] or a [null] one is no design. *)
Definition active_of_json (o : option json) : option (option DesignOutput.t) :=
  match o with
  | None | Some JNull => Some None
  | Some v => Some <$> design_of_json v
  end.

Definition project_of_json (v : json) : option Project.t :=
  ms ← as_object v;
  i ← member "id" ms ≫= as_string;
  t ← member "title" ms ≫= as_string;
  h ← (member "history" ms ≫= as_array) ≫= mapM item_of_json;
  a ← active_of_json (member "activeDesign" ms);
  c ← member "isComponentMode" ms ≫= as_bool;
  m ← member "convertedCodeCache" ms ≫= cache_of_json;
  n ← member "lastModified" ms ≫= as_number;
  Some (Project.mk i t h a c n m).

(** A member that is absent reads as [None]; a present one must parse. *)
Definition optional {A} (f : json -> option A) (o : option json) : option (option A) :=
  match o with None => Some None | Some v => Some <$> f v end.

Definition legacy_of_json (v : json) : option LegacySession.t :=
  ms ← as_object v;
  h ← optional (fun v => as_array v ≫= mapM item_of_json) (member "history" ms);
  a ← optional design_of_json (member "activeDesign" ms);
  t ← optional as_string (member "chatTitle" ms);
  c ← optional as_bool (member "isComponentMode" ms);
  m ← optional cache_of_json (member "convertedCodeCache" ms);
  Some (LegacySession.mk h a t c m).

Definition decode_projects (s : string) : option (list Project.t) :=
  (parse s ≫= as_array) ≫= mapM project_of_json.

Definition encode_projects (ps : list Project.t) : string :=
  stringify (JArr (project_to_json <$> ps)).

Definition decode_legacy (s : string) : option LegacySession.t := parse s ≫= legacy_of_json.

Definition encode_legacy (o : LegacySession.t) : string := stringify (legacy_to_json o).

(** ** Round trips *)

Lemma design_of_to d : design_of_json (design_to_json d) = Some d.
Proof. destruct d. reflexivity. Qed.

Lemma item_of_to h : item_of_json (item_to_json h) = Some h.
Proof. destruct h as [i p []]. reflexivity. Qed.

Lemma items_of_to hs : mapM item_of_json (item_to_json <$> hs) = Some hs.
Proof. apply mapM_fmap_Some, item_of_to. Qed.

Lemma cache_of_to m : cache_of_json (cache_to_json m) = Some m.
Proof.
  unfold cache_of_json, cache_to_json. cbn [as_object mbind option_bind].
  rewrite mapM_fmap_Some by (intros [k v]; reflexivity). cbn. f_equal.
  rewrite <- (list_to_map_to_list m) at 2. symmetry. apply list_to_map_proper.
  - apply NoDup_fst_map_to_list.
  - apply Permutation_rev.
Qed.

Lemma project_of_to p : project_of_json (project_to_json p) = Some p.
Proof.
  destruct p as [i t h a c n m]. unfold project_of_json, project_to_json.
  cbn -[item_of_json item_to_json cache_of_json cache_to_json design_of_json design_to_json mapM].
  rewrite items_of_to, cache_of_to. cbn -[design_of_json design_to_json].
  destruct a; [rewrite design_of_to|]; reflexivity.
Qed.

Lemma legacy_of_to o : legacy_of_json (legacy_to_json o) = Some o.
Proof.
  destruct o as [h a t c m]. unfold legacy_of_json, legacy_to_json.
  destruct h, a, t, c, m;
    cbn -[item_of_json item_to_json cache_of_json cache_to_json design_of_json design_to_json mapM];
    rewrite ?items_of_to, ?cache_of_to, ?design_of_to; reflexivity.
Qed.

Lemma decode_encode_projects ps : decode_projects (encode_projects ps) = Some ps.
Proof.
  unfold decode_projects, encode_projects. rewrite parse_stringify. cbn [mbind option_bind as_array].
  apply mapM_fmap_Some, project_of_to.
Qed.

Lemma decode_encode_legacy o : decode_legacy (encode_legacy o) = Some o.
Proof. unfold decode_legacy, encode_legacy. rewrite parse_stringify. apply legacy_of_to. Qed.

#[global] Instance projects_codec : Codec (list Project.t) := {|
  encode := encode_projects; decode := decode_projects; decode_encode := decode_encode_projects |}.

#[global] Instance legacy_codec : Codec LegacySession.t := {|
  encode := encode_legacy; decode := decode_legacy; decode_encode := decode_encode_legacy |}.
