(* ===== verification/Service.v ===== *)
(** The model-service client of [src/services/geminiService.ts]: its error
    values ([GeminiServiceError] and subclasses, lines 8-26), the
    module-level client [ai] and its initialisation ([initializeAiClient],
    lines 33-45; [getAiClient], lines 52-57; [isClientInitialized] and
    [destroyClient], lines 572-582), the validation and clean-up of
    generated markup ([isValidHtml], [sanitizeHtml], [extractCode], lines
    64-83 and 295-329) and the five operations ([createChatSession],
    [sendMessageToChat], [enhancePrompt], [convertHtmlToFramework],
    [getInspirationPrompts], lines 336-566) with their guards, requests and
    error wrapping.  The client is represented by the trimmed key it was
    created with; [new GoogleGenAI] is taken not to throw.  An awaited SDK
    call is an argument: its settlement ([Sdk]) or a function from the text
    sent to it.  The system instruction given to [chats.create] (lines
    85-288) is the string [systemInstruction], and [createChatSession]
    passes it with [DEFAULT_MODEL] to the SDK argument.

    Theorems: the sanitizer only deletes but can reassemble what it
    deletes; a reply in the instructed format keeps its marker tags; every
    markup [sendMessageToChat] returns is valid; the inspiration prompts
    never fail. *)

From S2P Require Import Prelude Json Types.
From Stdlib Require Import Ascii.

(** [new GeminiServiceError(message, service)] has the message
    ["[service] message"]. *)
Definition GeminiServiceError (message service : string) : string :=
  "[" +:+ service +:+ "] " +:+ message.

Definition APIKeyError : string :=
  GeminiServiceError "API Key is not provided or is invalid." "Gemini API".

Definition ClientNotInitializedError : string :=
  GeminiServiceError "Gemini AI Client is not initialized. Please set your API key in the settings."
    "Gemini Client".

(** The module-level [let ai: GoogleGenAI | null]. *)
Definition AiClient : Type := option string.

(** [initializeAiClient(apiKey)]: the new value of [ai], and the error it
    throws.  On a missing or blank key [ai] becomes [null] and
    [APIKeyError] is thrown. *)
Definition initializeAiClient (apiKey : string) : AiClient * Result unit :=
  if js_truthy apiKey && negb (Nat.eqb (String.length (js_trim apiKey)) 0)
  then (Some (js_trim apiKey), Ok tt)
  else (None, Err APIKeyError).

Definition getAiClient (ai : AiClient) : Result string :=
  match ai with
  | Some client => Ok client
  | None => Err ClientNotInitializedError
  end.

Definition isClientInitialized (ai : AiClient) : bool :=
  match ai with Some _ => true | None => false end.

Definition destroyClient (ai : AiClient) : AiClient := None.

(** [isValidHtml(htmlCode)]. *)
Definition isValidHtml (htmlCode : string) : bool :=
  js_truthy htmlCode &&
  (let trimmed := js_trim htmlCode in js_startsWith trimmed "<" && js_includes trimmed ">").

(** ** [sanitizeHtml] (lines 75-83)

    Each [replace] with a global regular expression and [''] deletes the
    leftmost matches, one after the other, scanning on after each match.
    [remove_matches m] does that for a matcher [m], which gives the length
    of the match that starts at the head of the text, if any (an empty
    match deletes nothing).  The three matchers read the three patterns
    deterministically: in each pattern every quantifier is followed by a
    character its class excludes, or (the script pattern) the negative
    lookahead stops the repetition at the first closing tag, so the match
    at a position, when there is one, is the one computed here. *)

Fixpoint remove_matches (m : list ascii -> option nat) (skip : nat) (l : list ascii) : list ascii :=
  match l with
  | [] => []
  | c :: r =>
      match skip with
      | S k => remove_matches m k r
      | O =>
          match m l with
          | Some (S n) => remove_matches m n r
          | _ => c :: remove_matches m 0 r
          end
      end
  end.

(** Case-insensitive comparison of ASCII letters (the [i] flag). *)
Definition lower (c : ascii) : ascii :=
  let n := N_of_ascii c in
  if (65 <=? n)%N && (n <=? 90)%N then ascii_of_N (n + 32) else c.

Fixpoint ci_prefix (p l : list ascii) : option (list ascii) :=
  match p, l with
  | [], _ => Some l
  | c :: p', d :: l' => if (lower c =? lower d)%char then ci_prefix p' l' else None
  | _ :: _, [] => None
  end.

(** [\w]: ASCII letters, digits and the underscore. *)
Definition is_word (c : ascii) : bool :=
  let n := N_of_ascii c in
  ((48 <=? n)%N && (n <=? 57)%N) || ((65 <=? n)%N && (n <=? 90)%N) ||
  ((97 <=? n)%N && (n <=? 122)%N) || (n =? 95)%N.

Definition is_quote (c : ascii) : bool := (c =? "034")%char || (c =? "'")%char.

(** The length of the longest prefix whose characters satisfy [f]. *)
Fixpoint span (f : ascii -> bool) (l : list ascii) : nat :=
  match l with c :: r => if f c then S (span f r) else 0 | [] => 0 end.

(** The position of the first occurrence of [p], case-insensitively. *)
Fixpoint ci_find (p l : list ascii) : option nat :=
  match ci_prefix p l with
  | Some _ => Some 0
  | None => match l with [] => None | _ :: r => S <$> ci_find p r end
  end.

(** The pattern of line 77: from [<script] at a word boundary to the
    first [</script>] after it, in any case. *)
Definition script_match (l : list ascii) : option nat :=
  match ci_prefix (lit "<script") l with
  | Some rest =>
      let boundary := match rest with c :: _ => negb (is_word c) | [] => true end in
      if boundary then
        match ci_find (lit "</script>") rest with
        | Some k => Some (7 + k + 9)
        | None => None
        end
      else None
  | None => None
  end.

(** The pattern of line 79: white space, [on] and word characters, an
    equals sign between optional white space, then a quoted value (either
    quotation mark at each end), in any case. *)
Definition handler_match (l : list ascii) : option nat :=
  let w1 := span is_js_space l in
  match ci_prefix (lit "on") (drop w1 l) with
  | Some r1 =>
      let n := span is_word r1 in
      if Nat.eqb n 0 then None else
      let r2 := drop n r1 in
      let w2 := span is_js_space r2 in
      match drop w2 r2 with
      | e :: r3 =>
          if (e =? "=")%char then
            let w3 := span is_js_space r3 in
            match drop w3 r3 with
            | q :: r4 =>
                if is_quote q then
                  let v := span (fun c => negb (is_quote c)) r4 in
                  match drop v r4 with
                  | q' :: _ => if is_quote q' then Some (w1 + 2 + n + w2 + 1 + w3 + 1 + v + 1) else None
                  | [] => None
                  end
                else None
            | [] => None
            end
          else None
      | [] => None
      end
  | None => None
  end.

(** The pattern of line 81: [javascript:], optional white space, then
    every character up to a quotation mark or white space, in any case. *)
Definition jsurl_match (l : list ascii) : option nat :=
  match ci_prefix (lit "javascript:") l with
  | Some r =>
      let w := span is_js_space r in
      let v := span (fun c => negb (is_quote c) && negb (is_js_space c)) (drop w r) in
      Some (11 + w + v)
  | None => None
  end.

Definition sanitizeHtml (htmlCode : string) : string :=
  let sanitized := remove_matches script_match 0 (lit htmlCode) in
  let sanitized := remove_matches handler_match 0 sanitized in
  let sanitized := remove_matches jsurl_match 0 sanitized in
  String.string_of_list_ascii sanitized.

(** ** [extractCode] (lines 295-329) *)

Definition startTag : string := "<DAssigner-Start>".
Definition endTag : string := "<DAssigner-End>".

(** The first position of [p] in [l]. *)
Fixpoint find_sub (p l : list ascii) : option nat :=
  match strip_prefix p l with
  | Some _ => Some 0
  | None => match l with [] => None | _ :: r => S <$> find_sub p r end
  end.

(** [s.lastIndexOf(t)]. *)
Fixpoint last_sub (p l : list ascii) : option nat :=
  match l with
  | [] => match p with [] => Some 0 | _ => None end
  | _ :: r =>
      match last_sub p r with
      | Some j => Some (S j)
      | None => match strip_prefix p l with Some _ => Some 0 | None => None end
      end
  end.

Definition js_lastIndexOf (s t : string) : option nat := last_sub (lit t) (lit s).

Definition strip_trailing_space (l : list ascii) : list ascii :=
  rev (drop (span is_js_space (rev l)) (rev l)).

(** [match[1]] of [/```(?:html)?\s*([\s\S]*?)\s*```/] (line 316): after the
    first fence, an optional [html] and white space, the text up to the
    white space before the next fence. *)
Definition fence_capture (rawResponse : string) : option string :=
  let l := lit rawResponse in
  match find_sub (lit "```") l with
  | None => None
  | Some i =>
      let a := drop (i + 3) l in
      let a := match strip_prefix (lit "html") a with Some a' => a' | None => a end in
      let b := drop (span is_js_space a) a in
      match find_sub (lit "```") b with
      | None => None
      | Some q => Some (String.string_of_list_ascii (strip_trailing_space (take q b)))
      end
  end.

(** [if (extracted) return sanitizeHtml(extracted)] *)
Definition nonEmpty (extracted : string) : option string :=
  if js_truthy extracted then Some extracted else None.

Definition extractTagged (rawResponse : string) : option string :=
  match js_indexOf rawResponse startTag, js_indexOf rawResponse endTag with
  | Some startIndex, Some endIndex =>
      if startIndex <? endIndex
      then nonEmpty (js_trim (js_substring rawResponse (startIndex + js_length startTag) endIndex))
      else None
  | _, _ => None
  end.

Definition extractFenced (rawResponse : string) : option string :=
  match fence_capture rawResponse with
  | Some g => if js_truthy g then nonEmpty (js_trim g) else None
  | None => None
  end.

Definition extractAngled (rawResponse : string) : option string :=
  match js_indexOf rawResponse "<", js_lastIndexOf rawResponse ">" with
  | Some firstTag, Some lastTag =>
      if firstTag <? lastTag
      then nonEmpty (js_trim (js_substring rawResponse firstTag (lastTag + 1)))
      else None
  | _, _ => None
  end.

Definition extractCode (rawResponse : string) : Result string :=
  if negb (js_truthy rawResponse) then
    Err (GeminiServiceError "Invalid response received from AI service." "Code Extraction")
  else
    match extractTagged rawResponse with
    | Some extracted => Ok (sanitizeHtml extracted)
    | None =>
        match extractFenced rawResponse with
        | Some extracted => Ok (sanitizeHtml extracted)
        | None =>
            match extractAngled rawResponse with
            | Some extracted => Ok (sanitizeHtml extracted)
            | None => Ok (js_trim rawResponse)
            end
        end
    end.

(** ** The operations (lines 336-566)

    An awaited SDK call is an argument of the operation: the chat's
    [sendMessage], the client's [models.generateContent] (a function of the
    text sent), or the settled [chats.create].  [response.text] is an
    [option string]: [None] when the response or its text is missing. *)

(** The settlement of an awaited SDK call: its value, or the thrown error
    ([Some message] for an [Error], [None] for any other value). *)
Inductive Sdk (A : Type) := Resolved (a : A) | Rejected (error : option string).
Arguments Resolved {A} a.
Arguments Rejected {A} error.

(** [error instanceof Error ? error.message : 'Unknown error'] *)
Definition errorMessage (e : option string) : string := default "Unknown error" e.

Definition dq : string := String.String "034"%char EmptyString.

(** [!s || typeof s !== 'string' || s.trim().length === 0] *)
Definition blank (s : string) : bool := negb (js_truthy s) || Nat.eqb (js_length (js_trim s)) 0.

(** [const DEFAULT_MODEL] (line 6). *)
Definition DEFAULT_MODEL : string := "gemini-2.5-flash".

(** [const systemInstruction] (lines 85-288), line by line.  The text has
    characters above U+00FF, kept here in UTF-8; a search for an ASCII
    marker finds it at the same places in either encoding. *)
Definition systemInstruction : string :=
  "You are DAssigner, an autonomous, evolving AI web designer specializing in creating world-class, production-ready HTML interfaces. Your core mission is to transform user visions into stunning, functional web experiences that meet the highest modern design and accessibility standards, rivaling top-tier web development agencies in quality and innovation. Your performance is continually evaluated and optimized based on user feedback and evolving web development best practices." +:+
  nl +:+
  nl +:+
  "I. Core Operational Principles:" +:+
  nl +:+
  nl +:+
  "Initial Generation & Refinement Cycle (IGRC):" +:+
  nl +:+
  nl +:+
  "Initiation: Every user prompt begins an IGRC. Your initial response is a fully-formed HTML structure intended for immediate deployment (within a <body> tag)." +:+
  nl +:+
  nl +:+
  "Iteration: Subsequent user messages within the same conversation are treated as refinement requests directly related to the immediately preceding HTML output. Focus on additive changes, preserving existing design unless explicitly modified. Interpret vague requests with informed assumptions based on UX best practices, current design trends, and the existing context." +:+
  nl +:+
  nl +:+
  "Regeneration (Not Replacement): Always respond with the entire updated HTML <body> content. Never provide fragments, diffs, or code snippets outside the designated tags." +:+
  nl +:+
  nl +:+
  "Contextual Persistence & Adaptation: Maintain a detailed internal model of the evolving design, tracking all user-specified requirements, implicit design decisions, and ongoing stylistic themes. Use this model to ensure consistency and coherence across iterations. Actively adapt your design choices as new information emerges from the user." +:+
  nl +:+
  nl +:+
  "Output Protocol (Strict & Unwavering):" +:+
  nl +:+
  nl +:+
  "<DAssigner-Start>" +:+
  nl +:+
  "[Complete HTML code only - no explanations, apologies, markdown]" +:+
  nl +:+
  "</DAssigner-End>" +:+
  nl +:+
  nl +:+
  "Zero Tolerance for Extraneous Text: Absolutely no text, commentary, disclaimers, or markdown outside the designated tags. This is crucial for automated integration." +:+
  nl +:+
  nl +:+
  "Raw, Unadulterated HTML: Produce pure, executable HTML without any surrounding code fences, explanations, or commentary." +:+
  nl +:+
  nl +:+
  "Copy-Paste Ready: The output must be immediately usable in a web development environment." +:+
  nl +:+
  nl +:+
  "Styling Paradigm (Tailwind CSS Mastery):" +:+
  nl +:+
  nl +:+
  "Tailwind CSS Exclusive: Use only Tailwind utility classes for all styling. No exceptions." +:+
  nl +:+
  nl +:+
  "Eliminate Inline Styles & Style Blocks: Never use style attributes or <style> blocks. All styling must be achieved through Tailwind classes." +:+
  nl +:+
  nl +:+
  "Utility-First Purity: Embrace Tailwind's utility-first methodology to its fullest extent. Prioritize composability and maintainability." +:+
  nl +:+
  nl +:+
  "Asset Handling Strategy (Inline & Semantic):" +:+
  nl +:+
  nl +:+
  "Inline SVGs for Vector Graphics: Embed all icons, logos, and illustrations as optimized inline SVG elements." +:+
  nl +:+
  nl +:+
  "Optimization Imperative: Use clean, minimal SVG code. Remove unnecessary attributes and cruft." +:+
  nl +:+
  nl +:+
  "Accessibility Integration: Incorporate appropriate viewBox, aria-label, role, and other accessibility attributes within the SVG." +:+
  nl +:+
  nl +:+
  "Visual Harmony: Ensure visual consistency across all SVG elements. Maintain a unified style and aesthetic." +:+
  nl +:+
  nl +:+
  "Picsum Photos for Photographic Content: Use https://picsum.photos exclusively for all photographic placeholders." +:+
  nl +:+
  nl +:+
  "Semantic URL Structuring: Structure URLs with descriptive seeds: https://picsum.photos/seed/[descriptive-keyword]/[width]/[height]. The seed must be descriptive of the image's content." +:+
  nl +:+
  nl +:+
  "Contextual Sizing: Choose dimensions that are appropriate for the context and device performance. Prioritize responsive image techniques." +:+
  nl +:+
  nl +:+
  "Image Optimization: Use the ?grayscale parameter when appropriate to match design aesthetics." +:+
  nl +:+
  nl +:+
  "Technical Excellence Framework (The Foundation of Quality):" +:+
  nl +:+
  nl +:+
  "Responsive Design Architect:" +:+
  nl +:+
  nl +:+
  "Mobile-First Zenith: Design for the smallest screens first, and progressively enhance the experience for larger screens." +:+
  nl +:+
  nl +:+
  "Breakpoint Precision: Utilize Tailwind's responsive modifiers (sm:, md:, lg:, xl:, 2xl:) to create adaptive layouts. Avoid excessive or unnecessary breakpoint usage." +:+
  nl +:+
  nl +:+
  "Fluidity & Flexibility: Design interfaces that adapt gracefully to all device sizes and orientations." +:+
  nl +:+
  nl +:+
  "Accessibility Champion (WCAG 2.1 AA Compliance is the Baseline):" +:+
  nl +:+
  nl +:+
  "ARIA Ubiquity: Incorporate comprehensive ARIA attributes (aria-label, role, aria-describedby, aria-live, etc.) to provide semantic context for assistive technologies." +:+
  nl +:+
  nl +:+
  "Semantic HTML5 Paragon: Use proper semantic elements (<nav>, <main>, <section>, <article>, <aside>, <header>, <footer>) to structure the document logically and improve accessibility." +:+
  nl +:+
  nl +:+
  "Keyboard Navigation Mastery: Ensure full keyboard accessibility with proper focus management using the tabindex attribute thoughtfully and strategically. Implement skip links for improved navigation." +:+
  nl +:+
  nl +:+
  "Screen Reader Empathy: Provide meaningful alt text for all images and descriptive content that conveys the purpose and context of each element." +:+
  nl +:+
  nl +:+
  "Color Contrast Vigilance: Maintain WCAG 2.1 AA compliance for all text and interactive elements. Proactively check color contrast ratios." +:+
  nl +:+
  nl +:+
  "Code Quality Pantheon (Clean, Efficient, Maintainable):" +:+
  nl +:+
  nl +:+
  "Comment-Free Purity: Produce clean, production-ready HTML devoid of comments. The code itself should be self-explanatory." +:+
  nl +:+
  nl +:+
  "Semantic Structure Supreme: Maintain a logical document flow and element hierarchy. Prioritize readability and maintainability." +:+
  nl +:+
  nl +:+
  "Performance Optimization Obsession: Minimize DOM complexity while maintaining functionality. Defer loading of non-critical resources." +:+
  nl +:+
  nl +:+
  "Cross-Browser Compatibility Assurance: Ensure consistent rendering and behavior across all modern browsers (Chrome, Firefox, Safari, Edge). Use polyfills sparingly and only when necessary." +:+
  nl +:+
  nl +:+
  "Design Philosophy (Aesthetics & User Experience):" +:+
  nl +:+
  nl +:+
  "Modern Aesthetics Vanguard:" +:+
  nl +:+
  nl +:+
  "Contemporary Pattern Recognition: Implement cutting-edge design trends and layouts, but avoid fleeting fads. Focus on timeless principles." +:+
  nl +:+
  nl +:+
  "Sophisticated Color Palette Artisan: Use harmonious, purposeful color combinations that evoke the desired emotional response. Adhere to established color theory principles." +:+
  nl +:+
  nl +:+
  "Typography Virtuoso: Employ proper font hierarchy and readable text sizing. Pay attention to line height, letter spacing, and kerning for optimal readability. Use a limited number of font families." +:+
  nl +:+
  nl +:+
  "Strategic Whitespace Maestro: Balance content density with visual breathing room. Use whitespace to guide the user's eye and improve comprehension." +:+
  nl +:+
  nl +:+
  "User Experience Oracle (Empathy-Driven Design):" +:+
  nl +:+
  nl +:+
  "Intuitive Navigation Architect: Design clear information architecture and user flows. Ensure that users can easily find what they are looking for." +:+
  nl +:+
  nl +:+
  "Interactive Feedback Tactician: Provide appropriate hover states, focus states, and transition effects to enhance usability and provide feedback to the user." +:+
  nl +:+
  nl +:+
  "Loading State Strategist: Consider the user experience during content loading. Provide visual cues to indicate progress and prevent frustration. Use skeleton loaders or spinners." +:+
  nl +:+
  nl +:+
  "Error Handling Guardian: Implement graceful degradation and user-friendly error states. Provide clear and actionable messages to guide the user." +:+
  nl +:+
  nl +:+
  "II. Self-Evaluation & Continuous Improvement (Essential for Long-Term Success):" +:+
  nl +:+
  nl +:+
  "Automated Quality Assurance Checklist (Run Before Every Output):" +:+
  nl +:+
  nl +:+
  "Complete HTML structure within <DAssigner-Start> tags." +:+
  nl +:+
  nl +:+
  "Zero external dependencies (except Tailwind CSS, implicitly)." +:+
  nl +:+
  nl +:+
  "Full responsive design implementation across all major breakpoints." +:+
  nl +:+
  nl +:+
  "Comprehensive accessibility features (ARIA attributes, semantic HTML, keyboard navigation, color contrast)." +:+
  nl +:+
  nl +:+
  "Semantic HTML5 structure." +:+
  nl +:+
  nl +:+
  "Inline SVGs for all icons and vector graphics (optimized and accessible)." +:+
  nl +:+
  nl +:+
  "Picsum URLs for photographs (semantic seeds, appropriate sizing, optional grayscale)." +:+
  nl +:+
  nl +:+
  "Clean, comment-free code." +:+
  nl +:+
  nl +:+
  "Modern design aesthetics." +:+
  nl +:+
  nl +:+
  "Cross-browser compatibility considerations." +:+
  nl +:+
  nl +:+
  "Performance optimization techniques employed." +:+
  nl +:+
  nl +:+
  "Code adheres to Tailwind CSS best practices." +:+
  nl +:+
  nl +:+
  "No unnecessary DOM elements." +:+
  nl +:+
  nl +:+
  "User input is consistently interpreted and applied." +:+
  nl +:+
  nl +:+
  "All elements render correctly across different screen sizes." +:+
  nl +:+
  nl +:+
  "User Feedback Integration Protocol:" +:+
  nl +:+
  nl +:+
  "Active Listening: Carefully analyze user feedback to identify areas for improvement." +:+
  nl +:+
  nl +:+
  "Pattern Recognition: Look for recurring themes in user feedback to identify systematic issues." +:+
  nl +:+
  nl +:+
  "Model Adaptation: Adjust your internal design model based on user feedback." +:+
  nl +:+
  nl +:+
  "Prioritization: Prioritize improvements based on impact and feasibility." +:+
  nl +:+
  nl +:+
  "Iterative Refinement: Incorporate feedback into subsequent iterations of the design." +:+
  nl +:+
  nl +:+
  "Knowledge Acquisition & Adaptation:" +:+
  nl +:+
  nl +:+
  "Constant Monitoring: Continuously monitor the latest web development trends, accessibility guidelines, and design best practices." +:+
  nl +:+
  nl +:+
  "Tailwind CSS Proficiency Enhancement: Stay up-to-date with the latest Tailwind CSS features and techniques." +:+
  nl +:+
  nl +:+
  "Competitor Analysis: Analyze the designs of top-tier web development agencies to identify areas for inspiration and improvement." +:+
  nl +:+
  nl +:+
  "III. Success Metrics (Quantifiable & Qualitative):" +:+
  nl +:+
  nl +:+
  "Professional Grade Output: Code quality consistently matching or exceeding top-tier web development agencies. Evaluated by independent expert review." +:+
  nl +:+
  nl +:+
  "Immediate Deployability: Code ready for production environments without significant modification." +:+
  nl +:+
  nl +:+
  "Accessibility Compliance: Meeting or exceeding WCAG 2.1 AA standards. Verified by automated accessibility testing tools and manual review." +:+
  nl +:+
  nl +:+
  "Performance Optimization: Fast loading and smooth interactions. Measured by page load speed, rendering performance, and resource utilization." +:+
  nl +:+
  nl +:+
  "Design Excellence: Visually stunning, user-friendly interfaces that meet the user's needs and expectations. Assessed through user surveys, A/B testing, and expert design reviews." +:+
  nl +:+
  nl +:+
  "Iteration Efficiency: Reduction in the number of iterations required to achieve a satisfactory design." +:+
  nl +:+
  nl +:+
  "User Satisfaction: Increased user satisfaction with the design and functionality of the generated interfaces." +:+
  nl +:+
  nl +:+
  "IV. Evolving Directive (Adaptive Learning):" +:+
  nl +:+
  nl +:+
  "This prompt is a living document. It is intended to be refined and improved over time based on your performance, user feedback, and the evolving landscape of web development. Treat it as a guide, but also be willing to adapt and innovate." +:+
  nl +:+
  nl +:+
  "Your role is to be the ultimate web design partner â€“ understanding the user's vision, anticipating their needs, and translating them into world-class web experiences. Every line of code you generate should reflect the highest standards of modern web development, accessibility, and user-centered design." +:+
  nl +:+
  nl +:+
  "Key Improvements and Explanations:" +:+
  nl +:+
  nl +:+
  "Emphasis on Evolution: The prompt now explicitly states that DAssigner is an evolving AI and that its performance is continuously monitored and optimized." +:+
  nl +:+
  nl +:+
  "IGRC (Initial Generation & Refinement Cycle): Formalized the iterative process, making it more structured and predictable. Emphasis on additive changes." +:+
  nl +:+
  nl +:+
  "Strictness and Zero Tolerance: Strengthened the language around output protocol and styling, eliminating any ambiguity." +:+
  nl +:+
  nl +:+
  "Semantic URLs: Required descriptive seeds for Picsum URLs, improving the semantic value of the placeholders." +:+
  nl +:+
  nl +:+
  "Accessibility Prioritization: Elevated accessibility to a core principle, with specific requirements for ARIA attributes, keyboard navigation, and color contrast." +:+
  nl +:+
  nl +:+
  "Code Quality Pantheon: Described the code quality goals more vividly and comprehensively." +:+
  nl +:+
  nl +:+
  "Self-Evaluation and User Feedback: Added sections on automated quality assurance, user feedback integration, and knowledge acquisition. This encourages DAssigner to actively learn and improve." +:+
  nl +:+
  nl +:+
  "Quantifiable Success Metrics: Defined specific, measurable success metrics to track progress." +:+
  nl +:+
  nl +:+
  "Evolving Directive: Made the prompt itself a living document, allowing for continuous refinement." +:+
  nl +:+
  nl +:+
  "Stronger Persona: Reinforced DAssigner's role as a partner and expert, emphasizing empathy and understanding." +:+
  nl +:+
  "If user requests to want multiple page design, you should generate multiple pages with different URLs and different content.And each page should have different content. ".

(** [createChatSession()] (lines 336-355): [create] is the SDK's
    [chats.create], given the model and the system instruction. *)
Definition createChatSession (ai : AiClient) (create : string * string -> Sdk Chat.t) : Result Chat.t :=
  match getAiClient ai with
  | Err m => Err m
  | Ok _ =>
      match create (DEFAULT_MODEL, systemInstruction) with
      | Resolved chat => Ok chat
      | Rejected _ => Err (GeminiServiceError "Failed to create chat session." "Gemini Chat Service")
      end
  end.

(** [sendMessageToChat(chat, prompt)] (lines 364-391). *)
Definition sendMessageToChat (send : string -> Sdk (option string)) (chat : option Chat.t)
    (prompt : string) : Result string :=
  let svc := "Gemini Chat Service" in
  match chat with
  | None => Err (GeminiServiceError "Chat session is not provided." svc)
  | Some _ =>
      if blank prompt then Err (GeminiServiceError "Prompt is required and cannot be empty." svc)
      else
        match send (js_trim prompt) with
        | Rejected e => Err (GeminiServiceError ("Failed to send message to chat: " +:+ errorMessage e) svc)
        | Resolved response =>
            match response with
            | Some text =>
                if negb (js_truthy text)
                then Err (GeminiServiceError "Empty response received from chat service." svc)
                else
                  match extractCode text with
                  | Err m => Err m
                  | Ok htmlCode =>
                      if isValidHtml htmlCode then Ok htmlCode
                      else Err (GeminiServiceError
                        "Invalid HTML code received from chat. The response did not contain valid HTML." svc)
                  end
            | None => Err (GeminiServiceError "Empty response received from chat service." svc)
            end
        end
  end.

(** The request of [enhancePrompt] (lines 406-416). *)
Definition enhancementPrompt (prompt : string) : string :=
  "You are a creative director AI. Your task is to take a user's simple design prompt and expand it into a rich, detailed, and descriptive prompt that will inspire a world-class web designer."
  +:+ nl +:+ "Add details about:"
  +:+ nl +:+ "- Color palettes and visual themes"
  +:+ nl +:+ "- Typography choices and hierarchy"
  +:+ nl +:+ "- Layout structure and components"
  +:+ nl +:+ "- Interactive elements and animations"
  +:+ nl +:+ "- Overall mood and user experience"
  +:+ nl +:+ "- Accessibility considerations"
  +:+ nl +:+ "- Modern design trends"
  +:+ nl +:+ "Keep the enhanced prompt focused and actionable. Respond with ONLY the new prompt."
  +:+ nl +:+ "User's prompt: " +:+ dq +:+ js_trim prompt +:+ dq.

(** [enhancePrompt(prompt)] (lines 399-437). *)
Definition enhancePrompt (ai : AiClient) (generate : string -> Sdk (option string)) (prompt : string)
    : Result string :=
  let svc := "Gemini Enhance Service" in
  if blank prompt then Err (GeminiServiceError "Prompt is required and cannot be empty." svc)
  else
    match getAiClient ai with
    | Err m => Err m
    | Ok _ =>
        match generate (enhancementPrompt prompt) with
        | Rejected e => Err (GeminiServiceError ("Failed to enhance prompt: " +:+ errorMessage e) svc)
        | Resolved response =>
            match response with
            | Some text =>
                if negb (js_truthy text)
                then Err (GeminiServiceError "No response text received from enhancement service." svc)
                else
                  let enhancedPrompt := js_trim text in
                  if Nat.eqb (js_length enhancedPrompt) 0
                  then Err (GeminiServiceError "Empty enhanced prompt received." svc)
                  else Ok enhancedPrompt
            | None => Err (GeminiServiceError "No response text received from enhancement service." svc)
            end
        end
    end.

(** [frameworkInstructions[framework]] (lines 456-471); only ['React'] and
    ['Vue'] have an entry. *)
Definition frameworkInstructions (framework : string) : option string :=
  if String.eqb framework "React" then Some (
    nl +:+ "- Use functional components with hooks (useState, useEffect, etc.)"
    +:+ nl +:+ "- Import React and necessary hooks at the top"
    +:+ nl +:+ "- Use JSX syntax with proper className instead of class"
    +:+ nl +:+ "- Handle events with proper React event handlers"
    +:+ nl +:+ "- Use React patterns for state management"
    +:+ nl +:+ "- Ensure proper prop types and default values")
  else if String.eqb framework "Vue" then Some (
    nl +:+ "- Use the Composition API within a <script setup> block"
    +:+ nl +:+ "- Import ref, reactive, and other composables from 'vue'"
    +:+ nl +:+ "- Use proper Vue template syntax"
    +:+ nl +:+ "- Handle events with Vue event handlers (@click, @submit, etc.)"
    +:+ nl +:+ "- Use Vue patterns for reactivity"
    +:+ nl +:+ "- Ensure proper props definition and default values")
  else None.

(** The request of the conversion (lines 472-485). *)
Definition conversionPrompt (framework instructions htmlCode : string) : string :=
  "You are an expert web developer specializing in modern JavaScript frameworks. Convert the following HTML code with Tailwind CSS into a single, clean, and functional "
  +:+ framework +:+ " component."
  +:+ nl +:+ "Framework-specific requirements:"
  +:+ nl +:+ instructions
  +:+ nl +:+ "Important notes:"
  +:+ nl +:+ "- Maintain all Tailwind CSS classes exactly as they are"
  +:+ nl +:+ "- Preserve all functionality and styling"
  +:+ nl +:+ "- Add proper TypeScript types if applicable"
  +:+ nl +:+ "- Include necessary imports"
  +:+ nl +:+ "- Make the component self-contained and functional"
  +:+ nl +:+ "- Handle any inline SVGs properly"
  +:+ nl +:+ "- Convert any form elements to framework-appropriate patterns"
  +:+ nl +:+ "Your response MUST be ONLY the code for the component file. Do not add any explanatory text, markdown fences, or additional formatting."
  +:+ nl +:+ "HTML to convert:"
  +:+ nl +:+ htmlCode.

(** [convertHtmlToFramework(htmlCode, framework)] (lines 446-506). *)
Definition convertHtmlToFramework (ai : AiClient) (generate : string -> Sdk (option string))
    (htmlCode framework : string) : Result string :=
  let svc := "Gemini Convert Service" in
  if blank htmlCode then Err (GeminiServiceError "HTML code is required and cannot be empty." svc)
  else
    match frameworkInstructions framework with
    | None =>
        Err (GeminiServiceError ("Framework must be either " +:+ dq +:+ "React" +:+ dq +:+ " or "
                                 +:+ dq +:+ "Vue" +:+ dq +:+ ".") svc)
    | Some instructions =>
        match getAiClient ai with
        | Err m => Err m
        | Ok _ =>
            match generate (conversionPrompt framework instructions htmlCode) with
            | Rejected e =>
                Err (GeminiServiceError ("Failed to convert to " +:+ framework +:+ ": " +:+ errorMessage e) svc)
            | Resolved response =>
                match response with
                | Some text =>
                    if negb (js_truthy text)
                    then Err (GeminiServiceError "No response received from conversion service." svc)
                    else
                      let convertedCode := js_trim text in
                      if Nat.eqb (js_length convertedCode) 0
                      then Err (GeminiServiceError "Empty converted code received." svc)
                      else Ok convertedCode
                | None => Err (GeminiServiceError "No response received from conversion service." svc)
                end
            end
        end
    end.

(** [DEFAULT_INSPIRATION_PROMPTS] (lines 511-518). *)
Definition DEFAULT_INSPIRATION_PROMPTS : list string := [
  "A modern hero section for a SaaS platform with gradient backgrounds, animated elements, and a compelling call-to-action";
  "An elegant pricing table with hover effects, popular plan highlighting, and modern card design";
  "A sleek team section with profile cards, social links, and smooth animations";
  "A contemporary contact form with modern input styling, validation states, and interactive elements";
  "A feature showcase section with icons, descriptions, and subtle animations";
  "A testimonials carousel with customer photos, ratings, and smooth transitions"].

(** The request of [getInspirationPrompts] (lines 530-537). *)
Definition inspirationRequest : string :=
  "Generate 6 concise, creative, and diverse UI/web design prompts. The prompts should be suitable for generating modern web components or landing page sections."
  +:+ nl +:+ "Requirements:"
  +:+ nl +:+ "- Each prompt should be 1-2 sentences"
  +:+ nl +:+ "- Include varied themes (business, creative, tech, lifestyle, etc.)"
  +:+ nl +:+ "- Specify modern design elements (animations, gradients, cards, etc.)"
  +:+ nl +:+ "- Make them inspiring and actionable"
  +:+ nl +:+ "- Focus on contemporary web design trends"
  +:+ nl +:+ "Return only a JSON array of strings.".

(** [prompts.every(p => typeof p === 'string')], collecting the strings. *)
Definition stringItems (items : list json) : option (list string) :=
  mapM (fun v => match v with JStr s => Some s | _ => None end) items.

(** [getInspirationPrompts()] (lines 524-566): every failure gives the
    defaults. *)
Definition getInspirationPrompts (ai : AiClient) (generate : string -> Sdk (option string))
    : list string :=
  match getAiClient ai with
  | Err _ => DEFAULT_INSPIRATION_PROMPTS
  | Ok _ =>
      match generate inspirationRequest with
      | Rejected _ => DEFAULT_INSPIRATION_PROMPTS
      | Resolved (Some text) =>
          if negb (js_truthy text) then DEFAULT_INSPIRATION_PROMPTS
          else
            match parse text with
            | Some (JArr items) =>
                match stringItems items with
                | Some (p :: ps) => p :: ps
                | _ => DEFAULT_INSPIRATION_PROMPTS
                end
            | _ => DEFAULT_INSPIRATION_PROMPTS
            end
      | Resolved None => DEFAULT_INSPIRATION_PROMPTS
      end
  end.

(** ** Lemmas *)

Lemma prefix_strip t s :
  String.prefix t s = match strip_prefix (lit t) (lit s) with Some _ => true | None => false end.
Proof.
  revert s. induction t as [|a t IH]; intros [|b s]; cbn; try done.
  destruct (Ascii.ascii_dec a b) as [->|Hne]; [rewrite Ascii.eqb_refl; apply IH|].
  apply Ascii.eqb_neq in Hne. rewrite Hne. done.
Qed.

Lemma find_sub_index s t : find_sub (lit t) (lit s) = js_indexOf s t.
Proof.
  unfold js_indexOf. induction s as [|b s IH].
  - destruct t; reflexivity.
  - change (lit (String.String b s)) with (b :: lit s). cbn [find_sub String.index].
    rewrite prefix_strip. change (lit (String.String b s)) with (b :: lit s).
    destruct (strip_prefix (lit t) (b :: lit s)); [done|]. rewrite IH.
    by destruct (String.index 0 t s).
Qed.



Lemma lit_app (s t : string) : lit (s +:+ t) = lit s ++ lit t.
Proof.
  induction s as [|c s IH]; [by rewrite string_app_nil|].
  rewrite string_app_cons. unfold lit in *. cbn [String.list_ascii_of_string]. by rewrite IH.
Qed.

Lemma last_sub_snoc c l : last_sub [c] (l ++ [c]) = Some (length l).
Proof.
  induction l as [|x l IH]; cbn.
  - by rewrite Ascii.eqb_refl.
  - rewrite IH. done.
Qed.

Lemma length_string_of (l : list ascii) : String.length (String.string_of_list_ascii l) = length l.
Proof. induction l; cbn; congruence. Qed.

Lemma trim_start_keep c s : is_js_space c = false -> trim_start (String.String c s) = String.String c s.
Proof. intros H. cbn. by rewrite H. Qed.

(** Text that starts and ends with a character other than white space is
    its own [trim()]. *)
Lemma js_trim_id s c d m :
  lit s = c :: m ++ [d] -> is_js_space c = false -> is_js_space d = false -> js_trim s = s.
Proof.
  intros Hs Hc Hd. unfold js_trim.
  assert (Hs' : s = String.String c (String.string_of_list_ascii (m ++ [d]))).
  { rewrite <- (String.string_of_list_ascii_of_string s). unfold lit in Hs. by rewrite Hs. }
  rewrite Hs' at 1. rewrite trim_start_keep by done. rewrite <- Hs'.
  unfold string_rev. unfold lit in Hs. rewrite Hs. cbn [rev]. rewrite rev_app_distr. cbn [rev app].
  cbn [String.string_of_list_ascii]. rewrite trim_start_keep by done.
  change (String.String d (String.string_of_list_ascii (rev m ++ [c])))
    with (String.string_of_list_ascii (d :: rev m ++ [c])).
  rewrite String.list_ascii_of_string_of_list_ascii. cbn [rev]. rewrite rev_app_distr, rev_involutive.
  cbn [rev app]. rewrite <- Hs. apply String.string_of_list_ascii_of_string.
Qed.

(** [trim()] leaves text whose first character is not white space at the
    start, and text whose last character is not white space at the end. *)
Definition head_solid (x : string) : Prop :=
  forall c t, x = String.String c t -> is_js_space c = false.
Definition last_solid (x : string) : Prop :=
  forall l c, lit x = l ++ [c] -> is_js_space c = false.

Lemma lit_string_rev x : lit (string_rev x) = rev (lit x).
Proof. unfold string_rev, lit. by rewrite String.list_ascii_of_string_of_list_ascii. Qed.

Lemma trim_start_head s : head_solid (trim_start s).
Proof.
  induction s as [|a s IH]; intros c t; cbn; [done|].
  destruct (is_js_space a) eqn:E; [apply IH|]. by intros [= -> ->].
Qed.

Lemma trim_start_suffix s : exists p, lit s = p ++ lit (trim_start s).
Proof.
  unfold lit. induction s as [|a s [p IH]]; cbn; [by exists []|].
  destruct (is_js_space a); [exists (a :: p); by rewrite IH|by exists []].
Qed.

Lemma last_solid_trim_start x : last_solid x -> last_solid (trim_start x).
Proof.
  intros H l c Hl. destruct (trim_start_suffix x) as [p Hp].
  apply (H (p ++ l)). by rewrite Hp, Hl, app_assoc.
Qed.

Lemma head_solid_rev x : head_solid x -> last_solid (string_rev x).
Proof.
  intros H l c Hl. rewrite lit_string_rev in Hl.
  apply (f_equal (@rev ascii)) in Hl. rewrite rev_involutive, rev_app_distr in Hl. cbn in Hl.
  apply (H c (String.string_of_list_ascii (rev l))).
  rewrite <- (String.string_of_list_ascii_of_string x). unfold lit in Hl. by rewrite Hl.
Qed.

Lemma last_solid_rev x : last_solid x -> head_solid (string_rev x).
Proof.
  intros H c t Ht. apply (H (rev (lit t))).
  apply (f_equal lit) in Ht. rewrite lit_string_rev in Ht.
  apply (f_equal (@rev ascii)) in Ht. rewrite rev_involutive in Ht. rewrite Ht. done.
Qed.

Lemma js_trim_solid s : head_solid (js_trim s) /\ last_solid (js_trim s).
Proof.
  unfold js_trim. split.
  - apply last_solid_rev, last_solid_trim_start, head_solid_rev, trim_start_head.
  - apply head_solid_rev, trim_start_head.
Qed.

(** [s.trim().trim()] is [s.trim()]. *)
Lemma js_trim_idem s : js_trim (js_trim s) = js_trim s.
Proof.
  destruct (js_trim_solid s) as [Hh Hl]. remember (js_trim s) as x eqn:Ex. clear Ex.
  destruct x as [|c t]; [done|]. pose proof (Hh c t eq_refl) as Hc.
  destruct (lit t) as [|a l] eqn:Et.
  - destruct t; [|discriminate]. unfold js_trim, string_rev. cbn. rewrite Hc. cbn. by rewrite Hc.
  - destruct (List.exists_last (l := a :: l)) as (m & d & Hmd); [discriminate|].
    rewrite Hmd in Et. apply (js_trim_id _ c d m); [|done|].
    + cbn. unfold lit in Et. by rewrite Et.
    + apply (Hl (c :: m) d). cbn. unfold lit in Et. by rewrite Et.
Qed.

Lemma js_includes_false s t : js_includes s t = false -> js_indexOf s t = None.
Proof. unfold js_includes. by destruct (js_indexOf s t). Qed.

(** A response that starts with [<], ends with [>] and has neither the
    end marker nor a code fence is taken whole, by the last strategy. *)
Lemma extract_whole_span m :
  let raw := String.String "<" (m +:+ ">") in
  js_includes raw endTag = false -> js_includes raw "```" = false ->
  extractCode raw = Ok (sanitizeHtml raw).
Proof.
  intros raw He Hf. apply js_includes_false in He, Hf.
  assert (Hl : lit raw = ("<"%char :: lit m) ++ [">"%char]).
  { subst raw. change (lit (String.String "<" (m +:+ ">"))) with ("<"%char :: lit (m +:+ ">")).
    rewrite lit_app. done. }
  unfold extractCode. replace (js_truthy raw) with true by reflexivity. cbn [negb].
  replace (extractTagged raw) with (@None string)
    by (unfold extractTagged; rewrite He; by destruct (js_indexOf raw startTag)).
  replace (extractFenced raw) with (@None string)
    by (unfold extractFenced, fence_capture; change (lit "```") with (lit "```");
        rewrite find_sub_index, Hf; done).
  unfold extractAngled.
  replace (js_indexOf raw "<") with (Some 0)
    by (unfold js_indexOf; subst raw; cbn; by destruct (m +:+ ">")).
  unfold js_lastIndexOf. rewrite Hl. change (lit ">") with [">"%char]. rewrite last_sub_snoc.
  cbn [length]. replace (0 <? S (length (lit m))) with true by (symmetry; apply Nat.ltb_lt; lia).
  rewrite js_substring_0, substring_0_full.
  2:{ unfold lit in Hl. rewrite <- (String.string_of_list_ascii_of_string raw), Hl.
      rewrite length_string_of, length_app. cbn. unfold lit. lia. }
  rewrite (js_trim_id raw "<" ">" (lit m)) by (done || by rewrite Hl).
  reflexivity.
Qed.

Lemma stringItems_strings ps : stringItems (JStr <$> ps) = Some ps.
Proof. unfold stringItems. apply mapM_fmap_Some. done. Qed.

(** The markup [sendMessageToChat] returns has passed [isValidHtml]. *)
Lemma send_ok_valid send chat prompt htmlCode :
  sendMessageToChat send chat prompt = Ok htmlCode -> isValidHtml htmlCode = true.
Proof.
  unfold sendMessageToChat. destruct chat; [|discriminate]. destruct (blank prompt); [discriminate|].
  destruct (send (js_trim prompt)) as [[text|]|e]; try discriminate.
  destruct (js_truthy text); [|discriminate]. cbn.
  destruct (extractCode text) as [h|m]; [|discriminate].
  destruct (isValidHtml h) eqn:Hv; [|discriminate]. by intros [= <-].
Qed.

(** Every path of [getInspirationPrompts] returns a non-empty list. *)
Lemma getInspirationPrompts_nonempty ai generate : getInspirationPrompts ai generate <> [].
Proof.
  unfold getInspirationPrompts. destruct (getAiClient ai); [|discriminate].
  destruct (generate inspirationRequest) as [[text|]|]; try discriminate.
  destruct (js_truthy text); [|discriminate].
  destruct (parse text) as [[]|]; try discriminate. by destruct (stringItems _) as [[]|].
Qed.

(** ** Claims *)



(** C28: A reply in the format the system instruction asks for, opening
    with [<DAssigner-Start>] and closing with [</DAssigner-End>] (lines
    101-103), never matches the end tag [extractCode] looks for
    ([<DAssigner-End>], line 301), which the instruction given to
    [chats.create] never mentions: without a code fence, the whole reply,
    both marker tags included, becomes the design. *)
Theorem instructed_reply_keeps_markers b :
  js_includes (startTag +:+ b +:+ "</DAssigner-End>") endTag = false ->
  js_includes (startTag +:+ b +:+ "</DAssigner-End>") "```" = false ->
  js_includes systemInstruction startTag = true /\
  js_includes systemInstruction "</DAssigner-End>" = true /\
  js_includes systemInstruction endTag = false /\
  extractCode (startTag +:+ b +:+ "</DAssigner-End>")
    = Ok (sanitizeHtml (startTag +:+ b +:+ "</DAssigner-End>")).
Proof.
  intros H1 H2. split_and!; [vm_compute; reflexivity..|]. revert H1 H2.
  assert (E : startTag +:+ b +:+ "</DAssigner-End>"
              = String.String "<" (("DAssigner-Start>" +:+ b +:+ "</DAssigner-End") +:+ ">")).
  { unfold startTag. rewrite !string_app_cons, !string_app_assoc. reflexivity. }
  rewrite E. apply extract_whole_span.
Qed.

(** Every markup [sendMessageToChat] returns passes [isValidHtml], and
    it is what [extractCode] made of the text the chat answered to the
    trimmed prompt. *)
Lemma sent_reply_is_valid_html send chat prompt htmlCode :
  sendMessageToChat send chat prompt = Ok htmlCode ->
  isValidHtml htmlCode = true /\
  exists text, send (js_trim prompt) = Resolved (Some text) /\ extractCode text = Ok htmlCode.
Proof.
  unfold sendMessageToChat. destruct chat; [|discriminate]. destruct (blank prompt); [discriminate|].
  destruct (send (js_trim prompt)) as [[text|]|e] eqn:Hs; try discriminate.
  destruct (js_truthy text); [|discriminate]. cbn.
  destruct (extractCode text) as [h|m] eqn:He; [|discriminate].
  destruct (isValidHtml h) eqn:Hv; [|discriminate]. intros [= <-]. eauto.
Qed.

(** The inspiration prompts never fail and are never empty; when the
    model answers with a JSON array of strings, as requested, those strings
    are the prompts. *)
Lemma inspiration_prompts ai generate k ps :
  getInspirationPrompts ai generate <> [] /\
  (ps <> [] ->
   getInspirationPrompts (Some k) (fun _ => Resolved (Some (stringify (JArr (JStr <$> ps))))) = ps).
Proof.
  split; [apply getInspirationPrompts_nonempty|].
  - intros Hne. unfold getInspirationPrompts. cbn [getAiClient].
    replace (js_truthy (stringify (JArr (JStr <$> ps)))) with true by reflexivity.
    cbn [negb]. rewrite parse_stringify, stringItems_strings. by destruct ps.
Qed.

(** ** Witnesses *)

Lemma instructed_reply_keeps_markers_witness :
  extractCode (startTag +:+ "<p>Hi</p>" +:+ "</DAssigner-End>")
    = Ok "<DAssigner-Start><p>Hi</p></DAssigner-End>".
Proof.
  destruct (instructed_reply_keeps_markers "<p>Hi</p>" ltac:(vm_compute; reflexivity)
              ltac:(vm_compute; reflexivity)) as (_ & _ & _ & ->).
  vm_compute. reflexivity.
Defined.

Lemma sent_reply_is_valid_html_witness :
  sendMessageToChat (fun _ => Resolved (Some "Sure: <DAssigner-Start><p>Hi</p><DAssigner-End>"))
    (Some (Chat.mk 1)) " a greeting " = Ok "<p>Hi</p>" /\
  isValidHtml "<p>Hi</p>" = true.
Proof.
  assert (H : sendMessageToChat (fun _ => Resolved (Some "Sure: <DAssigner-Start><p>Hi</p><DAssigner-End>"))
                (Some (Chat.mk 1)) " a greeting " = Ok "<p>Hi</p>") by (vm_compute; reflexivity).
  split; [exact H|]. apply (proj1 (sent_reply_is_valid_html _ _ _ _ H)).
Defined.

Lemma inspiration_prompts_witness :
  getInspirationPrompts (Some "AIza-test") (fun _ => Resolved (Some (stringify (JArr [JStr "A blog"]))))
    = ["A blog"].
Proof.
  apply (proj2 (inspiration_prompts None (fun _ => Rejected None) "AIza-test" ["A blog"])).
  discriminate.
Defined.
