(* ===== verification/Preview.v ===== *)
(** The preview of [src/components/VisualPreview.tsx]: the document the
    sandboxed iframe loads ([iframeSrcDoc], lines 67-101), the exported
    document of [handleExportHtml] (lines 227-250), and the component's
    state ([PreviewState.t], lines 61-65) with its message listener, key
    listener, fullscreen toggle and the copy and download buttons
    ([previewStep]), the container [generateCanvas] puts into the
    application's document ([generateCanvasContainer]) and the body-scroll
    effect ([bodyOverflow]).  [html2canvas] and the clipboard are calls
    whose outcome is an event of the step.  The fragment the component
    returns (lines 284-425) is the virtual DOM tree [renderPreview], whose
    click handlers are the step's events: every control is disabled
    exactly when the step refuses its click, and every iframe is
    sandboxed with [allow-scripts] only, a second one being mounted while
    fullscreen. *)

From S2P Require Import Prelude Json Service Dom Icons.
From Stdlib Require Import Ascii.

(** The document the preview iframe loads (lines 67-101), around the
    design's markup. *)
Definition iframeSrcDocHead : string :=
  nl +:+
  "    <html>" +:+ nl +:+
  "      <head>" +:+ nl +:+
  "        <script src=" +:+ dq +:+ "https://cdn.tailwindcss.com" +:+ dq +:+ "></script>" +:+ nl +:+
  "        <link rel=" +:+ dq +:+ "preconnect" +:+ dq +:+ " href=" +:+ dq +:+ "https://fonts.googleapis.com" +:+ dq +:+ ">" +:+ nl +:+
  "        <link rel=" +:+ dq +:+ "preconnect" +:+ dq +:+ " href=" +:+ dq +:+ "https://fonts.gstatic.com" +:+ dq +:+ " crossorigin>" +:+ nl +:+
  "        <link href=" +:+ dq +:+ "https://fonts.googleapis.com/css2?family=Poppins:wght@300;400;500;600;700&display=swap" +:+ dq +:+ " rel=" +:+ dq +:+ "stylesheet" +:+ dq +:+ ">" +:+ nl +:+
  "        <style> " +:+ nl +:+
  "          body { " +:+ nl +:+
  "            font-family: 'Poppins', sans-serif; " +:+ nl +:+
  "            margin: 0;" +:+ nl +:+
  "            padding: 0;" +:+ nl +:+
  "          } " +:+ nl +:+
  "        </style>" +:+ nl +:+
  "      </head>" +:+ nl +:+
  "      <body class=" +:+ dq +:+ "bg-white" +:+ dq +:+ ">" +:+ nl +:+
  "        ".

Definition iframeSrcDocTail : string :=
  nl +:+
  "        <script>" +:+ nl +:+
  "          document.addEventListener('click', function(e) {" +:+ nl +:+
  "            const target = e.target.closest('a, button, [role=" +:+ dq +:+ "button" +:+ dq +:+ "], input[type=" +:+ dq +:+ "submit" +:+ dq +:+ "]');" +:+ nl +:+
  "            if (target) {" +:+ nl +:+
  "              e.preventDefault();" +:+ nl +:+
  "            }" +:+ nl +:+
  "          }, true);" +:+ nl +:+
  "          " +:+ nl +:+
  "          // Signal when page is loaded" +:+ nl +:+
  "          window.addEventListener('load', function() {" +:+ nl +:+
  "            setTimeout(() => {" +:+ nl +:+
  "              parent.postMessage('iframe-loaded', '*');" +:+ nl +:+
  "            }, 100);" +:+ nl +:+
  "          });" +:+ nl +:+
  "        </script>" +:+ nl +:+
  "      </body>" +:+ nl +:+
  "    </html>" +:+ nl +:+
  "  ".

Definition iframeSrcDoc (htmlCode : string) : string :=
  iframeSrcDocHead +:+ htmlCode +:+ iframeSrcDocTail.

(** The exported document (lines 228-240), before [trim()]. *)
Definition exportHead : string :=
  "<!DOCTYPE html>" +:+ nl +:+
  "<html lang=" +:+ dq +:+ "en" +:+ dq +:+ ">" +:+ nl +:+
  "<head>" +:+ nl +:+
  "  <meta charset=" +:+ dq +:+ "UTF-8" +:+ dq +:+ ">" +:+ nl +:+
  "  <meta name=" +:+ dq +:+ "viewport" +:+ dq +:+ " content=" +:+ dq +:+ "width=device-width, initial-scale=1.0" +:+ dq +:+ ">" +:+ nl +:+
  "  <script src=" +:+ dq +:+ "https://cdn.tailwindcss.com" +:+ dq +:+ "></script>" +:+ nl +:+
  "  <title>DAssigner Ai Design</title>" +:+ nl +:+
  "  <!-- Generated with DAssigner AI -->" +:+ nl +:+
  "</head>" +:+ nl +:+
  "<body class=" +:+ dq +:+ "bg-white" +:+ dq +:+ ">" +:+ nl +:+
  "  ".

Definition exportTail : string :=
  nl +:+
  "</body>" +:+ nl +:+
  "</html>".

(** [handleExportHtml]: the text of the downloaded file,
    [fullHtml.trim()], and its name. *)
Definition exportDocument (htmlCode : string) : string :=
  js_trim (exportHead +:+ htmlCode +:+ exportTail).

Definition exportFileName : string := "dassigner-ai-design.html".

Module PreviewState.
Record t := mk {
  isCopying : bool;
  copySuccess : bool;
  isDownloading : bool;
  isFullscreen : bool;
  isLoading : bool
}.
End PreviewState.
Import PreviewState.

(** The [useState] initial values (lines 61-65). *)
Definition mountPreview : PreviewState.t := PreviewState.mk false false false false true.

Inductive PreviewEvent :=
| Message (data : string)          (** a [message] event on the window, lines 105-109 *)
| EscapeKey                        (** lines 117-121 *)
| ToggleFullscreen                 (** [toggleFullscreen], lines 252-254 *)
| CopyClick                        (** [handleCopyImage] up to its [await], lines 187-191 *)
| CopyCanvas (ok : bool)           (** [generateCanvas()] settles: [toBlob] is called, then [finally] *)
| ClipboardWritten (ok : bool)     (** the [toBlob] callback's clipboard write settles, lines 194-201 *)
| CopySuccessTimeout               (** [setTimeout(() => setCopySuccess(false), 2500)] *)
| DownloadClick                    (** [handleDownloadImage] up to its [await], lines 211-214 *)
| DownloadCanvas                   (** [generateCanvas()] settles, either way, lines 215-224 *)
| ExportClick                      (** [handleExportHtml], lines 227-250: no state changes *)
| NewHtmlCode (htmlCode : string). (** the [htmlCode] prop changes: the iframe reloads *)

(** One event; [None] when the control is disabled.  The buttons are
    disabled as in lines 316 and 328. *)
Definition previewStep (v : PreviewState.t) (ev : PreviewEvent) : option PreviewState.t :=
  let '(PreviewState.mk copying success downloading fullscreen loading) := v in
  match ev with
  | Message data =>
      Some (PreviewState.mk copying success downloading fullscreen
              (if String.eqb data "iframe-loaded" then false else loading))
  | EscapeKey =>
      Some (PreviewState.mk copying success downloading (if fullscreen then false else fullscreen) loading)
  | ToggleFullscreen => Some (PreviewState.mk copying success downloading (negb fullscreen) loading)
  | CopyClick =>
      if copying || success then None else Some (PreviewState.mk true false downloading fullscreen loading)
  | CopyCanvas _ => Some (PreviewState.mk false success downloading fullscreen loading)
  | ClipboardWritten ok => Some (PreviewState.mk copying (if ok then true else success) downloading fullscreen loading)
  | CopySuccessTimeout => Some (PreviewState.mk copying false downloading fullscreen loading)
  | DownloadClick => if downloading then None else Some (PreviewState.mk copying success true fullscreen loading)
  | DownloadCanvas => Some (PreviewState.mk copying success false fullscreen loading)
  | ExportClick => Some v
  | NewHtmlCode _ => Some v
  end.

#[export] Instance PreviewEvent_eq_dec : EqDecision PreviewEvent.
Proof. solve_decision. Defined.

Fixpoint previewRun (v : PreviewState.t) (evs : list PreviewEvent) : option PreviewState.t :=
  match evs with
  | [] => Some v
  | ev :: evs' => v' ← previewStep v ev; previewRun v' evs'
  end.

(** [generateCanvas] (lines 140-185), up to [html2canvas]: an off-screen
    container appended to the application's own document, outside the
    iframe's sandbox, with the design's markup set through [innerHTML]
    (lines 141-154).  Markup inserted that way does not run [script]
    elements but does run event-handler attributes. *)
Record RenderContainer := mkContainer {
  containerId : string;
  containerWidth : string;
  containerHtml : string
}.

Definition generateCanvasContainer (htmlCode : string) : RenderContainer :=
  mkContainer "dassigner-render-container" "1280px" htmlCode.

(** The container an event appends to the document: the copy and download
    buttons, when enabled, call [generateCanvas] (lines 191 and 214). *)
Definition insertedIntoDocument (htmlCode : string) (v : PreviewState.t) (ev : PreviewEvent)
    : option RenderContainer :=
  match ev, previewStep v ev with
  | CopyClick, Some _ | DownloadClick, Some _ => Some (generateCanvasContainer htmlCode)
  | _, _ => None
  end.

(** The effect of lines 128-138: the page behind a fullscreen preview
    does not scroll. *)
Definition bodyOverflow (v : PreviewState.t) : string :=
  if PreviewState.isFullscreen v then "hidden" else "auto".

(** ** The rendered component

    [FullscreenIcon] and [ExitFullscreenIcon] (lines 11-41),
    [LoadingSpinner] (lines 44-46), [Tooltip] (lines 49-57),
    [ActionButton] (lines 255-282) and the returned fragment (lines
    284-425), with the handlers as the events of [previewStep]. *)
Definition outlineSvg (className : list string) (d : string) : Node PreviewEvent :=
  El "svg" (obj [("className", AClass className); ("fill", AStr "none");
                 ("stroke", AStr "currentColor"); ("viewBox", AStr "0 0 24 24")])
    [El "path" (obj [("strokeLinecap", AStr "round"); ("strokeLinejoin", AStr "round");
                     ("strokeWidth", ANum 2); ("d", AStr d)]) []].

Definition FullscreenIcon (className : list string) : Node PreviewEvent :=
  outlineSvg className "M4 8V4m0 0h4M4 4l5 5m11-5h-4m4 0v4m0-4l-5 5M4 16v4m0 0h4m-4 0l5-5m11 5l-5-5m5 5v-4m0 4h-4".

Definition ExitFullscreenIcon (className : list string) : Node PreviewEvent :=
  outlineSvg className "M9 9V4.5M9 9H4.5M9 9L3.5 3.5M15 9h4.5M15 9V4.5M15 9l5.5-5.5M9 15v4.5M9 15H4.5M9 15l-5.5 5.5M15 15h4.5M15 15v4.5m0-4.5l5.5 5.5".

Definition LoadingSpinner (className : list string) : Node PreviewEvent :=
  El "div" (obj [("className", AClass (classTokens "border-2 border-current border-t-transparent rounded-full animate-spin" ++ className))]) [].

Definition Tooltip (text : string) (children : list (Node PreviewEvent)) : Node PreviewEvent :=
  El "div" (obj [("className", cls "relative group")])
    (children ++
     [El "div" (obj [("className", cls "absolute bottom-full left-1/2 transform -translate-x-1/2 mb-2 px-2 py-1 text-xs text-white bg-gray-900 rounded opacity-0 group-hover:opacity-100 transition-opacity duration-200 pointer-events-none whitespace-nowrap z-50")])
        [Text text;
         El "div" (obj [("className", cls "absolute top-full left-1/2 transform -translate-x-1/2 w-0 h-0 border-l-4 border-r-4 border-t-4 border-transparent border-t-gray-900")]) []]]).

Inductive Variant := VDefault | VPrimary.

(** [ActionButton]; a call site without [disabled] or [variant] passes
    the defaults [false] and ['default']. *)
Definition ActionButton (onClick : PreviewEvent) (disabled : bool) (tooltip : string)
    (variant : Variant) (children : list (Node PreviewEvent)) : Node PreviewEvent :=
  Tooltip tooltip
    [El "button"
       (obj [("onClick", AHandler onClick); ("disabled", ABool disabled);
             ("className", AClass (classTokens "group p-3 rounded-full transition-all duration-200" ++
                (if disabled then classTokens "opacity-50 cursor-not-allowed"
                 else classTokens "hover:scale-105 active:scale-95") ++
                (match variant with
                 | VPrimary => classTokens "bg-blue-500 hover:bg-blue-600 text-white shadow-lg hover:shadow-xl"
                 | VDefault => classTokens "bg-white/90 hover:bg-white text-gray-700 shadow-md hover:shadow-lg" end) ++
                classTokens "backdrop-blur-sm border border-gray-200/50"))])
       children].

Definition iconClass (s : string) : Attrs PreviewEvent := obj [("className", cls s)].

Definition previewIframe (htmlCode title : string) : Node PreviewEvent :=
  El "iframe" (obj [("srcDoc", AStr (iframeSrcDoc htmlCode)); ("title", AStr title);
                    ("className", cls "w-full h-full border-0 bg-white"); ("sandbox", AStr "allow-scripts")]) [].

(** The buttons over the preview (lines 313-353). *)
Definition toolbarButtons (v : PreviewState.t) : list (Node PreviewEvent) :=
  [ActionButton CopyClick (isCopying v || copySuccess v) "Copy as PNG" VDefault
     [if copySuccess v then CheckIcon (iconClass "w-5 h-5 text-green-500 transition-transform group-hover:scale-110")
      else CopyIcon (iconClass "w-5 h-5 transition-transform group-hover:scale-110")];
   ActionButton DownloadClick (isDownloading v) "Download as PNG" VDefault
     [if isDownloading v then LoadingSpinner (classTokens "w-5 h-5")
      else ImageIcon (iconClass "w-5 h-5 transition-transform group-hover:scale-110")];
   ActionButton ExportClick false "Download HTML file" VDefault
     [DownloadIcon (iconClass "w-5 h-5 transition-transform group-hover:scale-110")];
   ActionButton ToggleFullscreen false "View fullscreen" VPrimary
     [FullscreenIcon (classTokens "w-5 h-5 transition-transform group-hover:scale-110")]].

(** The buttons of the fullscreen header (lines 372-409). *)
Definition fullscreenButtons (v : PreviewState.t) : list (Node PreviewEvent) :=
  [ActionButton CopyClick (isCopying v || copySuccess v) "Copy as PNG" VDefault
     [if copySuccess v then CheckIcon (iconClass "w-4 h-4 text-green-500") else CopyIcon (iconClass "w-4 h-4")];
   ActionButton DownloadClick (isDownloading v) "Download as PNG" VDefault
     [if isDownloading v then LoadingSpinner (classTokens "w-4 h-4") else ImageIcon (iconClass "w-4 h-4")];
   ActionButton ExportClick false "Download HTML file" VDefault [DownloadIcon (iconClass "w-4 h-4")];
   ActionButton ToggleFullscreen false "Exit fullscreen (Esc)" VPrimary [ExitFullscreenIcon (classTokens "w-4 h-4")]].

(** The fragment [VisualPreview] returns (lines 284-425). *)
Definition renderPreview (htmlCode previewWidth : string) (v : PreviewState.t) : list (Node PreviewEvent) :=
  [El "div" (obj [("className", cls "relative w-full h-full animate-fade-in flex justify-center items-start")])
     [El "div" (obj [("className", cls "bg-white dark:bg-slate-900/50 border border-slate-200 dark:border-cyan-400/10 rounded-lg overflow-hidden shadow-lg dark:shadow-2xl dark:shadow-black/50 transition-all duration-500 ease-in-out relative");
                     ("style", AStyle [("height", "calc(100vh - 12rem)"); ("width", previewWidth)])])
        ((if isLoading v then
            [El "div" (obj [("className", cls "absolute inset-0 bg-white/80 dark:bg-slate-900/80 backdrop-blur-sm flex items-center justify-center z-10")])
               [El "div" (obj [("className", cls "flex flex-col items-center gap-3")])
                  [LoadingSpinner (classTokens "w-8 h-8 text-blue-500");
                   El "p" (obj [("className", cls "text-sm text-gray-600 dark:text-gray-400")]) [Text "Loading preview..."]]]]
          else []) ++
         [previewIframe htmlCode "Live HTML Preview"]);
      El "div" (obj [("className", cls "absolute bottom-4 left-1/2 transform -translate-x-1/2 z-20")])
        [El "div" (obj [("className", cls "flex items-center gap-2 bg-gray-900/20 dark:bg-gray-800/40 backdrop-blur-xl p-2 rounded-2xl border border-white/20 shadow-2xl")])
           (toolbarButtons v)]]] ++
  (if isFullscreen v then
     [El "div" (obj [("className", cls "fixed inset-0 bg-black/95 backdrop-blur-sm z-50 flex flex-col")])
        [El "div" (obj [("className", cls "flex justify-between items-center p-4 bg-gradient-to-r from-gray-900/80 to-gray-800/80 backdrop-blur-xl border-b border-white/10")])
           [El "div" (obj [("className", cls "flex items-center gap-3")])
              [El "div" (obj [("className", cls "w-3 h-3 bg-red-500 rounded-full")]) [];
               El "div" (obj [("className", cls "w-3 h-3 bg-yellow-500 rounded-full")]) [];
               El "div" (obj [("className", cls "w-3 h-3 bg-green-500 rounded-full")]) [];
               El "span" (obj [("className", cls "text-white/80 text-sm font-medium ml-2")]) [Text "DAssigner AI Design - Fullscreen"]];
            El "div" (obj [("className", cls "flex items-center gap-2 mx-5 px-5 py-2")]) (fullscreenButtons v)];
         El "div" (obj [("className", cls "flex-1 p-4 overflow-hidden")])
           [El "div" (obj [("className", cls "w-full h-full bg-white rounded-lg shadow-2xl overflow-hidden")])
              [previewIframe htmlCode "Fullscreen HTML Preview"]]]]
   else []).

(** The checks the theorems below make of a rendered element: a control
    is disabled exactly when its handler's step is refused; an iframe
    loads the design in a sandbox that allows scripts only. *)
Definition guardAgrees (v : PreviewState.t) (n : Node PreviewEvent) : bool :=
  match attr "onClick" n with
  | Some (AHandler e) =>
      Bool.eqb (match attr "disabled" n with Some (ABool true) => true | _ => false end)
               (match previewStep v e with None => true | Some _ => false end)
  | _ => true
  end.

(** ** Lemmas *)

(** The exported file is the template with the design's markup verbatim
    in its body: [trim()] removes nothing, since the template starts with
    [<] and ends with [>]. *)
Lemma exportDocument_embeds htmlCode :
  exportDocument htmlCode = exportHead +:+ htmlCode +:+ exportTail.
Proof.
  unfold exportDocument.
  apply (js_trim_id _ "<"%char ">"%char (tl (lit exportHead) ++ lit htmlCode ++ removelast (lit exportTail)));
    [|reflexivity|reflexivity].
  rewrite !lit_app.
  change (lit exportHead) with ("<"%char :: tl (lit exportHead)).
  change (lit exportTail) with (removelast (lit exportTail) ++ [">"%char]).
  cbn [app]. by rewrite <- !app_assoc.
Qed.

(** The design is followed in the iframe's document by the script that
    signals the load. *)
Lemma iframeSrcDoc_signals htmlCode :
  exists pre post, iframeSrcDoc htmlCode = pre +:+ htmlCode +:+ post /\
    js_includes post "parent.postMessage('iframe-loaded', '*');" = true.
Proof. exists iframeSrcDocHead, iframeSrcDocTail. split; [done|]. reflexivity. Qed.

Lemma previewRun_loaded v evs v' :
  PreviewState.isLoading v = false -> previewRun v evs = Some v' -> PreviewState.isLoading v' = false.
Proof.
  revert v. induction evs as [|ev evs IH]; intros [c s d f l] Hl Hr; cbn in Hl; subst l; cbn in Hr.
  - by injection Hr as <-.
  - destruct ev; repeat case_match; simplify_eq; try discriminate; cbn in Hr; (refine (IH _ _ Hr); reflexivity).
Qed.

(** The loading indicator is shown only until the first document of a
    mounted preview signals its load: a new design reloads the iframe
    without setting [isLoading] again. *)
Lemma preview_loading_not_reset evs v' :
  previewRun mountPreview (Message "iframe-loaded" :: evs) = Some v' -> PreviewState.isLoading v' = false.
Proof. intros H. cbn in H. refine (previewRun_loaded _ _ _ _ H). reflexivity. Qed.

(** [finally] clears [isCopying] before the [toBlob] callback has written
    to the clipboard, so the copy button is enabled again while the write
    is pending. *)
Lemma copy_reenabled_before_clipboard :
  exists v, previewRun mountPreview [CopyClick; CopyCanvas true] = Some v /\ previewStep v CopyClick <> None.
Proof. eexists. split; [reflexivity|]. discriminate. Qed.

Lemma guardAgrees_spec v n :
  guardAgrees v n = true ->
  forall e, attr "onClick" n = Some (AHandler e) ->
    (attr "disabled" n = Some (ABool true) <-> previewStep v e = None).
Proof.
  unfold guardAgrees. intros H e He. rewrite He in H.
  destruct (attr "disabled" n) as [[| | [] | | |]|], (previewStep v e); cbn in H; done.
Qed.

Lemma preview_guards_computed h w v :
  forallb (guardAgrees v) (forest (renderPreview h w v)) = true.
Proof. destruct v as [[] [] [] [] []]; vm_compute; reflexivity. Qed.

Lemma preview_handlers_computed h w v :
  omap clickHandler (forest (renderPreview h w v)) =
    [CopyClick; DownloadClick; ExportClick; ToggleFullscreen] ++
    (if isFullscreen v then [CopyClick; DownloadClick; ExportClick; ToggleFullscreen] else []).
Proof. destruct v as [[] [] [] [] []]; vm_compute; reflexivity. Qed.

Lemma preview_iframes_computed h w v :
  elementsByTag "iframe" (renderPreview h w v) =
    previewIframe h "Live HTML Preview" ::
    (if isFullscreen v then [previewIframe h "Fullscreen HTML Preview"] else []).
Proof. destruct v as [[] [] [] [] []]; vm_compute; reflexivity. Qed.

(** ** Claims *)

(** C32: Every iframe the preview renders loads the design's document in
    a sandbox that allows scripts and nothing else (no
    [allow-same-origin]); there is one, and while fullscreen a second one
    with the first still mounted, so the design runs twice. *)
Theorem preview_iframes_sandboxed h w v :
  Forall (fun n => attr "sandbox" n = Some (AStr "allow-scripts") /\
                   attr "srcDoc" n = Some (AStr (iframeSrcDoc h)))
    (elementsByTag "iframe" (renderPreview h w v)) /\
  length (elementsByTag "iframe" (renderPreview h w v)) = (if isFullscreen v then 2 else 1).
Proof. rewrite preview_iframes_computed. destruct (isFullscreen v); split; repeat constructor. Qed.

(** Every control of the rendered preview is disabled exactly when
    the step of its click handler refuses the click; the controls are
    copy, download, export and fullscreen, and again in the fullscreen
    header.  After a copy whose canvas is ready, the copy button is
    rendered enabled while the clipboard write is still pending. *)
Lemma preview_controls_follow_step h w v :
  Forall (fun n => forall e, attr "onClick" n = Some (AHandler e) ->
            (attr "disabled" n = Some (ABool true) <-> previewStep v e = None))
    (forest (renderPreview h w v)) /\
  omap clickHandler (forest (renderPreview h w v)) =
    [CopyClick; DownloadClick; ExportClick; ToggleFullscreen] ++
    (if isFullscreen v then [CopyClick; DownloadClick; ExportClick; ToggleFullscreen] else []) /\
  (exists v', previewRun mountPreview [CopyClick; CopyCanvas true] = Some v' /\
     map (attr "disabled") (filter (fun n => bool_decide (clickHandler n = Some CopyClick))
                              (forest (renderPreview h w v'))) = [Some (ABool false)]).
Proof.
  split_and!; [|apply preview_handlers_computed|].
  - apply Forall_forall. intros n Hn. apply guardAgrees_spec.
    pose proof (preview_guards_computed h w v) as H. rewrite forallb_forall in H.
    apply H. by apply list_elem_of_In.
  - eexists. split; [reflexivity|]. vm_compute. reflexivity.
Qed.
