(* ===== verification/Async.v ===== *)
(** What the asynchronous runs of [App.v] do to the parts of the world
    that outlive a page: the [projects] state and its stored copy under
    ["dassigner_projects"].

    - Termination: every awaited call of a handler settles into at most
      one further call ([createChatSession] into [sendMessageToChat]), so
      a configuration in which the user does nothing settles after finitely
      many steps.  The measure [pendingWeight] counts the calls still to
      come; [settle] lowers it, and the relation [settles_into] is well
      founded.
    - The stored list: a segment of a handler either leaves the project
      list and its stored text alone ([keepsStore]), or is the deletion,
      which writes both; the persistence effect writes both.  Hence the
      stored text always decodes to the list in memory
      ([storedListTyped]), the stored list never lags behind.

    The combinators of [keepsStore] are also what [Sidebar.v] uses to show
    that only a deletion removes a project. *)

From stdpp Require Import relations.
From Stdlib Require Import Wellfounded.
From S2P Require Import Prelude Types Reducer Repository Storage Service App.
Import AppState.

(** The awaited calls a job still has to make: a conversation to create
    and then a message to send, or one call. *)
Definition jobWeight (j : Job) : nat :=
  match j with AwaitChat _ _ => 2 | AwaitReply _ _ _ | AwaitConversion _ _ | DeferredLoad _ => 1 end.

Definition pendingWeight (l : list Job) : nat := sum_list_with jobWeight l.

(** [c'] is [c] after one awaited call settled. *)
Definition settles_into (c' c : Config) : Prop := exists now i o, settle now i o c = Some c'.

(** A segment that leaves the project list and its stored text alone. *)
Definition keepsStore {A} (m : Eff World.t A) : Prop :=
  forall w, World.projects (snd (m w)) = World.projects w /\
            World.storage (snd (m w)) !! KEY_PROJECTS = World.storage w !! KEY_PROJECTS.

(** The stored project list is the [JSON.stringify] text of the list in
    memory: it decodes, with the shape the start-up reader expects, to
    exactly that list. *)
Definition storedListTyped (w : World.t) : Prop :=
  forall text, World.storage w !! KEY_PROJECTS = Some text -> decode text = Some (World.projects w).

(** A session whose stored list is the text of its list, for the
    witnesses. *)
Definition demoTypedConfig : Config :=
  mkConfig (World.mk demoState [demoProject; demoOther]
              (<[KEY_PROJECTS := encode [demoProject; demoOther]]> ∅) None) [].

(** ** Lemmas *)

Create HintDb keeps discriminated.

Lemma keeps_bind {A B} (m : Eff World.t A) (k : A -> Eff World.t B) :
  keepsStore m -> (forall a, keepsStore (k a)) -> keepsStore (eff_bind m k).
Proof.
  intros Hm Hk w. unfold eff_bind. specialize (Hm w).
  destruct (m w) as [a w'] eqn:E. cbn in *. destruct Hm as [H1 H2].
  destruct (Hk a w') as [H3 H4]. split; congruence.
Qed.

Lemma keeps_ret {A} (a : A) : keepsStore (eff_ret a).
Proof. done. Qed.
Lemma keeps_read : keepsStore readWorld.
Proof. done. Qed.
Lemma keeps_dispatch now a : keepsStore (dispatch now a).
Proof. done. Qed.
Lemma keeps_setItem k v : k <> KEY_PROJECTS -> keepsStore (setItem k v).
Proof. intros Hk w. split; [done|]. cbn. by rewrite lookup_insert_ne. Qed.
Lemma keeps_removeItem k : k <> KEY_PROJECTS -> keepsStore (removeItem k).
Proof. intros Hk w. split; [done|]. cbn. by rewrite lookup_delete_ne. Qed.
Lemma keeps_setAi c : keepsStore (setAi c).
Proof. done. Qed.
Lemma keeps_addToast now m t : keepsStore (addToast now m t).
Proof. done. Qed.
Lemma current_key_other : KEY_CURRENT <> KEY_PROJECTS.
Proof. done. Qed.
Lemma api_key_other : KEY_API <> KEY_PROJECTS.
Proof. done. Qed.
#[export] Hint Resolve keeps_ret keeps_read keeps_dispatch keeps_setItem keeps_removeItem
  keeps_setAi keeps_addToast : keeps.
#[export] Hint Resolve current_key_other api_key_other : keeps.

Ltac solve_keeps :=
  repeat first [ apply keeps_bind; [|intros ?] | solve [eauto with keeps] | progress case_match ].

(** Every handler but the deletion leaves the list and its stored text
    alone. *)
Lemma runEvent_keeps now ev :
  (forall pid, ev <> DeleteProject pid) -> keepsStore (runEvent now ev).
Proof.
  intros Hev. destruct ev as [p|p|f|pid| |pid|ex|k|a]; [..|by destruct (Hev pid)| | |];
    cbn [runEvent]; unfold handleSendMessage, handleGenerateFromNewProject, handleConvertCode,
    handleLoadProject, handleNewProject, handleLoadExample, handleSaveApiKey; solve_keeps.
Qed.

Lemma resume_keeps now j o seg : resume now j o = Some seg -> keepsStore seg.
Proof.
  destruct j, o as [[]|[]|[]|]; cbn; intros; simplify_eq; unfold generationFailed; solve_keeps.
Qed.

Lemma commit_keeps_id now before w pid :
  pid ∈ Project.id <$> World.projects w -> pid ∈ Project.id <$> World.projects (commit now before w).
Proof.
  intros (q & -> & Hq)%list_elem_of_fmap. unfold commit, persistEffect.
  case_bool_decide; [by apply list_elem_of_fmap_2|].
  destruct (saveTarget _) as [spid|] eqn:Hs; cbn; [|by apply list_elem_of_fmap_2].
  destruct (decide (Project.id q = spid)) as [<-|Hne].
  - apply list_elem_of_fmap. eexists; split; [|apply list_elem_of_In, upsert_contains]. done.
  - apply list_elem_of_fmap_2, list_elem_of_In, upsert_keeps_other; [by apply list_elem_of_In|done].
Qed.

(** No event but a deletion and no settling call removes a project. *)
Lemma fire_keeps_id now ev c pid :
  (forall x, ev <> DeleteProject x) ->
  pid ∈ Project.id <$> World.projects (world c) ->
  pid ∈ Project.id <$> World.projects (world (fire now ev c)).
Proof.
  intros Hev Hin. unfold fire. destruct (runEvent_keeps now ev Hev (world c)) as [H _].
  destruct (runEvent now ev (world c)) as [j w]. cbn in *. apply commit_keeps_id. by rewrite H.
Qed.

Lemma settle_keeps_id now i o c c' pid :
  settle now i o c = Some c' ->
  pid ∈ Project.id <$> World.projects (world c) ->
  pid ∈ Project.id <$> World.projects (world c').
Proof.
  unfold settle. intros Hs Hin. destruct (pending c !! i) as [j|]; [|done].
  destruct (resume now j o) as [seg|] eqn:Hr; [|done].
  destruct (resume_keeps now j o seg Hr (world c)) as [H _].
  destruct (seg (world c)) as [j' w]. injection Hs as <-. cbn in *. apply commit_keeps_id. by rewrite H.
Qed.

(** *** Termination of the settling calls *)

Lemma pendingWeight_app l1 l2 : pendingWeight (l1 ++ l2) = pendingWeight l1 + pendingWeight l2.
Proof. apply sum_list_with_app. Qed.

Lemma pendingWeight_delete l i j :
  l !! i = Some j -> pendingWeight (delete i l) + jobWeight j = pendingWeight l.
Proof.
  unfold pendingWeight. revert i. induction l as [|x l IH]; intros [|i] Hi; try discriminate.
  - injection Hi as ->. cbn. lia.
  - specialize (IH i Hi). change (delete (S i) (x :: l)) with (x :: delete i l). cbn. lia.
Qed.

(** The continuation of a job awaits fewer calls than the job. *)
Lemma resume_weight now j o seg w :
  resume now j o = Some seg -> pendingWeight (option_list (fst (seg w))) < jobWeight j.
Proof.
  destruct j, o as [[]|[]|[]|]; cbn; intros; simplify_eq;
    unfold generationFailed, eff_bind, eff_ret, dispatch, addToast; cbn; lia.
Qed.

Lemma settle_decreases now i o c c' :
  settle now i o c = Some c' -> pendingWeight (pending c') < pendingWeight (pending c).
Proof.
  unfold settle. destruct (pending c !! i) as [j|] eqn:Hj; [|done].
  destruct (resume now j o) as [seg|] eqn:Hr; [|done].
  pose proof (resume_weight now j o seg (world c) Hr) as Hw.
  destruct (seg (world c)) as [j' w]. intros [= <-]. cbn in *.
  rewrite pendingWeight_app. pose proof (pendingWeight_delete _ _ _ Hj). lia.
Qed.

(** *** The stored list *)

Lemma keeps_typed {A} (m : Eff World.t A) w :
  keepsStore m -> storedListTyped w -> storedListTyped (snd (m w)).
Proof. intros Hm Hw text. destruct (Hm w) as [-> ->]. apply Hw. Qed.

Lemma commit_typed now before w : storedListTyped w -> storedListTyped (commit now before w).
Proof.
  unfold commit, persistEffect. intros Hw. case_bool_decide; [done|].
  destruct (saveTarget _); [|done]. intros text. cbn [World.storage World.projects].
  rewrite lookup_insert_eq. intros [= <-]. exact (decode_encode_projects _).
Qed.

(** The deletion writes the list and its text together. *)
Lemma delete_typed now pid w : storedListTyped (snd (handleDeleteProject now pid w)).
Proof.
  unfold handleDeleteProject, handleNewProject, addToast.
  unfold eff_bind, eff_ret, readWorld, dispatch, setItem, setProjects.
  destruct (bool_decide _); [destruct (mostRecent _)|]; intros text;
    cbn [World.storage World.projects fst snd];
    rewrite ?lookup_insert_ne by done; rewrite lookup_insert_eq; intros [= <-]; exact (decode_encode_projects _).
Qed.

Lemma fire_typed now ev c : storedListTyped (world c) -> storedListTyped (world (fire now ev c)).
Proof.
  intros Hc. unfold fire.
  assert (Hw : storedListTyped (snd (runEvent now ev (world c)))).
  { destruct ev; try (apply keeps_typed; [apply runEvent_keeps; discriminate|done]).
    apply delete_typed. }
  destruct (runEvent now ev (world c)) as [j w]. by apply commit_typed.
Qed.

Lemma settle_typed now i o c c' :
  settle now i o c = Some c' -> storedListTyped (world c) -> storedListTyped (world c').
Proof.
  unfold settle. intros Hs Hc. destruct (pending c !! i) as [j|]; [|done].
  destruct (resume now j o) as [seg|] eqn:Hr; [|done].
  pose proof (keeps_typed _ _ (resume_keeps now j o seg Hr) Hc) as H.
  destruct (seg (world c)) as [j' w]. injection Hs as <-. by apply commit_typed.
Qed.

(** ** Claims *)

(** C27: The awaited calls terminate: each settling call lowers the
    number of calls still to come ([pendingWeight]: two for a pending
    conversation, which is followed by its message, one for any other
    call), so without new user events a configuration settles after
    finitely many steps: [settles_into] is well founded. *)
Theorem settle_terminates :
  (forall now i o c c', settle now i o c = Some c' -> pendingWeight (pending c') < pendingWeight (pending c)) /\
  well_founded settles_into.
Proof.
  split; [exact settle_decreases|].
  apply (wf_incl _ _ (ltof _ (fun c => pendingWeight (pending c)))); [|apply well_founded_ltof].
  intros c' c (now & i & o & H). exact (settle_decreases _ _ _ _ _ H).
Qed.

(** C35: The text under ["dassigner_projects"] is always the
    [JSON.stringify] text of the project list in memory: every user event
    and every settling call keeps it decoding, with the shape the start-up
    reader expects, to exactly that list. *)
Theorem stored_list_typed c c' :
  rtc step c c' -> storedListTyped (world c) -> storedListTyped (world c').
Proof.
  induction 1 as [c|c c1 c' Hs _ IH]; [done|]. intros Hc. apply IH.
  destruct Hs as [now ev c _|now i o c c2 Hs]; [by apply fire_typed|by eapply settle_typed].
Qed.

(** ** Witnesses *)

Lemma stored_list_typed_witness :
  storedListTyped (world demoTypedConfig) /\
  storedListTyped (world (fire 5 (DeleteProject "proj-2") demoTypedConfig)).
Proof.
  assert (H0 : storedListTyped (world demoTypedConfig)).
  { intros text Ht. vm_compute in Ht. injection Ht as <-. vm_compute. reflexivity. }
  split; [exact H0|].
  apply (stored_list_typed demoTypedConfig); [|exact H0].
  apply rtc_once. apply step_fire. reflexivity.
Defined.
