(* ===== verification/Ui.v ===== *)
(** The guards the components put in front of the handlers:
    [src/components/Sidebar.tsx] (prompt form, example prompts, project
    list), [src/components/MainContent.tsx] (welcome examples, code tab) and
    [src/components/SettingsModal.tsx] (key form).  A guard is the
    conjunction of the [disabled] attribute of the control and the test the
    click handler makes.  [ui_step] is the step relation of [App.v]
    restricted to events a user can trigger through these controls.

    The spec leaves the single-generation discipline to the user interface
    (section 5).  [ui_one_generation] shows the guards enforce it as long
    as the user does not switch project; [ui_switch_two_generations] shows
    that a project switch during a generation, which no control forbids,
    lets a second generation start while the first is in flight.
    [Sidebar.v] models the sidebar's own state and shows that every run
    it drives is a run of [ui_step].

    The code tab ([CodePreview.tsx], imported by [MainContent.tsx] line 5)
    is not in the repository: its conversion button is taken to be enabled
    whenever a design is shown. *)

From stdpp Require Import relations.
From S2P Require Import Prelude Base64 Types Reducer Repository Storage Service App.
Import AppState.

(** [const isApiKeySet = !!apiKey] (Sidebar.tsx line 50, MainContent.tsx
    line 181). *)
Definition isApiKeySet (s : AppState.t) : bool := keySet s.

(** The submit button (Sidebar.tsx line 495: disabled when
    [isLoading || isEnhancing || !prompt.trim() || !isApiKeySet]) and
    [handleSubmit] (lines 72-78), with [isEnhancing] false. *)
Definition canSubmit (s : AppState.t) (prompt : string) : bool :=
  negb (isLoading s) && js_truthy (js_trim prompt) && isApiKeySet s.

(** The example prompt buttons (line 346: disabled when
    [isLoading || !isApiKeySet]) and [handleExamplePromptClick] (lines
    100-104). *)
Definition canUseExamplePrompt (s : AppState.t) : bool :=
  negb (isLoading s) && isApiKeySet s.

(** [!!activeDesign] *)
Definition hasDesign (s : AppState.t) : bool :=
  match activeDesign s with Some _ => true | None => false end.

(** The welcome screen is rendered when there is no design and no
    generation (MainContent.tsx lines 217-226); its examples ignore clicks
    without a key ([pointer-events-none], line 108). *)
Definition canLoadExample (s : AppState.t) : bool :=
  negb (hasDesign s) && negb (isLoading s) && isApiKeySet s.

(** The key form saves [apiKeyInput.trim()] when it is not empty
    (SettingsModal.tsx lines 32-38). *)
Definition savedKeyShape (k : string) : bool := js_truthy k && String.eqb (js_trim k) k.

Definition uiAllowed (ev : Event) (c : Config) : bool :=
  let s := World.st (world c) in
  match ev with
  | SendMessage p => canSubmit s p
  | GenerateFromNewProject _ => canUseExamplePrompt s
  | LoadExample _ => canLoadExample s
  | ConvertCode _ => hasDesign s
  | LoadProject pid | DeleteProject pid =>
      bool_decide (pid ∈ Project.id <$> World.projects (world c))
  | NewProject => true
  | SaveApiKey (Some k) => savedKeyShape k
  | SaveApiKey None => false
  | UiDispatch a => uiAction a
  end.

Inductive ui_step : Config -> Config -> Prop :=
| ui_fire now ev c : uiAllowed ev c = true -> ui_step c (fire now ev c)
| ui_settle now i o c c' : settle now i o c = Some c' -> ui_step c c'.

(** Events that replace the session's project. *)
Definition switchesProject (ev : Event) : bool :=
  match ev with LoadProject _ | NewProject | LoadExample _ | DeleteProject _ => true | _ => false end.

(** Steps of a user who stays on one project. *)
Inductive calm_step : Config -> Config -> Prop :=
| calm_fire now ev c :
    uiAllowed ev c = true -> switchesProject ev = false -> calm_step c (fire now ev c)
| calm_settle now i o c c' : settle now i o c = Some c' -> calm_step c c'.

Definition isGeneration (j : Job) : bool :=
  match j with AwaitChat _ _ | AwaitReply _ _ _ => true | _ => false end.

Definition isDeferredLoad (j : Job) : bool :=
  match j with DeferredLoad _ => true | _ => false end.

(** The number of generation requests in flight. *)
Definition generations (l : list Job) : nat := length (List.filter isGeneration l).

(** At most one generation is in flight, the loading flag is up while it
    is, and no project load is deferred. *)
Definition oneGeneration (c : Config) : Prop :=
  generations (pending c) <= 1 /\
  (generations (pending c) = 1 -> isLoading (World.st (world c)) = true) /\
  Forall (fun j => isDeferredLoad j = false) (pending c).

Definition startsGeneration (ev : Event) : bool :=
  match ev with SendMessage _ | GenerateFromNewProject _ => true | _ => false end.

(** ** Lemmas *)

(** The actions that leave the loading flag alone. *)
Definition keepsLoading (a : AppAction) : bool :=
  match a with
  | START_GENERATION | GENERATION_SUCCESS _ _ | GENERATION_FAILURE | LOAD_PROJECT _
  | NEW_PROJECT _ | LOAD_EXAMPLE _ _ | START_NEW_DESIGN_FROM_PROMPT _ => false
  | _ => true
  end.

Lemma keepsLoading_spec now s a : keepsLoading a = true -> isLoading (appReducer now s a) = isLoading s.
Proof.
  destruct a; try discriminate; intros _; destruct s; try reflexivity.
  cbn. by case_match.
Qed.

Lemma generations_app l1 l2 : generations (l1 ++ l2) = generations l1 + generations l2.
Proof. unfold generations. by rewrite List.filter_app, length_app. Qed.

Lemma generations_delete l i j :
  l !! i = Some j -> generations (delete i l) + (if isGeneration j then 1 else 0) = generations l.
Proof.
  unfold generations. revert i. induction l as [|x l IH]; intros [|i] Hi; try discriminate.
  - injection Hi as ->. cbn. destruct (isGeneration j); cbn; lia.
  - specialize (IH i Hi). change (delete (S i) (x :: l)) with (x :: delete i l).
    cbn [List.filter]. destruct (isGeneration x); cbn [length]; lia.
Qed.

Lemma uiAction_keepsLoading a : uiAction a = true -> keepsLoading a = true.
Proof. by destruct a. Qed.

(** A quiet event (no generation, no project switch) leaves the loading
    flag alone and adds no generation and no deferred load. *)
Lemma fire_quiet now ev c :
  switchesProject ev = false -> startsGeneration ev = false -> uiAllowed ev c = true ->
  isLoading (World.st (world (fire now ev c))) = isLoading (World.st (world c)) /\
  exists js, pending (fire now ev c) = pending c ++ js /\
    Forall (fun j => isGeneration j = false /\ isDeferredLoad j = false) js.
Proof.
  intros Hs Hg Ha. destruct c as [[s ps st ai] pend]. unfold fire.
  destruct ev as [p|p|f|pid| |pid|ex|[k|]|a]; try discriminate; cbn [runEvent].
  - unfold handleConvertCode. unfold_eff.
    destruct (activeDesign s) as [d|]; [destruct (js_truthy _)|]; cbn; rewrite commit_st; cbn;
      (split; [destruct s; done|]); eexists; (split; [reflexivity|]); repeat constructor.
  - unfold handleSaveApiKey. cbn in Ha. unfold savedKeyShape in Ha.
    destruct (js_truthy k) eqn:Hk; [|discriminate].
    destruct (initializeAiClient k) as [client [u|e]]; unfold_eff; cbn; rewrite commit_st; cbn;
      (split; [destruct s; done|]);
      eexists; (split; [reflexivity|]); repeat constructor.
  - unfold_eff. cbn. rewrite commit_st. cbn. split.
    + apply keepsLoading_spec, uiAction_keepsLoading. exact Ha.
    + eexists. split; [reflexivity|]. repeat constructor.
Qed.

Lemma generations_zero c :
  oneGeneration c -> isLoading (World.st (world c)) = false -> generations (pending c) = 0.
Proof.
  intros (H1 & H2 & _) Hl. destruct (generations (pending c)) as [|[|n]] eqn:E; [done| |lia].
  rewrite H2 in Hl by done. discriminate.
Qed.

Lemma generations_quiet js :
  Forall (fun j => isGeneration j = false /\ isDeferredLoad j = false) js -> generations js = 0.
Proof. unfold generations. induction 1 as [|j js [Hj _] _ IH]; cbn; [done|]. by rewrite Hj. Qed.

Lemma oneGeneration_fire now ev c :
  uiAllowed ev c = true -> switchesProject ev = false -> oneGeneration c -> oneGeneration (fire now ev c).
Proof.
  intros Ha Hs Hinv. destruct (startsGeneration ev) eqn:Hg.
  - destruct ev as [p|p| | | | | | |]; try discriminate; cbn in Ha.
    + unfold canSubmit, isApiKeySet in Ha. apply andb_prop in Ha as [Ha Hk].
      apply andb_prop in Ha as [Hl _]. apply negb_true_iff in Hl.
      pose proof (generations_zero c Hinv Hl) as H0. destruct Hinv as (_ & _ & Hd).
      destruct (chatSession (World.st (world c))) as [chat|] eqn:Hc;
        [rewrite (fire_send_with_chat now c p chat Hk Hc)|rewrite (fire_send_without_chat now c p Hk Hc)];
        unfold oneGeneration; cbn_config;
        (split_and!; [| |apply Forall_app; split; [done|constructor; [done|constructor]]]);
        rewrite ?commit_st, ?generations_app, H0; cbn_config; cbn; try lia;
        intros _; by destruct (World.st (world c)).
    + unfold canUseExamplePrompt, isApiKeySet in Ha. apply andb_prop in Ha as [Hl Hk].
      apply negb_true_iff in Hl.
      pose proof (generations_zero c Hinv Hl) as H0. destruct Hinv as (_ & _ & Hd).
      rewrite (fire_generate now c p Hk). unfold oneGeneration. cbn_config.
      split_and!; [| |apply Forall_app; split; [done|constructor; [done|constructor]]];
        rewrite ?commit_st, ?generations_app, H0; cbn_config; cbn; try lia;
        intros _; by destruct (World.st (world c)).
  - destruct (fire_quiet now ev c Hs Hg Ha) as (Hl & js & Hp & Hjs).
    destruct Hinv as (H1 & H2 & H3). unfold oneGeneration. rewrite Hp, Hl, generations_app, (generations_quiet js Hjs), Nat.add_0_r.
    split_and!; [done|done|]. apply Forall_app. split; [done|].
    eapply Forall_impl; [exact Hjs|]. by intros j [_ ?].
Qed.

(** What the continuation of a job does to the invariant's quantities:
    either it keeps the loading flag and replaces a generation by a
    generation, or it ends a generation and lowers the flag. *)
Lemma resume_effect now j o seg w :
  resume now j o = Some seg -> isDeferredLoad j = false ->
  Forall (fun j => isDeferredLoad j = false) (option_list (fst (seg w))) /\
  ((generations (option_list (fst (seg w))) = (if isGeneration j then 1 else 0) /\
    isLoading (World.st (snd (seg w))) = isLoading (World.st w)) \/
   (isGeneration j = true /\ generations (option_list (fst (seg w))) = 0 /\
    isLoading (World.st (snd (seg w))) = false)).
Proof.
  intros Hr Hd. destruct w as [s ps st ai].
  destruct j, o as [[]|[]|[]|]; cbn in Hr; try discriminate; injection Hr as <-;
    unfold generationFailed; unfold_eff; destruct s; cbn; (split; [repeat constructor|]); auto.
Qed.

Lemma oneGeneration_settle now i o c c' :
  settle now i o c = Some c' -> oneGeneration c -> oneGeneration c'.
Proof.
  unfold settle. intros Hs (H1 & H2 & H3).
  destruct (pending c !! i) as [j|] eqn:Hi; [|discriminate].
  destruct (resume now j o) as [seg|] eqn:Hr; [|discriminate].
  assert (Hd : isDeferredLoad j = false).
  { rewrite Forall_forall in H3. apply H3. by eapply list_elem_of_lookup_2. }
  destruct (resume_effect now j o seg (world c) Hr Hd) as (Hf & Hcase).
  destruct (seg (world c)) as [j' w'] eqn:Hseg. injection Hs as <-. cbn in Hf, Hcase.
  pose proof (generations_delete _ _ _ Hi) as Hdel.
  unfold oneGeneration. cbn_config. rewrite commit_st, generations_app.
  split_and!.
  - destruct Hcase as [(-> & _)|(Hg & -> & _)]; [destruct (isGeneration j); lia|].
    rewrite Hg in Hdel. lia.
  - destruct Hcase as [(-> & ->)|(Hg & -> & ->)].
    + intros E. apply H2. destruct (isGeneration j); lia.
    + rewrite Hg in Hdel. lia.
  - apply Forall_app. split; [|done]. by apply Forall_delete.
Qed.

Lemma calm_preserves c c' : rtc calm_step c c' -> oneGeneration c -> oneGeneration c'.
Proof.
  induction 1 as [c|c1 c2 c3 Hs _ IH]; [done|]. intros Hinv. apply IH.
  destruct Hs as [now ev c Ha Hsw|now i o c c' Hst].
  - by apply oneGeneration_fire.
  - by eapply oneGeneration_settle.
Qed.

(** A commit keeps a project of every id the list had. *)
Lemma id_in_commit now before w q :
  In q (World.projects w) ->
  exists q', In q' (World.projects (commit now before w)) /\ Project.id q' = Project.id q.
Proof.
  intros Hin. unfold commit, persistEffect. case_bool_decide; [eauto|].
  destruct (saveTarget _) as [pid|]; cbn; [|eauto].
  destruct (decide (Project.id q = Project.id (projectData (World.st w) pid now))) as [E|E].
  - eexists. split; [apply upsert_contains|]. by rewrite E.
  - exists q. split; [by apply upsert_keeps_other|done].
Qed.

Lemma id_listed (pid : string) ps q :
  In q ps -> Project.id q = pid -> bool_decide (pid ∈ Project.id <$> ps) = true.
Proof. intros Hin <-. apply bool_decide_eq_true_2, list_elem_of_fmap_2, list_elem_of_In, Hin. Qed.

(** Loading a listed project: the first project of that id is loaded. *)
Lemma fire_load_listed now c q :
  In q (World.projects (world c)) ->
  exists p, Project.id p = Project.id q /\
    fire now (LoadProject (Project.id q)) c =
      mkConfig (commit now (World.st (world c))
        (World.mk (appReducer now (World.st (world c)) (LOAD_PROJECT p)) (World.projects (world c))
           (<[KEY_CURRENT := Project.id q]> (World.storage (world c))) (World.ai (world c))))
        (pending c).
Proof.
  intros Hin.
  destruct (find (fun p => String.eqb (Project.id p) (Project.id q)) (World.projects (world c)))
    as [p|] eqn:Hf.
  - apply find_some_in in Hf as Hp. destruct Hp as [_ Hid]. apply String.eqb_eq in Hid.
    exists p. split; [done|]. rewrite <- Hid. apply fire_load_project. by rewrite Hid.
  - exfalso. pose proof (List.find_none _ _ Hf q Hin) as H. cbn beta in H. by rewrite String.eqb_refl in H.
Qed.

(** ** Claims *)

(** C24: Through the components' controls, a user who does not switch
    project never has two generation requests in flight: from a session
    with nothing pending, every run of the controls and of settling calls
    keeps at most one generation pending, and the loading flag up while
    one is. *)
Theorem ui_one_generation c c' :
  pending c = [] -> rtc calm_step c c' ->
  generations (pending c') <= 1 /\
  (generations (pending c') = 1 -> isLoading (World.st (world c')) = true).
Proof.
  intros Hp Hr. assert (Hi : oneGeneration c') by (apply (calm_preserves c); [done|];
    unfold oneGeneration; rewrite Hp; cbn; split_and!; [lia|lia|constructor]).
  destruct Hi as (H1 & H2 & _). done.
Qed.

(** C25: Switching project during a generation, which no control
    forbids, lets a second generation start while the first is in flight:
    send a prompt, load another listed project (which lowers the loading
    flag), send again, and two generation requests are pending, the first
    of which will answer into the loaded project. *)
Theorem ui_switch_two_generations (now1 now2 now3 : N) (c : Config) (p1 p2 : string) (q : Project.t) :
  pending c = [] -> canSubmit (World.st (world c)) p1 = true -> js_truthy (js_trim p2) = true ->
  In q (World.projects (world c)) ->
  exists c3, rtc ui_step c c3 /\ generations (pending c3) = 2 /\
    currentProjectId (World.st (world c3)) = Some (Project.id q).
Proof.
  intros Hp Hs1 Hs2 Hq.
  assert (Hk : keySet (World.st (world c)) = true).
  { unfold canSubmit, isApiKeySet in Hs1. by apply andb_prop in Hs1 as [_ ->]. }
  set (c1 := fire now1 (SendMessage p1) c).
  assert (Hc1 : World.projects (world c1) = World.projects (world (fire now1 (SendMessage p1) c))) by done.
  assert (Hst1 : World.st (world c1) = appReducer now1 (World.st (world c)) START_GENERATION /\
                 generations (pending c1) = 1 /\
                 exists w, world c1 = commit now1 (World.st (world c)) w /\
                   World.projects w = World.projects (world c)).
  { subst c1. destruct (chatSession (World.st (world c))) as [chat|] eqn:Hc;
      [rewrite (fire_send_with_chat now1 c p1 chat Hk Hc)|rewrite (fire_send_without_chat now1 c p1 Hk Hc)];
      cbn_config; rewrite commit_st; cbn_config; (split; [done|]); rewrite Hp; (split; [done|]);
      eexists; split; reflexivity. }
  destruct Hst1 as (Hst1 & Hg1 & w1 & Hw1 & Hpw1).
  destruct (id_in_commit now1 (World.st (world c)) w1 q) as (q' & Hq' & Hid); [by rewrite Hpw1|].
  rewrite <- Hw1 in Hq'. destruct (fire_load_listed now2 c1 q' Hq') as (p & Hpid & Hf2).
  set (c2 := fire now2 (LoadProject (Project.id q')) c1).
  set (s2 := appReducer now2 (World.st (world c1)) (LOAD_PROJECT p)).
  assert (Hst2 : World.st (world c2) = s2 /\ pending c2 = pending c1).
  { subst c2. rewrite Hf2. cbn_config. by rewrite commit_st. }
  destruct Hst2 as [Hst2 Hp2].
  assert (Hk2 : keySet s2 = true) by (subst s2; rewrite Hst1; by destruct (World.st (world c))).
  assert (Hch2 : chatSession s2 = None) by (subst s2; by destruct (World.st (world c1))).
  exists (fire now3 (SendMessage p2) c2). split_and!.
  - eapply rtc_l; [apply (ui_fire now1 (SendMessage p1)); exact Hs1|]. fold c1.
    eapply rtc_l; [apply (ui_fire now2 (LoadProject (Project.id q'))); exact (id_listed _ _ _ Hq' eq_refl)|].
    fold c2. eapply rtc_l; [apply (ui_fire now3 (SendMessage p2))|apply rtc_refl].
    cbn. unfold canSubmit, isApiKeySet. rewrite Hst2, Hk2, Hs2.
    subst s2. by destruct (World.st (world c1)).
  - rewrite (fire_send_without_chat now3 c2 p2); [|by rewrite Hst2|by rewrite Hst2].
    cbn_config. rewrite generations_app, Hp2, Hg1. done.
  - rewrite (fire_send_without_chat now3 c2 p2); [|by rewrite Hst2|by rewrite Hst2].
    cbn_config. rewrite commit_st. cbn_config. rewrite Hst2. subst s2.
    rewrite <- Hid, <- Hpid. by destruct (World.st (world c1)).
Qed.

(** ** Witnesses *)

Lemma ui_one_generation_witness :
  rtc calm_step (mkConfig (demoWorld demoState) [])
    (fire 1 (SendMessage "a hero") (mkConfig (demoWorld demoState) [])) /\
  generations (pending (fire 1 (SendMessage "a hero") (mkConfig (demoWorld demoState) []))) <= 1.
Proof.
  assert (Hr : rtc calm_step (mkConfig (demoWorld demoState) [])
                 (fire 1 (SendMessage "a hero") (mkConfig (demoWorld demoState) []))).
  { eapply rtc_l; [apply (calm_fire 1 (SendMessage "a hero")); reflexivity|apply rtc_refl]. }
  split; [exact Hr|].
  apply (proj1 (ui_one_generation (mkConfig (demoWorld demoState) []) _ eq_refl Hr)).
Defined.

Lemma ui_switch_two_generations_witness :
  canSubmit (set_chatSession None demoState) "a hero" = true /\
  exists c3, rtc ui_step (mkConfig (demoWorld (set_chatSession None demoState)) []) c3 /\
    generations (pending c3) = 2.
Proof.
  split; [reflexivity|].
  destruct (ui_switch_two_generations 1 2 3 (mkConfig (demoWorld (set_chatSession None demoState)) [])
              "a hero" "a footer" demoOther eq_refl eq_refl eq_refl ltac:(simpl; auto))
    as (c3 & Hr & Hg & _).
  exists c3. split; [exact Hr|exact Hg].
Defined.
