(* ===== verification/MainContent.v ===== *)
(** The main panel of [src/components/MainContent.tsx]: the example
    designs of the welcome screen ([inspirationExamples], lines 8-51), the
    choice of what the panel shows ([renderInnerContent], lines 216-226:
    the loading screen, the welcome screen or the design with its tabs),
    the panel's local state ([MainView.t]: the active tab and the preview
    width, lines 182-183), and its controls with their guards and handlers
    ([mainHandler]), which return the events the panel fires at the
    context.

    The welcome screen greys out its examples without a key with
    [pointer-events-none] (line 108), which stops the mouse but not the
    keyboard: a focused [Try This Example] button still runs
    [handleLoadExample] on Enter.  [KeyExample] is that activation.  The
    code tab renders [CodePreview.tsx], which is not in the repository.

    The element the panel returns is the virtual DOM tree [renderMain]
    (with [WelcomeState], [LoadingState], [DeviceButton] and the design
    screen), whose click handlers are [MainEvent]s; the theorem
    [main_controls_match_handler] checks [mainHandler] against it: the
    controls the mouse can reach carry exactly the clicks it accepts, and
    the keyboard reaches every rendered example button. *)

From S2P Require Import Prelude Dom Icons Types Reducer Service Preview App Ui.
Import AppState.

Definition inspirationExamples : list ExampleItem.t := [
  ExampleItem.mk
    ("A sleek, modern " +:+ dq +:+ "Product of the Day" +:+ dq +:+ " card, dark theme, suitable for a tech launch website.")
    ("<div class=" +:+ dq +:+ "p-8 bg-slate-900 rounded-2xl shadow-2xl shadow-cyan-500/10 border border-slate-800 flex items-center gap-8 max-w-2xl mx-auto" +:+ dq +:+ ">" +:+ nl +:+
    "      <img src=" +:+ dq +:+ "https://picsum.photos/seed/producthunt/120/120" +:+ dq +:+ " alt=" +:+ dq +:+ "Product Logo" +:+ dq +:+ " class=" +:+ dq +:+ "w-28 h-28 rounded-xl object-cover flex-shrink-0" +:+ dq +:+ " />" +:+ nl +:+
    "      <div class=" +:+ dq +:+ "flex-grow" +:+ dq +:+ ">" +:+ nl +:+
    "        <h3 class=" +:+ dq +:+ "text-2xl font-bold text-white" +:+ dq +:+ ">QuantumLeap AI</h3>" +:+ nl +:+
    "        <p class=" +:+ dq +:+ "text-slate-400 mt-1 mb-4" +:+ dq +:+ ">The new standard for AI-powered analytics.</p>" +:+ nl +:+
    "        <div class=" +:+ dq +:+ "flex items-center gap-2" +:+ dq +:+ ">" +:+ nl +:+
    "          <button class=" +:+ dq +:+ "bg-cyan-500 text-slate-900 font-bold py-2 px-5 rounded-lg text-sm hover:bg-cyan-400 transition-colors" +:+ dq +:+ ">Upvote (1.2k)</button>" +:+ nl +:+
    "          <button class=" +:+ dq +:+ "border border-slate-700 text-slate-300 font-medium py-2 px-5 rounded-lg text-sm hover:bg-slate-800 transition-colors" +:+ dq +:+ ">Visit Website</button>" +:+ nl +:+
    "        </div>" +:+ nl +:+
    "      </div>" +:+ nl +:+
    "    </div>");
  ExampleItem.mk
    ("A clean hero section for a minimalist SaaS application, light theme.")
    ("<div class=" +:+ dq +:+ "text-center py-24 px-6 bg-slate-50" +:+ dq +:+ ">" +:+ nl +:+
    "      <h1 class=" +:+ dq +:+ "text-5xl md:text-7xl font-extrabold text-slate-900 tracking-tighter" +:+ dq +:+ ">Simplicity Meets Power</h1>" +:+ nl +:+
    "      <p class=" +:+ dq +:+ "max-w-2xl mx-auto mt-6 text-lg text-slate-600" +:+ dq +:+ ">The last project management tool you'll ever need. Streamline your workflow and boost your team's productivity overnight.</p>" +:+ nl +:+
    "      <div class=" +:+ dq +:+ "mt-8 flex justify-center gap-4" +:+ dq +:+ ">" +:+ nl +:+
    "        <button class=" +:+ dq +:+ "bg-slate-900 text-white font-semibold py-3 px-8 rounded-lg hover:bg-slate-700 transition-transform active:scale-95" +:+ dq +:+ ">Get Started Free</button>" +:+ nl +:+
    "        <button class=" +:+ dq +:+ "border border-slate-300 text-slate-700 font-semibold py-3 px-8 rounded-lg hover:bg-slate-200 transition-transform active:scale-95" +:+ dq +:+ ">Learn More</button>" +:+ nl +:+
    "      </div>" +:+ nl +:+
    "    </div>");
  ExampleItem.mk
    ("A single, impactful testimonial card with a rating.")
    ("<div class=" +:+ dq +:+ "p-8 bg-white rounded-2xl shadow-xl max-w-md mx-auto" +:+ dq +:+ ">" +:+ nl +:+
    "      <div class=" +:+ dq +:+ "flex items-center mb-4" +:+ dq +:+ ">" +:+ nl +:+
    "        <img src=" +:+ dq +:+ "https://picsum.photos/seed/testimonial/48/48" +:+ dq +:+ " alt=" +:+ dq +:+ "Reviewer" +:+ dq +:+ " class=" +:+ dq +:+ "w-12 h-12 rounded-full object-cover" +:+ dq +:+ " />" +:+ nl +:+
    "        <div class=" +:+ dq +:+ "ml-4" +:+ dq +:+ ">" +:+ nl +:+
    "          <p class=" +:+ dq +:+ "font-bold text-slate-800" +:+ dq +:+ ">Sarah J.</p>" +:+ nl +:+
    "          <p class=" +:+ dq +:+ "text-sm text-slate-500" +:+ dq +:+ ">CEO, Tech Innovators</p>" +:+ nl +:+
    "        </div>" +:+ nl +:+
    "        <div class=" +:+ dq +:+ "ml-auto flex items-center gap-1 text-amber-400" +:+ dq +:+ ">" +:+ nl +:+
    "          <svg class=" +:+ dq +:+ "w-5 h-5" +:+ dq +:+ " fill=" +:+ dq +:+ "currentColor" +:+ dq +:+ " viewBox=" +:+ dq +:+ "0 0 20 20" +:+ dq +:+ "><path d=" +:+ dq +:+ "M9.049 2.927c.3-.921 1.603-.921 1.902 0l1.07 3.292a1 1 0 00.95.69h3.462c.969 0 1.371 1.24.588 1.81l-2.8 2.034a1 1 0 00-.364 1.118l1.07 3.292c.3.921-.755 1.688-1.54 1.118l-2.8-2.034a1 1 0 00-1.175 0l-2.8 2.034c-.784.57-1.838-.197-1.539-1.118l1.07-3.292a1 1 0 00-.364-1.118L2.98 8.72c-.783-.57-.38-1.81.588-1.81h3.461a1 1 0 00.951-.69l1.07-3.292z" +:+ dq +:+ "></path></svg>" +:+ nl +:+
    "          <span class=" +:+ dq +:+ "font-bold text-slate-600 text-lg" +:+ dq +:+ ">5.0</span>" +:+ nl +:+
    "        </div>" +:+ nl +:+
    "      </div>" +:+ nl +:+
    "      <p class=" +:+ dq +:+ "text-slate-600 italic" +:+ dq +:+ ">" +:+ dq +:+ "This tool has completely revolutionized our design process. We're delivering better results, faster than ever before. Highly recommended!" +:+ dq +:+ "</p>" +:+ nl +:+
    "    </div>")].

Inductive Tab := Visual | Code.

Module MainView.
Record t := mk { activeTab : Tab; previewWidth : string }.
End MainView.

(** [useState('visual')], [useState('100%')]. *)
Definition mountMain : MainView.t := MainView.mk Visual "100%".

(** What [renderInnerContent] renders. *)
Inductive Screen :=
| LoadingScreen                               (** [<LoadingState />] *)
| WelcomeScreen                               (** [<WelcomeState ... />] *)
| DesignScreen (d : DesignOutput.t) (tab : Tab).

Definition renderInnerContent (s : AppState.t) (v : MainView.t) : Screen :=
  match activeDesign s with
  | None => if isLoading s then LoadingScreen else WelcomeScreen
  | Some d => DesignScreen d (MainView.activeTab v)
  end.

(** The widths of the three [DeviceButton]s (lines 267-275). *)
Definition deviceWidths : list string := ["375px"; "768px"; "100%"].

(** The props of [VisualPreview] (lines 294-297), when it is rendered. *)
Definition previewProps (s : AppState.t) (v : MainView.t) : option (string * string) :=
  match renderInnerContent s v with
  | DesignScreen d Visual => Some (DesignOutput.htmlCode d, MainView.previewWidth v)
  | _ => None
  end.

Inductive MainEvent :=
| ClickVisualTab                (** line 238 *)
| ClickCodeTab                  (** line 250 *)
| ClickDevice (width : string)  (** [DeviceButton] onClick (line 200) *)
| ClickExample (i : nat)        (** Try This Example by mouse (line 140) *)
| KeyExample (i : nat)          (** the same button activated from the keyboard *)
| ClickConfigureKey             (** the welcome screen's button without a key (line 99) *)
| ClickMenu                     (** the header's menu button (lines 316-328) *)
| ClickSettings.                (** the header's settings button (line 344) *)

Definition onMenuClick : Event := UiDispatch (SET_IS_SIDEBAR_OPEN true).
Definition onOpenSettings : Event := UiDispatch (SET_IS_SETTINGS_OPEN true).

(** The guard of each control (whether it is rendered and reachable), then
    its handler. *)
Definition mainHandler (s : AppState.t) (ev : MainEvent) (v : MainView.t)
    : option (MainView.t * list Event) :=
  let screen := renderInnerContent s v in
  let welcome := match screen with WelcomeScreen => true | _ => false end in
  let design := match screen with DesignScreen _ _ => true | _ => false end in
  match ev with
  | ClickVisualTab => if design then Some (MainView.mk Visual (MainView.previewWidth v), []) else None
  | ClickCodeTab => if design then Some (MainView.mk Code (MainView.previewWidth v), []) else None
  | ClickDevice width =>
      match screen with
      | DesignScreen _ Visual =>
          if bool_decide (width ∈ deviceWidths) then Some (MainView.mk Visual width, []) else None
      | _ => None
      end
  | ClickExample i =>
      if welcome && keySet s then
        match inspirationExamples !! i with Some ex => Some (v, [LoadExample ex]) | None => None end
      else None
  | KeyExample i =>
      if welcome then
        match inspirationExamples !! i with Some ex => Some (v, [LoadExample ex]) | None => None end
      else None
  | ClickConfigureKey => if welcome && negb (keySet s) then Some (v, [onOpenSettings]) else None
  | ClickMenu =>
      Some (v, [if isSidebarOpen s then UiDispatch (SET_IS_SIDEBAR_OPEN false) else onMenuClick])
  | ClickSettings => Some (v, [onOpenSettings])
  end.

(** A reply whose markup is an image with an unquoted event handler. *)
Definition unquotedHandlerReply : string := "<img src=x onerror=alert(document.domain)>".

(** ** The rendered panel

    [WelcomeState] (lines 53-150), [LoadingState] (lines 152-176),
    [DeviceButton] (lines 188-214), the design screen of
    [renderInnerContent] (lines 229-308) and the returned [main] element
    (lines 312-354), with the controls' click handlers as [MainEvent]s.
    [VisualPreview] and [CodePreview] are kept as elements carrying their
    data props. *)
Definition iconCls (s : string) : Attrs MainEvent := obj [("className", cls s)].

Definition WelcomeState (isApiKeySet : bool) : Node MainEvent :=
  elc "div" "flex flex-col items-center justify-center min-h-full w-full p-4 sm:p-8 animate-fade-in"
    [elc "div" "text-center mb-12 max-w-4xl"
       ([elc "div" "relative mb-8"
           [DAssignerLogoIcon (iconCls "w-24 h-24 text-cyan-400 mx-auto drop-shadow-[0_0_20px_rgba(34,211,238,0.6)]");
            elc "div" "absolute inset-0 w-24 h-24 mx-auto rounded-full bg-gradient-to-r from-cyan-400/20 to-blue-500/20 blur-xl animate-pulse" []];
         elc "h2" "text-4xl sm:text-5xl lg:text-6xl font-extrabold text-slate-800 dark:text-white mb-6 tracking-tight leading-tight"
           [Text "Design at the";
            elc "span" "bg-gradient-to-r from-cyan-400 to-blue-500 bg-clip-text text-transparent" [Text " Speed of Thought"]];
         elc "p" "mx-auto text-lg sm:text-xl text-slate-600 dark:text-slate-300 leading-relaxed max-w-3xl"
           [Text "Welcome to your personal AI design studio. Describe any UI component, layout, or webpage, and watch as DAssigner crafts production-ready HTML and Tailwind CSS in real-time."];
         elc "div" "mt-8 flex flex-wrap justify-center gap-4 text-sm text-slate-500 dark:text-slate-400"
           [elc "div" "flex items-center gap-2" [elc "div" "w-2 h-2 bg-cyan-400 rounded-full" []; El "span" ∅ [Text "Instant code generation"]];
            elc "div" "flex items-center gap-2" [elc "div" "w-2 h-2 bg-blue-400 rounded-full" []; El "span" ∅ [Text "Production-ready HTML"]];
            elc "div" "flex items-center gap-2" [elc "div" "w-2 h-2 bg-purple-400 rounded-full" []; El "span" ∅ [Text "Tailwind CSS styling"]]]] ++
        (if isApiKeySet then [] else
          [elc "div" "mt-10 bg-gradient-to-br from-slate-900/80 to-slate-800/80 backdrop-blur-sm p-8 rounded-2xl border border-cyan-400/30 max-w-lg mx-auto text-center animate-fade-in shadow-2xl shadow-cyan-500/20"
             [elc "div" "w-16 h-16 mx-auto mb-6 bg-gradient-to-br from-cyan-500/20 to-blue-500/20 rounded-full flex items-center justify-center border border-cyan-500/30"
                [Cog6ToothIcon (iconCls "w-8 h-8 text-cyan-400")];
              elc "h3" "font-bold text-2xl text-white mb-3" [Text "API Key Required"];
              elc "p" "text-slate-300 mb-8 leading-relaxed"
                [Text "Set your Google Gemini API key to unlock DAssigner's full creative potential and start designing instantly."];
              El "button" (obj [("onClick", AHandler ClickConfigureKey);
                                ("className", cls "bg-gradient-to-r from-cyan-500 to-blue-500 text-white font-bold py-4 px-8 rounded-xl hover:from-cyan-400 hover:to-blue-400 transition-all duration-300 transform hover:scale-105 active:scale-95 shadow-lg shadow-cyan-500/40 w-full sm:w-auto")])
                [Text "Configure API Key"]]]));
     El "div" (obj [("className", AClass (classTokens "w-full max-w-6xl transition-all duration-500" ++
                      classTokens (if negb isApiKeySet then "opacity-50 pointer-events-none scale-95" else "opacity-100 scale-100")))])
       [elc "div" "text-center mb-8"
          [elc "h3" "text-2xl font-bold text-slate-700 dark:text-slate-200 mb-2" [Text "Kickstart Your Design Journey"];
           elc "p" "text-slate-600 dark:text-slate-400" [Text "Choose from these inspiring examples to see DAssigner in action"]];
        elc "div" "grid grid-cols-1 md:grid-cols-2 lg:grid-cols-3 gap-8"
          (imap (fun i ex =>
             El "div" (obj [("key", ANum (Z.of_nat i));
                            ("className", cls "group bg-white/80 dark:bg-slate-900/60 backdrop-blur-sm p-8 rounded-2xl border border-slate-200/50 dark:border-cyan-400/20 hover:border-cyan-400/50 transition-all duration-300 transform hover:-translate-y-2 hover:shadow-2xl hover:shadow-cyan-900/30 flex flex-col relative overflow-hidden")])
               [elc "div" "absolute inset-0 bg-gradient-to-br from-cyan-500/5 to-blue-500/5 opacity-0 group-hover:opacity-100 transition-opacity duration-300" [];
                elc "div" "relative z-10 flex-grow"
                  [elc "div" "flex items-center justify-between mb-6"
                     [SparklesIcon (iconCls "w-7 h-7 text-cyan-400 group-hover:text-cyan-300 transition-colors");
                      elc "div" "w-8 h-8 bg-gradient-to-br from-cyan-500/20 to-blue-500/20 rounded-full flex items-center justify-center group-hover:scale-110 transition-transform"
                        [elc "span" "text-xs font-bold text-cyan-400" [Text (N_to_string (N.of_nat (i + 1)))]]];
                   elc "p" "text-base font-medium text-slate-700 dark:text-slate-300 leading-relaxed mb-8"
                     [Text dq; Text (ExampleItem.prompt ex); Text dq]];
                El "button" (obj [("onClick", AHandler (ClickExample i));
                                  ("className", cls "relative z-10 w-full bg-gradient-to-r from-cyan-600/10 to-blue-600/10 text-cyan-700 dark:text-cyan-400 font-semibold text-sm py-3 px-6 rounded-xl hover:from-cyan-600/20 hover:to-blue-600/20 transition-all duration-300 transform hover:scale-105 active:scale-95 border border-cyan-500/20 hover:border-cyan-500/40")])
                  [Text "Try This Example"]])
             inspirationExamples)]].

Definition LoadingState : Node MainEvent :=
  elc "div" "flex flex-col items-center justify-center h-full text-center text-slate-500 dark:text-slate-400 p-8"
    [elc "div" "relative w-32 h-32 mb-8"
       [elc "div" "absolute inset-0 rounded-full bg-gradient-to-r from-cyan-400/20 to-blue-500/20 blur-xl animate-pulse" [];
        DAssignerLogoIcon (iconCls "absolute inset-0 m-auto w-16 h-16 text-cyan-400 animate-pulse drop-shadow-[0_0_15px_rgba(34,211,238,0.8)]");
        elc "div" "absolute inset-0 w-full h-full border-4 border-cyan-500/20 rounded-full" [];
        elc "div" "absolute inset-0 w-full h-full border-4 border-cyan-500 border-t-transparent rounded-full animate-spin" []];
     elc "h2" "text-3xl font-bold text-slate-800 dark:text-white mb-4" [Text "Crafting Your Vision"];
     elc "p" "max-w-md text-lg text-slate-600 dark:text-slate-300"
       [Text "Our AI is designing something amazing for you. This might take a moment."];
     elc "div" "mt-6 flex items-center gap-2"
       [elc "div" "flex gap-1"
          [elc "div" "w-2 h-2 bg-cyan-400 rounded-full animate-bounce" [];
           El "div" (obj [("className", cls "w-2 h-2 bg-cyan-400 rounded-full animate-bounce"); ("style", AStyle [("animationDelay", "0.1s")])]) [];
           El "div" (obj [("className", cls "w-2 h-2 bg-cyan-400 rounded-full animate-bounce"); ("style", AStyle [("animationDelay", "0.2s")])]) []]]].

Definition DeviceButton (v : MainView.t) (width deviceName tooltipText : string)
    (children : list (Node MainEvent)) : Node MainEvent :=
  El "button" (obj [("onClick", AHandler (ClickDevice width));
                    ("className", AClass (classTokens "group relative p-1 rounded-lg transition-all duration-200" ++
                       classTokens (if String.eqb (MainView.previewWidth v) width
                                    then "bg-gradient-to-r from-cyan-500/20 to-blue-500/20 text-cyan-500 shadow-lg shadow-cyan-500/20"
                                    else "text-slate-500 hover:bg-slate-200 dark:hover:bg-slate-800 hover:text-slate-700 dark:hover:text-slate-300")));
                    ("aria-label", AStr ("Switch to " +:+ deviceName +:+ " view")); ("title", AStr tooltipText)])
    (children ++
     [elc "div" "absolute -top-10 left-1/2 transform -translate-x-1/2 bg-slate-900 text-white text-xs px-2 py-1 rounded opacity-0 group-hover:opacity-100 transition-opacity duration-200 pointer-events-none whitespace-nowrap"
        [Text tooltipText]]).

Definition tabClass (active : bool) : AttrVal MainEvent :=
  AClass (classTokens "flex items-center gap-2 px-4 py-2 rounded-lg text-sm font-medium transition-all duration-200" ++
          classTokens (if active then "bg-white dark:bg-slate-800 text-cyan-600 dark:text-cyan-400 shadow-lg shadow-cyan-500/20"
                       else "text-slate-500 dark:text-slate-400 hover:text-slate-700 dark:hover:text-slate-300")).

Definition isVisual (t : Tab) : bool := match t with Visual => true | Code => false end.

(** The design screen of [renderInnerContent] (lines 229-308). *)
Definition designScreen (s : AppState.t) (v : MainView.t) (d : DesignOutput.t) : Node MainEvent :=
  let visual := isVisual (MainView.activeTab v) in
  elc "div" "flex flex-col w-full h-full"
    [elc "div" "flex-shrink-0 px-4 sm:px-8 pt-6 pb-4 border-b border-slate-200/50 dark:border-cyan-400/20 bg-white/80 dark:bg-slate-950/80 backdrop-blur-sm"
       [elc "div" "flex items-center justify-between"
          [elc "div" "flex items-center bg-slate-100 dark:bg-slate-900/50 p-1 rounded-xl"
             [El "button" (obj [("onClick", AHandler ClickVisualTab); ("className", tabClass visual)])
                [EyeIcon (iconCls "w-4 h-4");
                 elc "span" "hidden sm:inline" [Text "Visual Preview"];
                 elc "span" "sm:hidden" [Text "Visual"]];
              El "button" (obj [("onClick", AHandler ClickCodeTab); ("className", tabClass (negb visual))])
                [CodeBracketIcon (iconCls "w-4 h-4");
                 elc "span" "hidden sm:inline" [Text "Code"];
                 elc "span" "sm:hidden" [Text "Code"]]];
           elc "div" "flex items-center gap-4"
             ((if visual then
                 [elc "div" "hidden sm:flex items-center gap-1 bg-slate-100 dark:bg-slate-900/50 p-1 rounded-xl"
                    [DeviceButton v "375px" "Mobile" "Mobile View (375px)" [DevicePhoneMobileIcon (iconCls "w-5 h-5")];
                     DeviceButton v "768px" "Tablet" "Tablet View (768px)" [DeviceTabletIcon (iconCls "w-5 h-5")];
                     DeviceButton v "100%" "Desktop" "Desktop View (100%)" [ComputerDesktopIcon (iconCls "w-5 h-5")]]]
               else []) ++
              (if isLoading s then
                 [elc "div" "flex items-center gap-3 text-sm text-cyan-500 dark:text-cyan-400 bg-cyan-50 dark:bg-cyan-900/20 px-4 py-2 rounded-xl"
                    [elc "div" "w-4 h-4 border-2 border-cyan-300 border-t-transparent rounded-full animate-spin" [];
                     elc "span" "font-medium" [Text "Updating..."]]]
               else []))]];
     elc "div" "flex-1 overflow-y-auto p-4 md:p-8 bg-gradient-to-br from-slate-50 to-slate-100 dark:from-slate-950 dark:to-slate-900 pattern-bg"
       [elc "div" "max-w-7xl mx-auto"
          [if visual then
             El "VisualPreview" (obj [("htmlCode", AStr (DesignOutput.htmlCode d)); ("previewWidth", AStr (MainView.previewWidth v))]) []
           else
             El "CodePreview" (obj [("htmlCode", AStr (DesignOutput.htmlCode d)); ("isConverting", ABool (isConvertingCode s))]) []]]].

(** [renderInnerContent()] as an element (lines 216-310). *)
Definition innerContent (s : AppState.t) (v : MainView.t) : Node MainEvent :=
  match activeDesign s with
  | None => if isLoading s then LoadingState else WelcomeState (keySet s)
  | Some d => designScreen s v d
  end.

(** The element [MainContent] returns (lines 312-354). *)
Definition renderMain (s : AppState.t) (v : MainView.t) : Node MainEvent :=
  elc "main" "lg:ml-96 flex-1 flex flex-col min-h-screen bg-gradient-to-br from-slate-50 to-slate-100 dark:from-slate-950 dark:to-slate-900"
    [elc "header" "lg:hidden flex items-center justify-between p-4 border-b border-slate-200/50 dark:border-cyan-400/20 sticky top-0 bg-white/90 dark:bg-slate-950/90 backdrop-blur-md z-50"
       [if isSidebarOpen s then
          El "button" (obj [("onClick", AHandler ClickMenu);
                            ("className", cls "p-2 rounded-xl text-slate-500 dark:text-slate-400 hover:bg-slate-200 dark:hover:bg-cyan-400/10 transition-all duration-200");
                            ("aria-label", AStr "Close menu")]) [XMarkIcon (iconCls "w-6 h-6")]
        else
          El "button" (obj [("onClick", AHandler ClickMenu);
                            ("className", cls "p-2 rounded-xl text-slate-500 dark:text-slate-400 hover:bg-slate-200 dark:hover:bg-cyan-400/10 transition-all duration-200");
                            ("aria-label", AStr "Open menu")]) [Bars3Icon (iconCls "w-6 h-6")];
        elc "div" "flex items-center gap-3"
          [elc "div" "bg-gradient-to-r from-cyan-500 to-blue-500 p-2 rounded-xl shadow-lg shadow-cyan-500/30"
             [DAssignerLogoIcon (iconCls "w-5 h-5 text-white")];
           elc "h1" "text-xl font-bold text-slate-800 dark:text-slate-100 tracking-tight" [Text "DAssigner AI"]];
        El "button" (obj [("onClick", AHandler ClickSettings);
                          ("className", cls "p-2 rounded-xl text-slate-500 dark:text-slate-400 hover:bg-slate-200 dark:hover:bg-cyan-400/10 transition-all duration-200");
                          ("aria-label", AStr "Open settings")]) [Cog6ToothIcon (iconCls "w-6 h-6")]];
     innerContent s v].


#[export] Instance MainEvent_eq_dec : EqDecision MainEvent.
Proof. solve_decision. Defined.

(** The click events the panel's controls can carry. *)
Definition mouseEvents : list MainEvent :=
  [ClickVisualTab; ClickCodeTab; ClickDevice "375px"; ClickDevice "768px"; ClickDevice "100%";
   ClickExample 0; ClickExample 1; ClickExample 2; ClickConfigureKey; ClickMenu; ClickSettings].

Definition accepts (s : AppState.t) (v : MainView.t) (e : MainEvent) : bool :=
  match mainHandler s e v with Some _ => true | None => false end.

Definition isKeyExample (e : MainEvent) : bool :=
  match e with KeyExample _ => true | _ => false end.

(** The handlers of the mouse-reachable controls, and of all controls. *)
Definition mouseHandlers (s : AppState.t) (v : MainView.t) : list MainEvent :=
  omap clickHandler (mouseReachable (renderMain s v)).
Definition allHandlers (s : AppState.t) (v : MainView.t) : list MainEvent :=
  omap clickHandler (descendants (renderMain s v)).

(** The widths the panel's state can hold: the initial one and those the
    device buttons set. *)
Definition viewOk (v : MainView.t) : Prop := MainView.previewWidth v ∈ deviceWidths.

(** The three checks the theorem below makes, as one computation. *)
Definition renderChecks (s : AppState.t) (v : MainView.t) : bool :=
  let mh := mouseHandlers s v in
  let ah := allHandlers s v in
  forallb (fun e => accepts s v e && negb (isKeyExample e)) mh &&
  forallb (fun e => implb (accepts s v e) (bool_decide (e ∈ mh))) mouseEvents &&
  forallb (fun i => Bool.eqb (accepts s v (KeyExample i)) (bool_decide (ClickExample i ∈ ah))) [0; 1; 2] &&
  forallb (fun e => match e with ClickExample i => i <? 3 | _ => true end) ah.

(** ** Lemmas *)

(** Every event the panel fires from a mouse click passes the guards of
    [Ui.v]; in particular an example is loaded only from the welcome screen
    and with a key. *)
Lemma main_click_events_allowed c ev v v' evs :
  (forall i, ev <> KeyExample i) ->
  mainHandler (World.st (world c)) ev v = Some (v', evs) -> Forall (fun e => uiAllowed e c = true) evs.
Proof.
  intros Hk. destruct ev; [..|by destruct (Hk i)| | |]; cbn;
    unfold renderInnerContent; repeat case_match; intros; simplify_eq; repeat constructor.
  cbn. unfold canLoadExample, hasDesign, isApiKeySet. by repeat match goal with H : _ = _ |- _ => rewrite H end.
Qed.

(** A loaded example is what the panel then shows. *)
Lemma load_example_shown now s v ex pid :
  renderInnerContent (appReducer now s (LOAD_EXAMPLE ex pid)) v
  = DesignScreen (DesignOutput.mk (ExampleItem.htmlCode ex)) (MainView.activeTab v).
Proof. by destruct s. Qed.

(** From the keyboard, an example is loaded on the welcome screen without
    a key, which the pointer guard of [Ui.v] does not allow. *)
Lemma key_example_without_key :
  exists ex, mainHandler initialState (KeyExample 0) mountMain = Some (mountMain, [LoadExample ex]) /\
    uiAllowed (LoadExample ex) (mkConfig (World.mk initialState [] ∅ None) []) = false.
Proof. eexists. split; reflexivity. Qed.

Lemma mountMain_ok : viewOk mountMain.
Proof. unfold viewOk. cbn. set_solver. Qed.

Lemma mainHandler_viewOk s e v v' evs :
  viewOk v -> mainHandler s e v = Some (v', evs) -> viewOk v'.
Proof.
  unfold viewOk. intros Hv. destruct e; cbn; repeat case_match; intros; simplify_eq; cbn; try done.
  match goal with H : bool_decide _ = true |- _ => by apply bool_decide_eq_true in H end.
Qed.

Ltac destruct_main_state s :=
  destruct s as [[[|? ?]|] ? [] [] ? ? ? [?|] ? ? ? ? ?].

Lemma renderChecks_all s v : viewOk v -> renderChecks s v = true.
Proof.
  destruct v as [t w]. unfold viewOk, deviceWidths. cbn. intros Hw.
  repeat (apply elem_of_cons in Hw as [->|Hw]); [..|by apply elem_of_nil in Hw];
    destruct t; destruct_main_state s; vm_compute; reflexivity.
Qed.

Lemma accepts_example_lt s v i : accepts s v (KeyExample i) = true -> i < 3.
Proof.
  unfold accepts. cbn. repeat case_match; try done. intros _.
  match goal with H : inspirationExamples !! _ = Some _ |- _ => apply lookup_lt_Some in H end.
  done.
Qed.

Lemma accepts_mouse_candidates s v e :
  accepts s v e = true -> isKeyExample e = false -> e ∈ mouseEvents.
Proof.
  unfold accepts, mouseEvents. destruct e; cbn; repeat case_match; try done; intros ? ?; try set_solver.
  - match goal with H : bool_decide _ = true |- _ => apply bool_decide_eq_true in H end.
    unfold deviceWidths in *. set_solver.
  - match goal with H : inspirationExamples !! _ = Some _ |- _ => apply lookup_lt_Some in H end.
    cbn in *. destruct i as [|[|[|i]]]; [set_solver..|lia].
Qed.

(** The conjuncts of [renderChecks_all], one by one. *)
Lemma renderChecks_parts s v :
  viewOk v ->
  (forall e, In e (mouseHandlers s v) -> accepts s v e = true /\ isKeyExample e = false) /\
  (forall e, In e mouseEvents -> accepts s v e = true -> e ∈ mouseHandlers s v) /\
  (forall i, In i [0; 1; 2] -> accepts s v (KeyExample i) = bool_decide (ClickExample i ∈ allHandlers s v)) /\
  (forall i, In (ClickExample i) (allHandlers s v) -> i < 3).
Proof.
  intros Hv. pose proof (renderChecks_all s v Hv) as H. unfold renderChecks in H.
  apply andb_prop in H as [H H4]. apply andb_prop in H as [H H3]. apply andb_prop in H as [H1 H2].
  rewrite forallb_forall in H1, H2, H3, H4. split_and!.
  - intros e He. apply H1, andb_prop in He as [-> ?%negb_true_iff]. done.
  - intros e He Ha. specialize (H2 e He). rewrite Ha in H2. by apply bool_decide_eq_true in H2.
  - intros i Hi. by apply Bool.eqb_prop, H3.
  - intros i Hi. specialize (H4 _ Hi). cbn in H4. apply Nat.leb_le in H4. lia.
Qed.

Lemma mouseHandlers_spec s v e :
  viewOk v -> e ∈ mouseHandlers s v <-> accepts s v e = true /\ isKeyExample e = false.
Proof.
  intros Hv. destruct (renderChecks_parts s v Hv) as (H1 & H2 & _). split.
  - intros He%list_elem_of_In. by apply H1.
  - intros [Ha Hk]. apply H2; [|done]. apply list_elem_of_In, (accepts_mouse_candidates s v e Ha Hk).
Qed.

Lemma allHandlers_key s v i :
  viewOk v -> accepts s v (KeyExample i) = true <-> ClickExample i ∈ allHandlers s v.
Proof.
  intros Hv. destruct (renderChecks_parts s v Hv) as (_ & _ & H3 & H4).
  destruct (decide (i < 3)) as [Hi|Hi].
  - rewrite H3 by (cbn; lia). by rewrite bool_decide_eq_true.
  - split; [intros ?%accepts_example_lt; lia|]. intros He%list_elem_of_In. apply H4 in He. lia.
Qed.

(** ** Claims *)

(** C31: [sanitizeHtml] removes an event-handler attribute only when its
    value is quoted.  A reply whose markup is an image with an unquoted
    [onerror] handler passes [sendMessageToChat] unchanged and valid,
    becomes the displayed design, is handed to the visual preview, and the
    preview's copy button (like its download button) inserts it with
    [innerHTML] into the application's own document, outside the iframe's
    sandbox, where the handler runs. *)
Theorem unquoted_handler_reaches_document now s v pv chat prompt :
  blank prompt = false -> MainView.activeTab v = Visual ->
  PreviewState.isCopying pv = false -> PreviewState.copySuccess pv = false ->
  sendMessageToChat (fun _ => Resolved (Some unquotedHandlerReply)) (Some chat) prompt
    = Ok unquotedHandlerReply /\
  previewProps (appReducer now s (GENERATION_SUCCESS (DesignOutput.mk unquotedHandlerReply) prompt)) v
    = Some (unquotedHandlerReply, MainView.previewWidth v) /\
  insertedIntoDocument unquotedHandlerReply pv CopyClick = Some (generateCanvasContainer unquotedHandlerReply).
Proof.
  intros Hb Hv Hc Hs. split_and!.
  - cbn [sendMessageToChat]. rewrite Hb. vm_compute. reflexivity.
  - destruct s. unfold previewProps, renderInnerContent. cbn. by rewrite Hv.
  - destruct pv as [c sc d f l]. cbn in *. by subst.
Qed.

(** C33: The controls the main panel renders are those its handler
    accepts.  In a view whose width is one the device buttons set, an
    event is the click handler of a control the mouse can reach (outside
    every [pointer-events-none] element) exactly when [mainHandler]
    accepts it as a click; and [mainHandler] accepts the keyboard
    activation of an example exactly when the example's button is
    rendered at all: without a key the buttons are rendered, enabled, under
    [pointer-events-none], which stops the mouse and not the keyboard. *)
Theorem main_controls_match_handler s v :
  viewOk v ->
  (forall e, e ∈ mouseHandlers s v <-> accepts s v e = true /\ isKeyExample e = false) /\
  (forall i, accepts s v (KeyExample i) = true <-> ClickExample i ∈ allHandlers s v).
Proof. intros Hv. split; intros; [apply mouseHandlers_spec|apply allHandlers_key]; done. Qed.

(** ** Witnesses *)

Lemma unquoted_handler_reaches_document_witness :
  insertedIntoDocument unquotedHandlerReply mountPreview CopyClick
    = Some (generateCanvasContainer unquotedHandlerReply).
Proof.
  destruct (unquoted_handler_reaches_document 7 initialState mountMain mountPreview demoChat "a logo"
              eq_refl eq_refl eq_refl eq_refl) as (_ & _ & H).
  exact H.
Defined.

Lemma main_controls_match_handler_witness :
  ClickExample 0 ∈ allHandlers initialState mountMain /\
  ClickExample 0 ∉ mouseHandlers initialState mountMain.
Proof.
  destruct (main_controls_match_handler initialState mountMain mountMain_ok) as [Hm Hk]. split.
  - apply Hk. reflexivity.
  - rewrite Hm. intros [Ha _]. discriminate Ha.
Defined.
