(* ===== verification/Layout.v ===== *)
(** The root of the application in [src/App.tsx]: [App] (lines 505-514)
    renders, inside the provider, the notifications ([ToastContainer]) and
    [AppLayout] (lines 516-536): the overlay that closes the sidebar on
    small screens (while the sidebar is open), the [Sidebar], the
    [MainContent] panel, the [SettingsModal] (while it is open) and the
    analytics component.

    The panel's tree is [MainContent.renderMain] and the notifications'
    tree is [Toast.ToastContainer], placed with [node_map] so that their
    handlers become [LayoutEvent]s; the sidebar, the dialog and the
    analytics component are kept as elements (their controls are
    modelled in [Sidebar.v] and [Settings.v]).

    The theorem: every control of this tree that the mouse can reach (the
    overlay, the notifications' and the main panel's controls) fires only
    events the components' guards of [Ui.v] allow, when the main panel's
    width is one its buttons set. *)

From S2P Require Import Prelude Dom Types Reducer Toast App Ui MainContent.
Import AppState.

Inductive LayoutEvent :=
| OverlayClick                 (** the overlay's [onClick] (line 524) *)
| OnToast (e : ToastEvent)     (** a control of a notification *)
| OnMain (e : MainEvent).      (** a control of the main panel *)

(** The overlay of [AppLayout] (lines 521-529). *)
Definition overlay : Node LayoutEvent :=
  El "div" (obj [("className", cls "fixed inset-0 bg-black/60 z-20 lg:hidden");
                 ("onClick", AHandler OverlayClick); ("aria-hidden", AStr "true");
                 ("role", AStr "button"); ("tabIndex", ANum 0)]) [].

(** The fragment [AppLayout] returns (lines 519-535). *)
Definition AppLayout (s : AppState.t) (mv : MainView.t) : list (Node LayoutEvent) :=
  (if isSidebarOpen s then [overlay] else []) ++
  [El "Sidebar" ∅ []; node_map OnMain (renderMain s mv)] ++
  (if isSettingsOpen s then [El "SettingsModal" ∅ []] else []) ++
  [El "Analytics" ∅ []].

(** [App] (lines 505-514); [AppContextProvider] renders its children
    (lines 498-502). *)
Definition renderApp (s : AppState.t) (viewOf : Toast.t -> ToastView.t) (mv : MainView.t)
    : Node LayoutEvent :=
  elc "div" "relative min-h-screen w-full font-sans text-slate-800 dark:text-slate-200"
    ((match ToastContainer s viewOf with Some n => [node_map OnToast n] | None => [] end) ++
     AppLayout s mv).

(** The application events a click fires: the overlay dispatches
    [SET_IS_SIDEBAR_OPEN false]; a notification's controls change only
    its own state (its removal is dispatched later by [onDismiss]); the
    panel's are [mainHandler]'s. *)
Definition layoutEvents (s : AppState.t) (mv : MainView.t) (e : LayoutEvent) : option (list Event) :=
  match e with
  | OverlayClick => Some [UiDispatch (SET_IS_SIDEBAR_OPEN false)]
  | OnToast _ => Some []
  | OnMain e' => snd <$> mainHandler s e' mv
  end.

Definition appMouseHandlers (s : AppState.t) (viewOf : Toast.t -> ToastView.t) (mv : MainView.t) :=
  omap clickHandler (mouseReachable (renderApp s viewOf mv)).

(** ** Lemmas *)

Lemma appMouseHandlers_split s viewOf mv :
  appMouseHandlers s viewOf mv =
    (match ToastContainer s viewOf with
     | Some n => OnToast <$> omap clickHandler (reachable_go true n) | None => [] end) ++
    (if isSidebarOpen s then [OverlayClick] else []) ++
    (OnMain <$> mouseHandlers s mv).
Proof.
  unfold appMouseHandlers, mouseReachable, renderApp.
  rewrite reachable_handlers_elc.
  change (pointerEvents true (obj [("className", cls (E:=LayoutEvent) "relative min-h-screen w-full font-sans text-slate-800 dark:text-slate-200")])) with true.
  rewrite map_app, concat_app. f_equal.
  { destruct (ToastContainer s viewOf); cbn; [by rewrite reachable_handlers_map, app_nil_r|done]. }
  unfold AppLayout. rewrite !map_app, !concat_app.
  assert (Ho : omap clickHandler (reachable_go true overlay) = [OverlayClick]) by reflexivity.
  assert (He : forall t, omap clickHandler (reachable_go true (El (E:=LayoutEvent) t ∅ [])) = []) by reflexivity.
  destruct (isSidebarOpen s), (isSettingsOpen s); cbn [app concat map];
    rewrite ?Ho, ?He, reachable_handlers_map; unfold mouseHandlers, mouseReachable; by rewrite ?app_nil_r.
Qed.

Lemma toastPart_only_toasts s viewOf e :
  e ∈ (match ToastContainer s viewOf with
       | Some n => OnToast <$> omap clickHandler (reachable_go true n) | None => [] end) ->
  exists t, e = OnToast t.
Proof.
  destruct (ToastContainer s viewOf); [|by intros ?%elem_of_nil].
  intros (t & -> & _)%list_elem_of_fmap. by exists t.
Qed.

Lemma appMouseHandlers_overlay s viewOf mv :
  OverlayClick ∈ appMouseHandlers s viewOf mv <-> isSidebarOpen s = true.
Proof.
  rewrite appMouseHandlers_split, !elem_of_app. split.
  - intros [(? & ?)%toastPart_only_toasts|[H|(? & ? & _)%list_elem_of_fmap]]; try discriminate.
    destruct (isSidebarOpen s); [done|by apply elem_of_nil in H].
  - intros ->. right. left. by apply list_elem_of_singleton.
Qed.

Lemma appMouseHandlers_main s viewOf mv e :
  OnMain e ∈ appMouseHandlers s viewOf mv <-> e ∈ mouseHandlers s mv.
Proof.
  rewrite appMouseHandlers_split, !elem_of_app. split.
  - intros [(? & ?)%toastPart_only_toasts|[H|(e' & [= ->] & ?)%list_elem_of_fmap]]; [discriminate| |done].
    destruct (isSidebarOpen s); [|by apply elem_of_nil in H]. by apply list_elem_of_singleton in H.
  - intros He. right. right. apply list_elem_of_fmap. by exists e.
Qed.

(** ** Claims *)

(** C34: In the tree [App] renders, every control the mouse can reach
    is the overlay, a control of a notification or a control of the main
    panel outside [pointer-events-none]; a click on it fires only events
    the guards of [Ui.v] allow: the overlay closes the sidebar, a
    notification's controls fire no application event (its removal is
    dispatched later, by the timer [onDismiss]), and the panel's controls
    fire what [mainHandler] gives, provided the panel's width is one its
    device buttons set.  The sidebar and the dialog are elements of this
    tree without children; their controls are checked against the same
    guards in [Sidebar.v] and [Settings.v]. *)
Theorem app_clicks_allowed c viewOf mv :
  viewOk mv ->
  (OverlayClick ∈ appMouseHandlers (World.st (world c)) viewOf mv <-> isSidebarOpen (World.st (world c)) = true) /\
  (forall e, OnMain e ∈ appMouseHandlers (World.st (world c)) viewOf mv <-> e ∈ mouseHandlers (World.st (world c)) mv) /\
  Forall (fun e => exists evs, layoutEvents (World.st (world c)) mv e = Some evs /\
                               Forall (fun ev => uiAllowed ev c = true) evs)
    (appMouseHandlers (World.st (world c)) viewOf mv).
Proof.
  intros Hv. split; [apply appMouseHandlers_overlay|]. split; [apply appMouseHandlers_main|].
  rewrite appMouseHandlers_split, !Forall_app. split_and!.
  - destruct (ToastContainer _ _); [|constructor].
    apply Forall_fmap, Forall_true. intros e. exists []. split; [done|constructor].
  - destruct (isSidebarOpen _); repeat constructor. eexists. split; [reflexivity|]. repeat constructor.
  - apply Forall_fmap, Forall_forall. intros e He.
    apply (mouseHandlers_spec _ _ _ Hv) in He as [Ha Hk].
    unfold accepts in Ha. destruct (mainHandler _ e mv) as [[v' evs]|] eqn:E; [|done].
    exists evs. split; [by cbn; rewrite E|].
    eapply main_click_events_allowed; [|exact E]. intros i ->. discriminate.
Qed.

(** C40: Notification ids come from the clock ([addToast], lines
    337-340, uses [Date.now().toString()]): two notifications the
    application adds in the same millisecond get the same id, and
    [ToastContainer], which keys one child per notification by its id in
    order, renders them under the same React key. *)
Theorem same_tick_toasts_share_key now w viewOf m1 m2 ty1 ty2 :
  let w' := snd ((addToast now m1 ty1 ;; addToast now m2 ty2) w) in
  exists n, ToastContainer (World.st w') viewOf = Some n /\
    childKeys n = map Toast.id (toasts (World.st w)) ++ [N_to_string now; N_to_string now] /\
    ~ NoDup (childKeys n).
Proof.
  intros w'.
  assert (Hs : toasts (World.st w') = toasts (World.st w) ++
                 [Toast.mk (N_to_string now) m1 ty1; Toast.mk (N_to_string now) m2 ty2]).
  { destruct w as [[] ? ? ?]. cbn. by rewrite <- app_assoc. }
  destruct (ToastContainer (World.st w') viewOf) as [n|] eqn:E.
  - exists n. split; [done|]. rewrite (ToastContainer_keys _ _ _ E), Hs, map_app. split; [done|].
    intros Hnd. apply NoDup_app in Hnd as (_ & _ & Hnd). apply NoDup_cons in Hnd as [Hnd _]. set_solver.
  - apply ToastContainer_none in E. rewrite Hs in E. by destruct (toasts (World.st w)).
Qed.

(** ** Witnesses *)

Lemma app_clicks_allowed_witness :
  Forall (fun e => exists evs, layoutEvents initialState mountMain e = Some evs /\
                               Forall (fun ev => uiAllowed ev (mkConfig (World.mk initialState [] ∅ None) []) = true) evs)
    (appMouseHandlers initialState (fun _ => mount) mountMain).
Proof.
  exact (proj2 (proj2 (app_clicks_allowed (mkConfig (World.mk initialState [] ∅ None) []) (fun _ => mount)
                         mountMain mountMain_ok))).
Defined.
