(* ===== verification/Settings.v ===== *)
(** The API key dialog of [src/components/SettingsModal.tsx], mounted while
    [isSettingsOpen] holds (App.tsx line 532): its local state
    ([SettingsView.t], lines 8-10), its controls ([SettingsEvent]) and
    their guards and handlers ([settingsHandler]), which return the new
    local state and the events the dialog fires at the context
    ([handleSaveApiKey], or a dispatch).

    The lemmas show that every event the dialog fires passes the guard
    [uiAllowed] of [Ui.v], and that the dialog never calls
    [handleSaveApiKey] with an empty key: the branch of [handleSaveApiKey]
    that clears the key cannot be reached from the interface. *)

From S2P Require Import Prelude Types Reducer Service App Ui.
Import AppState.

Module SettingsView.
Record t := mk {
  apiKeyInput : string;
  showKey : bool;
  isSaved : bool
}.
End SettingsView.
Import SettingsView.

(** [useState(apiKey || '')], [useState(false)], [useState(false)]. *)
Definition mountSettings (s : AppState.t) : SettingsView.t :=
  SettingsView.mk (match apiKey s with Some k => k | None => "" end) false false.

(** [const isDismissable = !!apiKey] (line 12). *)
Definition isDismissable (s : AppState.t) : bool := keySet s.

(** [onClose] (lines 14-18). *)
Definition onClose (s : AppState.t) : list Event :=
  if isDismissable s then [UiDispatch (SET_IS_SETTINGS_OPEN false)] else [].

(** [handleSaveClick] (lines 32-38); the [setTimeout] that clears
    [isSaved] is the event [SavedTimeout]. *)
Definition handleSaveClick (v : SettingsView.t) : SettingsView.t * list Event :=
  if js_truthy (js_trim (apiKeyInput v))
  then (SettingsView.mk (apiKeyInput v) (showKey v) true, [SaveApiKey (Some (js_trim (apiKeyInput v)))])
  else (v, []).

Inductive SettingsEvent :=
| TypeKey (text : string)   (** the key input, line 106 *)
| EnterKey                  (** [handleKeyDown] (lines 40-44) *)
| ToggleShowKey             (** line 95 *)
| ClearInput                (** rendered when the input is not empty, lines 112-114 *)
| ClickSave                 (** disabled without a key, lines 170-171 *)
| ClickClose                (** the header button (rendered when dismissable) and Cancel (lines 63-65, 157-159) *)
| ClickBackdrop             (** line 49 *)
| EscapeKey                 (** the window listener, lines 20-30 *)
| SavedTimeout.             (** [setTimeout(() => setIsSaved(false), 3000)] *)

Definition settingsHandler (s : AppState.t) (ev : SettingsEvent) (v : SettingsView.t)
    : option (SettingsView.t * list Event) :=
  match ev with
  | TypeKey text => Some (SettingsView.mk text (showKey v) (isSaved v), [])
  | EnterKey => if js_truthy (js_trim (apiKeyInput v)) then Some (handleSaveClick v) else Some (v, [])
  | ToggleShowKey => Some (SettingsView.mk (apiKeyInput v) (negb (showKey v)) (isSaved v), [])
  | ClearInput =>
      if js_truthy (apiKeyInput v) then Some (SettingsView.mk "" (showKey v) (isSaved v), []) else None
  | ClickSave => if js_truthy (js_trim (apiKeyInput v)) then Some (handleSaveClick v) else None
  | ClickClose => if isDismissable s then Some (v, onClose s) else None
  | ClickBackdrop => Some (v, onClose s)
  | EscapeKey => Some (v, if isDismissable s then onClose s else [])
  | SavedTimeout => Some (SettingsView.mk (apiKeyInput v) (showKey v) false, [])
  end.

(** ** Lemmas *)

(** Every event the dialog fires passes the guards of [Ui.v]. *)
Lemma settings_events_allowed c ev v v' evs :
  settingsHandler (World.st (world c)) ev v = Some (v', evs) -> Forall (fun e => uiAllowed e c = true) evs.
Proof.
  destruct ev; cbn; unfold handleSaveClick, onClose; repeat case_match; intros; simplify_eq;
    repeat constructor.
  all: cbn; unfold savedKeyShape; rewrite js_trim_idem, String.eqb_refl, andb_true_r; done.
Qed.

(** The dialog calls [handleSaveApiKey] only with a trimmed, non-empty
    key, never with [null]. *)
Lemma settings_saves_nonempty s ev v v' evs key :
  settingsHandler s ev v = Some (v', evs) -> SaveApiKey key ∈ evs ->
  exists k, key = Some k /\ js_truthy k = true /\ js_trim k = k.
Proof.
  destruct ev; cbn; unfold handleSaveClick, onClose; repeat case_match; intros ? Hin; simplify_eq;
    repeat match goal with
      | H : _ ∈ [] |- _ => by inversion H
      | H : _ ∈ _ :: _ |- _ => apply elem_of_cons in H as [H|H]; simplify_eq
      end.
  all: eexists; split_and!; [reflexivity|done|apply js_trim_idem].
Qed.
