(* ===== verification/Sidebar.v ===== *)
(** The local state of [src/components/Sidebar.tsx] and its handlers,
    composed with the application's configuration of [App.v].

    [SidebarState.t] holds the component's [useState]s (lines 52-60).
    Every control of the rendered sidebar is an event of [SidebarEvent];
    [sidebarHandler] is its guard (the [disabled] attribute, or whether the
    control is rendered) followed by its click handler, and returns the new
    local state and the calls made to the context ([Output]): an event of
    [App.v] ([Fire]), [handleEnhancePrompt] or [getInspirationPrompts].
    After each render the two effects that depend on the application state
    run ([sidebarEffects]: the example fetch of lines 94-98 and the title
    sync of lines 128-130).  [sidebar_step] interleaves the sidebar's
    events, the other components' events, the settling of the application's
    calls and the settling of the sidebar's own calls.

    The voice recognition hook ([../hooks/useVoiceRecognition.ts]) is not
    in the repository: a transcript may arrive at any time while a key is
    set (the microphone button is disabled without one, line 434).
    Focus, scrolling and the click-outside listener only move focus or
    close the project list, and are not modelled. *)

From stdpp Require Import relations.
From S2P Require Import Prelude Types Reducer Repository Service App Async Ui.
Import AppState.

(** Lines 21-26. *)
Definition staticExamplePrompts : list string := [
  "A hero section for a crypto trading platform, dark theme, with glowing charts and a bold CTA.";
  "A pricing table for a SaaS product with a futuristic, cyberpunk aesthetic. Highlight the middle plan.";
  "A team members section with holographic profile cards.";
  "A contact form that looks like a futuristic terminal input."].

Module SidebarState.
Record t := mk {
  prompt : string;
  isEnhancing : bool;
  examplePrompts : list string;
  isLoadingExamples : bool;
  isEditingTitle : bool;
  localTitle : string;
  isProjectsOpen : bool;
  projectToDelete : option string;
  isDeleteModalOpen : bool
}.

Definition set_prompt x v := mk x (isEnhancing v) (examplePrompts v) (isLoadingExamples v)
  (isEditingTitle v) (localTitle v) (isProjectsOpen v) (projectToDelete v) (isDeleteModalOpen v).
Definition set_isEnhancing x v := mk (prompt v) x (examplePrompts v) (isLoadingExamples v)
  (isEditingTitle v) (localTitle v) (isProjectsOpen v) (projectToDelete v) (isDeleteModalOpen v).
Definition set_examplePrompts x v := mk (prompt v) (isEnhancing v) x (isLoadingExamples v)
  (isEditingTitle v) (localTitle v) (isProjectsOpen v) (projectToDelete v) (isDeleteModalOpen v).
Definition set_isLoadingExamples x v := mk (prompt v) (isEnhancing v) (examplePrompts v) x
  (isEditingTitle v) (localTitle v) (isProjectsOpen v) (projectToDelete v) (isDeleteModalOpen v).
Definition set_isEditingTitle x v := mk (prompt v) (isEnhancing v) (examplePrompts v)
  (isLoadingExamples v) x (localTitle v) (isProjectsOpen v) (projectToDelete v) (isDeleteModalOpen v).
Definition set_localTitle x v := mk (prompt v) (isEnhancing v) (examplePrompts v)
  (isLoadingExamples v) (isEditingTitle v) x (isProjectsOpen v) (projectToDelete v) (isDeleteModalOpen v).
Definition set_isProjectsOpen x v := mk (prompt v) (isEnhancing v) (examplePrompts v)
  (isLoadingExamples v) (isEditingTitle v) (localTitle v) x (projectToDelete v) (isDeleteModalOpen v).
Definition set_projectToDelete x v := mk (prompt v) (isEnhancing v) (examplePrompts v)
  (isLoadingExamples v) (isEditingTitle v) (localTitle v) (isProjectsOpen v) x (isDeleteModalOpen v).
Definition set_isDeleteModalOpen x v := mk (prompt v) (isEnhancing v) (examplePrompts v)
  (isLoadingExamples v) (isEditingTitle v) (localTitle v) (isProjectsOpen v) (projectToDelete v) x.
End SidebarState.
Import SidebarState.

(** The initial [useState] values (lines 52-60); [localTitle] starts as
    the session's title. *)
Definition initialView (chatTitle : string) : SidebarState.t :=
  SidebarState.mk "" false staticExamplePrompts false false chatTitle false None false.

(** A call the sidebar makes to the context or the service. *)
Inductive Output :=
| Fire (ev : Event)
| CallEnhance (prompt : string)     (** [handleEnhancePrompt(prompt)] *)
| CallInspiration.                  (** [getInspirationPrompts()] *)

(** [handleTranscriptUpdate] (lines 66-68). *)
Definition handleTranscriptUpdate (transcript : string) (v : SidebarState.t) : SidebarState.t :=
  set_prompt (if js_truthy (prompt v) then prompt v +:+ " " +:+ transcript else transcript) v.

(** [handleSubmit] (lines 72-78): the untrimmed prompt is sent. *)
Definition handleSubmit (s : AppState.t) (v : SidebarState.t) : SidebarState.t * list Output :=
  if js_truthy (js_trim (prompt v)) && isApiKeySet s
  then (set_prompt "" v, [Fire (SendMessage (prompt v))]) else (v, []).

(** [fetchExamples] up to its [await] (lines 80-84). *)
Definition fetchExamples (s : AppState.t) (v : SidebarState.t) : SidebarState.t * list Output :=
  if isApiKeySet s then (set_isLoadingExamples true v, [CallInspiration]) else (v, []).

(** The rest of [fetchExamples] (lines 85-91): the [try] or [catch]
    branch, then [finally]. *)
Definition examplesSettled (r : Result (list string)) (v : SidebarState.t) : SidebarState.t :=
  set_isLoadingExamples false
    (set_examplePrompts (match r with Ok prompts => prompts | Err _ => staticExamplePrompts end) v).

(** [handleExamplePromptClick] (lines 100-104). *)
Definition handleExamplePromptClick (s : AppState.t) (example : string) (v : SidebarState.t)
    : SidebarState.t * list Output :=
  if isApiKeySet s then (v, [Fire (GenerateFromNewProject example)]) else (v, []).

(** [handleEnhanceClick] up to its [await] (lines 106-110). *)
Definition handleEnhanceClick (s : AppState.t) (v : SidebarState.t) : SidebarState.t * list Output :=
  if negb (js_truthy (js_trim (prompt v))) || isEnhancing v || negb (isApiKeySet s) then (v, [])
  else (set_isEnhancing true v, [CallEnhance (prompt v)]).

(** The rest of [handleEnhanceClick] (lines 111-116). *)
Definition enhanceSettled (r : Result string) (v : SidebarState.t) : SidebarState.t :=
  set_isEnhancing false (match r with Ok enhancedPrompt => set_prompt enhancedPrompt v | Err _ => v end).

(** [handleTitleSave] (lines 119-126). *)
Definition handleTitleSave (s : AppState.t) (v : SidebarState.t) : SidebarState.t * list Output :=
  let '(v', outs) :=
    if js_truthy (js_trim (localTitle v))
    then (v, [Fire (UiDispatch (SET_CHAT_TITLE (js_trim (localTitle v))))])
    else (set_localTitle (chatTitle s) v, []) in
  (set_isEditingTitle false v', outs).

(** [handleDeleteClick] (lines 159-162). *)
Definition handleDeleteClick (projectId : string) (v : SidebarState.t) : SidebarState.t :=
  set_isDeleteModalOpen true (set_projectToDelete (Some projectId) v).

(** [confirmDeleteProject] (lines 164-170): [if (projectToDelete)] also
    refuses the empty string. *)
Definition confirmDeleteProject (v : SidebarState.t) : SidebarState.t * list Output :=
  match projectToDelete v with
  | Some projectId =>
      if js_truthy projectId
      then (set_projectToDelete None (set_isDeleteModalOpen false v), [Fire (DeleteProject projectId)])
      else (v, [])
  | None => (v, [])
  end.

(** The controls of the sidebar. *)
Inductive SidebarEvent :=
| TypePrompt (text : string)        (** the prompt textarea, lines 416-430 *)
| Dictate (transcript : string)     (** a transcript of the voice hook *)
| Submit                            (** the submit button or Enter, lines 424-428 and 493-495 *)
| ClickFetchExamples                (** lines 327-329 *)
| ClickExample (example : string)   (** lines 342-346 *)
| ClickEnhance                      (** lines 400-403 *)
| ClickEditTitle                    (** lines 229-231 *)
| TypeTitle (text : string)         (** line 219 *)
| SaveTitle                         (** blur or Enter, lines 220-221 *)
| ToggleProjects                    (** line 242 *)
| ClickLoad (projectId : string)    (** line 256 *)
| ClickDelete (projectId : string)  (** lines 278-281 *)
| ConfirmDelete                     (** line 197 *)
| CancelDelete                      (** line 191 *)
| ClickNewProject                   (** line 292 *)
| ClickSettings                     (** line 303 *)
| ClickCloseSidebar                 (** line 310 *)
| ClickRestore (itemId : string)    (** line 377 *)
| ToggleComponentMode.              (** lines 474-475 *)

(** The guard of each control, then its handler; [None] when the control
    is disabled or not rendered. *)
Definition sidebarHandler (w : World.t) (ev : SidebarEvent) (v : SidebarState.t)
    : option (SidebarState.t * list Output) :=
  let s := World.st w in
  let historyEmpty := match history s with [] => true | _ => false end in
  match ev with
  | TypePrompt text =>
      if isLoading s || isEnhancing v || negb (isApiKeySet s) then None else Some (set_prompt text v, [])
  | Dictate transcript => if isApiKeySet s then Some (handleTranscriptUpdate transcript v, []) else None
  | Submit =>
      if isLoading s || isEnhancing v || negb (isApiKeySet s) then None else Some (handleSubmit s v)
  | ClickFetchExamples =>
      if negb historyEmpty || isLoadingExamples v || negb (isApiKeySet s) then None
      else Some (fetchExamples s v)
  | ClickExample example =>
      if negb historyEmpty || isLoadingExamples v || negb (bool_decide (example ∈ examplePrompts v))
         || isLoading s || negb (isApiKeySet s) then None
      else Some (handleExamplePromptClick s example v)
  | ClickEnhance =>
      if isEnhancing v || negb (js_truthy (js_trim (prompt v))) || negb (isApiKeySet s) then None
      else Some (handleEnhanceClick s v)
  | ClickEditTitle => if isEditingTitle v || historyEmpty then None else Some (set_isEditingTitle true v, [])
  | TypeTitle text => if isEditingTitle v then Some (set_localTitle text v, []) else None
  | SaveTitle => if isEditingTitle v then Some (handleTitleSave s v) else None
  | ToggleProjects => Some (set_isProjectsOpen (negb (isProjectsOpen v)) v, [])
  | ClickLoad projectId =>
      if isProjectsOpen v && bool_decide (projectId ∈ Project.id <$> World.projects w)
      then Some (set_isProjectsOpen false v, [Fire (LoadProject projectId)]) else None
  | ClickDelete projectId =>
      if isProjectsOpen v && bool_decide (projectId ∈ Project.id <$> World.projects w)
      then Some (set_isProjectsOpen false (handleDeleteClick projectId v), []) else None
  | ConfirmDelete => if isDeleteModalOpen v then Some (confirmDeleteProject v) else None
  | CancelDelete => if isDeleteModalOpen v then Some (set_isDeleteModalOpen false v, []) else None
  | ClickNewProject =>
      if isProjectsOpen v then Some (set_isProjectsOpen false v, [Fire NewProject]) else None
  | ClickSettings => Some (v, [Fire (UiDispatch (SET_IS_SETTINGS_OPEN true))])
  | ClickCloseSidebar => Some (v, [Fire (UiDispatch (SET_IS_SIDEBAR_OPEN false))])
  | ClickRestore itemId =>
      if bool_decide (itemId ∈ HistoryItem.id <$> history s)
      then Some (v, [Fire (UiDispatch (RESTORE_VERSION itemId))]) else None
  | ToggleComponentMode =>
      if hasDesign s then Some (v, [Fire (UiDispatch (SET_IS_COMPONENT_MODE (negb (isComponentMode s))))])
      else None
  end.

(** The application and the sidebar: the calls to [handleEnhancePrompt]
    and [getInspirationPrompts] in flight, each with the client it read
    when it was called ([getAiClient] runs before the first [await]). *)
Record SConfig := mkS {
  app : Config;
  view : SidebarState.t;
  enhancing : list (AiClient * string);
  fetching : list AiClient
}.

Definition set_app (a : Config) (c : SConfig) : SConfig := mkS a (view c) (enhancing c) (fetching c).
Definition set_view (v : SidebarState.t) (c : SConfig) : SConfig := mkS (app c) v (enhancing c) (fetching c).

(** One call of the sidebar, made at the clock value [now]. *)
Definition deliver (now : N) (c : SConfig) (o : Output) : SConfig :=
  match o with
  | Fire ev => set_app (fire now ev (app c)) c
  | CallEnhance p => mkS (app c) (view c) (enhancing c ++ [(World.ai (world (app c)), p)]) (fetching c)
  | CallInspiration => mkS (app c) (view c) (enhancing c) (fetching c ++ [World.ai (world (app c))])
  end.

Definition deliverAll (now : N) (outs : list Output) (c : SConfig) : SConfig :=
  fold_left (deliver now) outs c.

(** The effects that run after a render in which the application state
    changed from [before]: [useEffect(..., [isApiKeySet, fetchExamples])]
    (lines 94-98), then [useEffect(..., [chatTitle])] (lines 128-130). *)
Definition sidebarEffects (now : N) (before : AppState.t) (c : SConfig) : SConfig :=
  let s := World.st (world (app c)) in
  let c1 :=
    if Bool.eqb (isApiKeySet before) (isApiKeySet s) then c
    else let '(v', outs) := fetchExamples s (view c) in deliverAll now outs (set_view v' c) in
  if String.eqb (chatTitle before) (chatTitle s) then c1
  else set_view (set_localTitle (chatTitle s) (view c1)) c1.

(** The sidebar mounts with the application in configuration [a]; its
    fetch effect runs on mount. *)
Definition mountSidebar (now : N) (a : Config) : SConfig :=
  let s := World.st (world a) in
  let '(v, outs) := fetchExamples s (initialView (chatTitle s)) in
  deliverAll now outs (mkS a v [] []).

(** The events of the other components (MainContent, SettingsModal,
    Toast, the layout). *)
Definition otherEvent (ev : Event) : bool :=
  match ev with LoadExample _ | ConvertCode _ | SaveApiKey _ | UiDispatch _ => true | _ => false end.

Inductive sidebar_step : SConfig -> SConfig -> Prop :=
| sb_user now ev c v' outs :
    sidebarHandler (world (app c)) ev (view c) = Some (v', outs) ->
    sidebar_step c (sidebarEffects now (World.st (world (app c))) (deliverAll now outs (set_view v' c)))
| sb_other now ev c :
    otherEvent ev = true -> uiAllowed ev (app c) = true ->
    sidebar_step c (sidebarEffects now (World.st (world (app c))) (set_app (fire now ev (app c)) c))
| sb_settle now i o c a' :
    settle now i o (app c) = Some a' ->
    sidebar_step c (sidebarEffects now (World.st (world (app c))) (set_app a' c))
| sb_enhanced i ai p generate c :
    enhancing c !! i = Some (ai, p) ->
    sidebar_step c (mkS (app c) (enhanceSettled (enhancePrompt ai generate p) (view c))
                      (delete i (enhancing c)) (fetching c))
| sb_examples i ai generate c :
    fetching c !! i = Some ai ->
    sidebar_step c (mkS (app c) (examplesSettled (Ok (getInspirationPrompts ai generate)) (view c))
                      (enhancing c) (delete i (fetching c))).

(** The sidebar's well-formedness: there are example prompts to show, at
    most one enhancement is in flight and exactly while [isEnhancing], and
    an open delete dialog names a listed project. *)
Definition sidebarWf (c : SConfig) : Prop :=
  examplePrompts (view c) <> [] /\
  length (enhancing c) <= 1 /\
  (isEnhancing (view c) = true <-> enhancing c <> []) /\
  (isDeleteModalOpen (view c) = true ->
   exists pid, projectToDelete (view c) = Some pid /\ pid ∈ Project.id <$> World.projects (world (app c))).

(** ** Lemmas *)

(** The effects after a render touch only the example fetch and the
    title field. *)
Lemma sidebarEffects_wf now before c : sidebarWf c -> sidebarWf (sidebarEffects now before c).
Proof.
  unfold sidebarEffects, fetchExamples, sidebarWf.
  intros H. repeat case_match; simplify_eq; cbn; done.
Qed.

Lemma wf_fire now e c :
  (forall x, e <> DeleteProject x) -> sidebarWf c -> sidebarWf (set_app (fire now e (app c)) c).
Proof.
  intros He (H1 & H2 & H3 & H4). split_and!; [done..|]. intros Hm.
  destruct (H4 Hm) as (pid & Hp & Hin). exists pid. split; [done|]. by apply fire_keeps_id.
Qed.

Lemma handler_wf now ev c v' outs :
  sidebarHandler (world (app c)) ev (view c) = Some (v', outs) ->
  sidebarWf c -> sidebarWf (deliverAll now outs (set_view v' c)).
Proof.
  intros Hh Hwf. destruct c as [a v en fe].
  destruct ev; cbn in Hh;
    unfold handleSubmit, fetchExamples, handleExamplePromptClick, handleEnhanceClick, handleTitleSave,
      confirmDeleteProject in Hh;
    repeat (case_match; try discriminate); simplify_eq;
    cbn [deliverAll fold_left deliver].
  all: try (apply wf_fire; [by intros ? [=]|]).
  all: repeat match goal with
         | H : (_ || _) = false |- _ => apply orb_false_elim in H as [? ?]
         | H : (_ && _) = true |- _ => apply andb_prop in H as [? ?]
         | H : bool_decide _ = true |- _ => apply bool_decide_eq_true in H
         end.
  all: destruct Hwf as (W1 & W2 & W3 & W4); unfold sidebarWf; cbn -[fire] in *; try split_and!; try done.
  - destruct en; [done|]. by destruct W3 as [_ W3]; rewrite W3 in *.
  - destruct en; [done|]. by destruct W3 as [_ W3]; rewrite W3 in *.
  - intros _. by eexists.
Qed.

Lemma length_le1_delete {A} (l : list A) i x : length l <= 1 -> l !! i = Some x -> delete i l = [].
Proof. destruct l as [|y [|z l]], i; cbn; intros; try done; lia. Qed.

Lemma sidebar_step_wf c c' : sidebar_step c c' -> sidebarWf c -> sidebarWf c'.
Proof.
  intros Hs Hwf. destruct Hs as [now ev c v' outs Hh|now ev c Ho Ha|now i o c a' Hs|i ai p gen c Hi|i ai gen c Hi].
  - by apply sidebarEffects_wf, (handler_wf now ev c v' outs Hh).
  - apply sidebarEffects_wf, wf_fire; [|done]. intros x ->. discriminate.
  - apply sidebarEffects_wf. destruct Hwf as (W1 & W2 & W3 & W4). split_and!; [done..|].
    intros Hm. destruct (W4 Hm) as (pid & Hp & Hin). exists pid. split; [done|].
    by apply (settle_keeps_id now i o (app c)).
  - destruct Hwf as (W1 & W2 & W3 & W4). cbn.
    rewrite (length_le1_delete _ i (ai, p)) by done.
    unfold enhanceSettled. destruct (enhancePrompt ai gen p); cbn; split_and!; try done; cbn; lia.
  - destruct Hwf as (W1 & W2 & W3 & W4). cbn. split_and!; [apply getInspirationPrompts_nonempty| |done|].
    all: rewrite ?length_delete; lia || done.
Qed.

Lemma mountSidebar_wf now a : sidebarWf (mountSidebar now a).
Proof. unfold mountSidebar, fetchExamples, sidebarWf. destruct (isApiKeySet (World.st (world a))); cbn; split_and!; done || lia. Qed.

Lemma mountSidebar_app now a : app (mountSidebar now a) = a.
Proof. unfold mountSidebar, fetchExamples. by destruct (isApiKeySet (World.st (world a))). Qed.

Lemma sidebarEffects_app now before c : app (sidebarEffects now before c) = app c.
Proof. unfold sidebarEffects, fetchExamples. by repeat case_match; simplify_eq. Qed.

Lemma sidebar_rtc_wf c c' : rtc sidebar_step c c' -> sidebarWf c -> sidebarWf c'.
Proof. induction 1; eauto using sidebar_step_wf. Qed.

(** Every call of the sidebar to the context is an event the guards of
    [Ui.v] allow. *)
Lemma handler_ui now ev c v' outs :
  sidebarHandler (world (app c)) ev (view c) = Some (v', outs) -> sidebarWf c ->
  rtc ui_step (app c) (app (deliverAll now outs (set_view v' c))).
Proof.
  intros Hh (W1 & W2 & W3 & W4). destruct c as [a v en fe].
  destruct ev; cbn in Hh;
    unfold handleSubmit, fetchExamples, handleExamplePromptClick, handleEnhanceClick, handleTitleSave,
      confirmDeleteProject in Hh;
    repeat (case_match; try discriminate); simplify_eq; cbn [deliverAll fold_left deliver];
    cbn [app set_app set_view]; try apply rtc_refl; apply rtc_once, ui_fire.
  all: repeat match goal with
         | H : (_ || _) = false |- _ => apply orb_false_elim in H as [? ?]
         | H : (_ && _) = true |- _ => apply andb_prop in H as [? ?]
         end.
  all: cbn [uiAllowed]; unfold canSubmit, canUseExamplePrompt; cbn in *;
    repeat match goal with H : negb _ = false |- _ => apply negb_false_iff in H end;
    rewrite ?negb_true_iff; try done.
  all: try (rewrite ?andb_true_iff, ?negb_true_iff; naive_solver).
  destruct W4 as (pid & Hp & Hin); [done|]. simplify_eq. by apply bool_decide_eq_true.
Qed.

Lemma sidebar_step_ui c c' : sidebar_step c c' -> sidebarWf c -> rtc ui_step (app c) (app c').
Proof.
  intros Hs Hwf. destruct Hs as [now ev c v' outs Hh|now ev c Ho Ha|now i o c a' Hs| |];
    rewrite ?sidebarEffects_app; cbn [app set_app].
  - by apply (handler_ui now ev c v' outs).
  - by apply rtc_once, ui_fire.
  - apply rtc_once. by eapply ui_settle.
  - apply rtc_refl.
  - apply rtc_refl.
Qed.

Lemma js_trim_truthy s : js_truthy (js_trim s) = true -> js_truthy s = true.
Proof. by destruct s. Qed.

(** ** Claims *)

(** C36: In every configuration reachable from the sidebar's mount, the
    sidebar has example prompts to show (the fetch never yields an empty
    list), at most one [handleEnhancePrompt] call is in flight and one is
    exactly while [isEnhancing] is set, and an open delete dialog names a
    project of the list. *)
Theorem sidebar_wf_reachable now a c :
  rtc sidebar_step (mountSidebar now a) c -> sidebarWf c.
Proof. intros H. eapply sidebar_rtc_wf; [exact H|apply mountSidebar_wf]. Qed.

(** C37: The sidebar refines the guarded user interface of [Ui.v]: every
    run of the application driven by the sidebar, the other components and
    the settling calls is a run of [ui_step]; in particular every event the
    sidebar fires passes [uiAllowed], a confirmed deletion included. *)
Theorem sidebar_refines_ui now a c :
  rtc sidebar_step (mountSidebar now a) c -> rtc ui_step a (app c).
Proof.
  intros H. rewrite <- (mountSidebar_app now a).
  assert (Hwf := mountSidebar_wf now a). revert Hwf.
  induction H as [x|x y z Hxy Hyz IH]; intros Hwf; [apply rtc_refl|].
  etrans; [by apply sidebar_step_ui|]. apply IH. by eapply sidebar_step_wf.
Qed.

(** C38: While an enhancement is in flight the prompt box is disabled but
    dictation still appends to the prompt; when the enhanced text arrives
    it replaces the prompt and the dictated words are lost (a failed
    enhancement keeps them). *)
Theorem enhance_discards_dictation w v x t e :
  isEnhancing v = false -> js_truthy (js_trim (prompt v)) = true -> isApiKeySet (World.st w) = true ->
  sidebarHandler w ClickEnhance v = Some (set_isEnhancing true v, [CallEnhance (prompt v)]) /\
  sidebarHandler w (TypePrompt x) (set_isEnhancing true v) = None /\
  sidebarHandler w (Dictate t) (set_isEnhancing true v)
    = Some (handleTranscriptUpdate t (set_isEnhancing true v), []) /\
  prompt (handleTranscriptUpdate t (set_isEnhancing true v)) = prompt v +:+ " " +:+ t /\
  prompt (enhanceSettled (Ok e) (handleTranscriptUpdate t (set_isEnhancing true v))) = e /\
  prompt (enhanceSettled (Err e) (handleTranscriptUpdate t (set_isEnhancing true v)))
    = prompt v +:+ " " +:+ t.
Proof.
  intros He Ht Hk. pose proof (js_trim_truthy _ Ht) as Hp.
  cbn [sidebarHandler]. unfold handleEnhanceClick, handleTranscriptUpdate.
  rewrite He, Ht, Hk. cbn. rewrite Hp, orb_true_r. by split_and!.
Qed.

(** ** Witnesses *)

Ltac sidebar_user now ev := eapply rtc_l; [apply (sb_user now ev); reflexivity|].

Lemma sidebar_wf_reachable_witness :
  exists c, rtc sidebar_step (mountSidebar 5 (mkConfig (demoWorld demoState) [])) c /\
    enhancing c <> [] /\ sidebarWf c.
Proof.
  eexists. split; [|split].
  - sidebar_user 6%N (TypePrompt "a pricing table"). sidebar_user 7%N ClickEnhance. apply rtc_refl.
  - vm_compute. discriminate.
  - apply (sidebar_wf_reachable 5 (mkConfig (demoWorld demoState) [])).
    sidebar_user 6%N (TypePrompt "a pricing table"). sidebar_user 7%N ClickEnhance. apply rtc_refl.
Defined.

Lemma sidebar_refines_ui_witness :
  exists c, rtc sidebar_step (mountSidebar 5 (mkConfig (demoWorld demoState) [])) c /\
    pending (app c) <> [] /\ rtc ui_step (mkConfig (demoWorld demoState) []) (app c).
Proof.
  eexists. split; [|split].
  - sidebar_user 6%N (TypePrompt "a pricing table"). sidebar_user 7%N Submit. apply rtc_refl.
  - vm_compute. discriminate.
  - apply (sidebar_refines_ui 5 (mkConfig (demoWorld demoState) [])).
    sidebar_user 6%N (TypePrompt "a pricing table"). sidebar_user 7%N Submit. apply rtc_refl.
Defined.

Lemma enhance_discards_dictation_witness :
  prompt (enhanceSettled (Ok "An enhanced prompt")
    (handleTranscriptUpdate "with a dark theme"
       (set_isEnhancing true (set_prompt "a pricing table" (initialView "Landing page")))))
  = "An enhanced prompt".
Proof.
  destruct (enhance_discards_dictation (demoWorld demoState)
              (set_prompt "a pricing table" (initialView "Landing page"))
              "" "with a dark theme" "An enhanced prompt" eq_refl eq_refl eq_refl)
    as (_ & _ & _ & _ & H & _).
  exact H.
Defined.
